(** * EduTrack clickstream pipeline: a shallow embedding and its properties

    The development follows the event pipeline of the repository:

    - [Js]       the fragment of JavaScript's dynamic semantics the code
                 relies on (truthiness, [||], [==] / [===] against a string,
                 [Date] construction and comparison, [Math.round],
                 [Array.prototype.sort], insertion-ordered [Set]);
    - [Server]   backend/server-local.js: [readDB], [writeDB] and the three
                 clickstream routes;
    - [Client]   the ClickstreamService class (services/clickstreamService):
                 [initialize], [trackEvent], [storeFailedEvent],
                 [retryFailedEvents], [trackQuizComplete];
    - [Dashboard] the aggregation code of AnalyticsDashboard.jsx
                 ([processAnalytics]), of the LearningProgress component
                 ([processProgressData]) and the streak loop of App-old.jsx
                 ([loadLearningAnalytics]).

    JavaScript numbers are IEEE-754 doubles and are modelled by Rocq's
    primitive floats; time values of [Date] objects are integral numbers of
    milliseconds and are modelled by [Z], with [None] for an invalid date. *)

From Stdlib Require Import ZArith Bool Ascii String Lia.
From Stdlib Require Import Sorting.Sorted Sorting.Permutation.
From Stdlib Require Import Uint63 PrimFloat SpecFloat FloatOps.
From stdpp Require Import base option list gmap strings pretty.

Set Warnings "-register-all".

(* ===================================================================== *)
(** * JavaScript values and built-ins *)
(* ===================================================================== *)

Module Js.

(** A JSON-like JavaScript value.  Objects are finite maps from property
    names to values; arrays of events are modelled as lists where they
    occur (the event log, the retry queue). *)
Inductive JsValue : Type :=
| JUndefined
| JNull
| JBool (b : bool)
| JNum (x : float)
| JStr (s : string)
| JObj (o : gmap string JsValue).

(** Built-ins of the host that the repository calls but does not define.
    [DateParse] is [Date.parse] ([None] for NaN), [LocalDay] maps a time
    value to the index of its calendar day in the local time zone (what
    [toDateString] renders), [StringToNumber] is the string case of
    [ToNumber] and [NumberToString] the number case of [ToString]. *)
Class Runtime : Type := {
  StringToNumber : string -> float;
  NumberToString : float -> string;
  DateParse : string -> option Z;
  LocalDay : Z -> Z
}.

(** [ToBoolean]. *)
Definition truthy (v : JsValue) : bool :=
  match v with
  | JUndefined | JNull => false
  | JBool b => b
  | JNum x => negb (PrimFloat.is_nan x || PrimFloat.is_zero x)
  | JStr s => negb (String.eqb s "")
  | JObj _ => true
  end.

(** [a || b]. *)
Definition or_else (a b : JsValue) : JsValue := if truthy a then a else b.

(** [o?.k]: property read with optional chaining; primitives have none of
    the property names the code reads. *)
Definition get (o : JsValue) (k : string) : JsValue :=
  match o with
  | JObj m => default JUndefined (m !! k)
  | _ => JUndefined
  end.

(** [v === s] for a string [s]. *)
Definition strict_eq_str (v : JsValue) (s : string) : bool :=
  match v with
  | JStr t => String.eqb t s
  | _ => false
  end.

(** SameValueZero, the equality of [Set] and [Map] keys.  Objects are
    compared by identity; values parsed from JSON never share one. *)
Definition same_value_zero (a b : JsValue) : bool :=
  match a, b with
  | JUndefined, JUndefined => true
  | JNull, JNull => true
  | JBool x, JBool y => Bool.eqb x y
  | JNum x, JNum y => PrimFloat.eqb x y || (PrimFloat.is_nan x && PrimFloat.is_nan y)
  | JStr x, JStr y => String.eqb x y
  | _, _ => false
  end.

(** [[...new Set(xs)]]: the distinct members in order of first occurrence. *)
Fixpoint set_add {A : Type} (eqb : A -> A -> bool) (x : A) (s : list A) : list A :=
  match s with
  | [] => [x]
  | y :: s' => if eqb y x then s else y :: set_add eqb x s'
  end.

Definition set_of_list {A : Type} (eqb : A -> A -> bool) (xs : list A) : list A :=
  fold_left (fun s x => set_add eqb x s) xs [].

(** The time value of a finite double, truncated toward zero ([TimeClip]). *)
Definition time_clip (x : float) : option Z :=
  match Prim2SF x with
  | S754_zero _ => Some 0%Z
  | S754_finite s m e =>
      let a := if (0 <=? e)%Z then (Z.pos m * 2 ^ e)%Z else (Z.pos m / 2 ^ (- e))%Z in
      if (8640000000000000 <? a)%Z then None
      else Some (if s then (- a)%Z else a)
  | _ => None
  end.

(** An integer of magnitude below 2^53 as a double (exact). *)
Definition float_of_Z (z : Z) : float :=
  if (z <? 0)%Z then PrimFloat.opp (PrimFloat.of_uint63 (Uint63.of_Z (- z)))
  else PrimFloat.of_uint63 (Uint63.of_Z z).

(** [Math.round]: the nearest integer, ties toward +infinity; non-finite
    and integral arguments are returned unchanged and the sign of a zero
    result follows the argument. *)
Definition Math_round (x : float) : float :=
  match Prim2SF x with
  | S754_finite s m e =>
      if (0 <=? e)%Z then x
      else
        let den := (2 ^ (- e))%Z in
        let n := if s then Z.neg m else Z.pos m in
        let r := ((2 * n + den) / (2 * den))%Z in
        if (r =? 0)%Z then (if s then PrimFloat.opp PrimFloat.zero else PrimFloat.zero)
        else float_of_Z r
  | _ => x
  end.

(** A comparator result [v] with [v > 0]; NaN counts as 0. *)
Definition positive (v : option Z) : bool :=
  match v with
  | Some d => (0 <? d)%Z
  | None => false
  end.

(** [Array.prototype.sort(cmp)].  The sort is stable; for a consistent
    comparator its result is the unique stable sorted arrangement, which
    insertion sort computes.  [cmp x y] is the comparator's number, [None]
    for NaN, which the sort reads as 0: a comparator that returns it is
    not consistent, the engine then only promises a rearrangement, and
    the insertion below moves an element exactly past the neighbours the
    comparator ranks strictly after it. *)
Fixpoint insert_by {A : Type} (cmp : A -> A -> option Z) (x : A) (l : list A) : list A :=
  match l with
  | [] => [x]
  | y :: l' => if positive (cmp x y) then y :: insert_by cmp x l' else x :: l
  end.

Definition Array_sort {A : Type} (cmp : A -> A -> option Z) (l : list A) : list A :=
  fold_right (insert_by cmp) [] l.

(** [arr.slice(-n)]: the last [n] elements. *)
Definition slice_last {A : Type} (n : nat) (l : list A) : list A :=
  skipn (length l - n) l.

(** The outcome of a call that may throw. *)
Inductive Outcome (A : Type) : Type :=
| Returns (a : A)
| Throws (error : string).
Arguments Returns {A} a.
Arguments Throws {A} error.

(** Sequencing of calls: the continuation runs on the value returned, a
    throw passes through. *)
Definition and_then {A B : Type} (o : Outcome A) (k : A -> Outcome B) : Outcome B :=
  match o with
  | Returns a => k a
  | Throws e => Throws e
  end.

(** [ToPrimitive] on a value read from a JSON document.  A primitive is
    returned as it is.  A plain object parsed from JSON holds no function:
    an own [valueOf] or [toString] is not callable and is skipped, the
    inherited [valueOf] returns the object itself, and the inherited
    [toString] gives ["[object Object]"] unless an own ["toString"] key
    shadows it; then no method converts the object and a TypeError is
    thrown. *)
Definition ToPrimitive (v : JsValue) : Outcome JsValue :=
  match v with
  | JObj o =>
      match o !! "toString" with
      | Some _ => Throws "TypeError: Cannot convert object to primitive value"
      | None => Returns (JStr "[object Object]")
      end
  | _ => Returns v
  end.

(** Whether [ToPrimitive] returns. *)
Definition converts (v : JsValue) : bool :=
  match ToPrimitive v with
  | Returns _ => true
  | Throws _ => false
  end.

(** [arr.filter(callback)] with a callback that may throw: the elements
    are tested in order, and the first throw leaves the call. *)
Fixpoint Array_filter {A : Type} (callback : A -> Outcome bool) (l : list A)
    : Outcome (list A) :=
  match l with
  | [] => Returns []
  | x :: l' =>
      and_then (callback x) (fun keep =>
      and_then (Array_filter callback l') (fun kept =>
      Returns (if keep then x :: kept else kept)))
  end.

(** [arr.sort(cmp)] with a comparator that may throw: the insertion of
    [Array_sort], leaving at the first throw.  An array of fewer than two
    elements is returned without a call of the comparator; in a longer
    one every element is an argument of some call. *)
Fixpoint insert_by_call {A : Type} (cmp : A -> A -> Outcome (option Z)) (x : A) (l : list A)
    : Outcome (list A) :=
  match l with
  | [] => Returns [x]
  | y :: l' =>
      and_then (cmp x y) (fun c =>
      if positive c
      then and_then (insert_by_call cmp x l') (fun r => Returns (y :: r))
      else Returns (x :: l))
  end.

Definition Array_sort_call {A : Type} (cmp : A -> A -> Outcome (option Z)) (l : list A)
    : Outcome (list A) :=
  fold_right (fun x sorted => and_then sorted (insert_by_call cmp x)) (Returns []) l.

Section WithRuntime.
Context {rt : Runtime}.

(** [ToNumber]. *)
Definition ToNumber (v : JsValue) : float :=
  match v with
  | JUndefined => PrimFloat.nan
  | JNull => PrimFloat.zero
  | JBool b => if b then PrimFloat.one else PrimFloat.zero
  | JNum x => x
  | JStr s => StringToNumber s
  | JObj _ => PrimFloat.nan
  end.

(** [ToString] as used by template literals and property keys. *)
Definition ToString (v : JsValue) : string :=
  match v with
  | JUndefined => "undefined"
  | JNull => "null"
  | JBool b => if b then "true" else "false"
  | JNum x => NumberToString x
  | JStr s => s
  | JObj _ => "[object Object]"
  end.

(** [v == s] for a string [s]: strings compare as strings, numbers and
    booleans against [ToNumber s], [null] and [undefined] equal neither,
    an object through its primitive ["[object Object]"]. *)
Definition loose_eq_str (v : JsValue) (s : string) : bool :=
  match v with
  | JUndefined | JNull => false
  | JStr t => String.eqb t s
  | JNum _ | JBool _ => PrimFloat.eqb (ToNumber v) (StringToNumber s)
  | JObj _ => String.eqb "[object Object]" s
  end.

(** The comparison [v == s] as a call: an object operand is converted with
    [ToPrimitive] first, and the comparison throws when that throws;
    otherwise its value is [loose_eq_str v s]. *)
Definition equals_str (v : JsValue) (s : string) : Outcome bool :=
  and_then (ToPrimitive v) (fun _ => Returns (loose_eq_str v s)).

(** [v >= y] for a number [y]. *)
Definition ge_num (v : JsValue) (y : float) : bool :=
  PrimFloat.leb y (ToNumber v).

(** The time value of [new Date(v)]; [None] is an invalid date. *)
Definition new_Date (v : JsValue) : option Z :=
  match v with
  | JUndefined => None
  | JNull => Some 0%Z
  | JBool b => Some (if b then 1%Z else 0%Z)
  | JNum x => time_clip x
  | JStr s => DateParse s
  | JObj _ => None
  end.

(** The construction [new Date(v)] as a call: an object argument is
    converted with [ToPrimitive] first, and the construction throws when
    that throws; otherwise the date is [new_Date v]. *)
Definition construct_Date (v : JsValue) : Outcome (option Z) :=
  and_then (ToPrimitive v) (fun _ => Returns (new_Date v)).

(** [a >= b] and [a <= b] on [Date] objects: false when either is invalid. *)
Definition date_ge (a b : option Z) : bool :=
  match a, b with
  | Some x, Some y => (y <=? x)%Z
  | _, _ => false
  end.

Definition date_le (a b : option Z) : bool :=
  match a, b with
  | Some x, Some y => (x <=? y)%Z
  | _, _ => false
  end.

(** [a - b] on [Date] objects.  The double difference of two time values
    has the sign of their exact difference, which is all a comparator's
    caller inspects. *)
Definition date_sub (a b : option Z) : option Z :=
  match a, b with
  | Some x, Some y => Some (x - y)%Z
  | _, _ => None
  end.

(** What [toDateString] distinguishes: the local calendar day, or the
    string ["Invalid Date"]. *)
Inductive DateString : Type :=
| InvalidDate
| LocalDate (day : Z).

Definition toDateString (d : option Z) : DateString :=
  match d with
  | Some t => LocalDate (LocalDay t)
  | None => InvalidDate
  end.

Definition DateString_eqb (a b : DateString) : bool :=
  match a, b with
  | InvalidDate, InvalidDate => true
  | LocalDate x, LocalDate y => (x =? y)%Z
  | _, _ => false
  end.

End WithRuntime.

End Js.

(* ===================================================================== *)
(** * Interaction events *)
(* ===================================================================== *)

Import Js.

(** One clickstream record.  The fields are those the ingestion endpoint
    stores; a field that is absent from a JSON document reads as
    [JUndefined]. *)
Record Event : Type := mkEvent {
  id : JsValue;
  sessionId : JsValue;
  userId : JsValue;
  eventType : JsValue;
  eventData : JsValue;
  timestamp : JsValue;
  url : JsValue;
  userAgent : JsValue;
  viewport : JsValue;
  ip : JsValue;
  action : JsValue;
  elementId : JsValue;
  page : JsValue;
  additionalData : JsValue;
  details : JsValue
}.

(* ===================================================================== *)
(** * backend/server-local.js *)
(* ===================================================================== *)

Module Server.

(** The content of data/clickstream.json: a document that parses to an
    array of events, or one on which [readFileSync] or [JSON.parse] throws. *)
Inductive FileContent : Type :=
| Document (events : list Event)
| Unreadable.

(** The file system as the server sees it.  [write_fault = Some c] means
    that [writeFileSync] throws and leaves the file holding [c]. *)
Record FileSystem : Type := mkFS {
  clickstream_json : FileContent;
  write_fault : option FileContent
}.

(** [JSON.parse(fs.readFileSync(dbFiles.clickstream, 'utf8'))]. *)
Definition read_and_parse (fs : FileSystem) : Outcome (list Event) :=
  match clickstream_json fs with
  | Document events => Returns events
  | Unreadable => Throws "read error"
  end.

(** [fs.writeFileSync(dbFiles.clickstream, JSON.stringify(data, null, 2))]. *)
Definition writeFileSync (fs : FileSystem) (data : list Event) : Outcome unit * FileSystem :=
  match write_fault fs with
  | None => (Returns tt, mkFS (Document data) None)
  | Some remains => (Throws "write error", mkFS remains (Some remains))
  end.

(** [readDB('clickstream')]: a failed read is logged and yields []. *)
Definition readDB (fs : FileSystem) : list Event :=
  match read_and_parse fs with
  | Returns data => data
  | Throws _ => []
  end.

(** [writeDB('clickstream', data)]: a failed write is logged and reported
    by returning [false]. *)
Definition writeDB (fs : FileSystem) (data : list Event) : bool * FileSystem :=
  match writeFileSync fs data with
  | (Returns _, fs') => (true, fs')
  | (Throws _, fs') => (false, fs')
  end.

(** The JSON bodies the clickstream routes send. *)
Inductive Body : Type :=
| Recorded (success : bool) (message : string) (id : JsValue)
| Failure (success : bool) (message : string)
| Analytics (success : bool) (data : list Event) (count : nat)
| UserHistory (success : bool) (userId : string) (totalActions : nat) (data : list Event).

Record Response : Type := mkResponse {
  status : nat;
  body : Body
}.

(** [res.json(b)] and [res.status(n).json(b)]. *)
Definition json (b : Body) : Response := mkResponse 200 b.
Definition status_json (n : nat) (b : Body) : Response := mkResponse n b.

(** What a handler reads of the request and of the process: the parsed
    body, the User-Agent header, [req.ip], [Date.now()] and
    [new Date().toISOString()]. *)
Record Request : Type := mkRequest {
  req_body : Event;
  header_user_agent : JsValue;
  req_ip : JsValue;
  Date_now : float;
  now_toISOString : string
}.

(** [clickData] of the POST route. *)
Definition clickData (req : Request) : Event :=
  let b := req_body req in
  {| id := JNum (Date_now req);
     sessionId := sessionId b;
     userId := userId b;
     eventType := eventType b;
     eventData := eventData b;
     timestamp := or_else (timestamp b) (JStr (now_toISOString req));
     url := url b;
     userAgent := or_else (userAgent b) (header_user_agent req);
     viewport := viewport b;
     ip := req_ip req;
     action := or_else (action b) (eventType b);
     elementId := elementId b;
     page := page b;
     additionalData := additionalData b;
     details := or_else (details b) (eventData b) |}.

(** The template literal of the route's [console.log] evaluates
    [clickData.sessionId?.substring(0, 8)], which throws a TypeError when
    the session id is neither nullish nor a string. *)
Definition log_recorded (e : Event) : Outcome unit :=
  match sessionId e with
  | JUndefined | JNull | JStr _ => Returns tt
  | _ => Throws "clickData.sessionId?.substring is not a function"
  end.

(** [app.post('/api/clickstream')]. *)
Definition post_clickstream (fs : FileSystem) (req : Request) : Response * FileSystem :=
  let e := clickData req in
  let clickstream := readDB fs in
  let '(_, fs') := writeDB fs (clickstream ++ [e]) in
  match log_recorded e with
  | Returns _ => (json (Recorded true "Clickstream data recorded" (id e)), fs')
  | Throws _ => (status_json 500 (Failure false "Failed to record clickstream data"), fs')
  end.




(** ** Reading a response and a query *)

(** The events a response carries. *)
Definition data_of (r : Response) : list Event :=
  match body r with
  | Analytics _ data _ => data
  | UserHistory _ _ _ data => data
  | _ => []
  end.




Section WithRuntime.
Context {rt : Runtime}.

(** The values of the four filter conditions, when their evaluation
    returns. *)
Definition userId_matches (v : string) (item : Event) : bool :=
  loose_eq_str (userId item) v.









(** The comparator [(a, b) => new Date(b.timestamp) - new Date(a.timestamp)]:
    its value when it returns, and the call, which constructs the date of
    [b] and then the date of [a]. *)
Definition newest_first (a b : Event) : option Z :=
  date_sub (new_Date (timestamp b)) (new_Date (timestamp a)).

Definition compare_newest_first (a b : Event) : Outcome (option Z) :=
  and_then (construct_Date (timestamp b)) (fun db =>
  and_then (construct_Date (timestamp a)) (fun da =>
  Returns (date_sub db da))).

(** [item.userId === userId || item.userId == userId]: its value when it
    returns, and the call, in which [==] is evaluated when [===] is
    false. *)
Definition belongs_to (v : string) (item : Event) : bool :=
  strict_eq_str (userId item) v || loose_eq_str (userId item) v.

Definition test_owner (v : string) (item : Event) : Outcome bool :=
  if strict_eq_str (userId item) v then Returns true
  else equals_str (userId item) v.

(** [app.get('/api/clickstream/user/:userId')]: the body of the [try], and
    the answer of the [catch] when the filter callback or the comparator
    throws. *)
Definition get_user_clickstream (fs : FileSystem) (userId : string) : Response :=
  let clickstream := readDB fs in
  let userData := Array_filter (test_owner userId) clickstream in
  let userData := and_then userData (Array_sort_call compare_newest_first) in
  match userData with
  | Returns userData => json (UserHistory true userId (length userData) userData)
  | Throws _ => status_json 500 (Failure false "Failed to fetch user data")
  end.

(** ** Vocabulary for the statements about the routes *)






(** Whether the per-user route takes its [catch]: the filter throws at a
    stored [userId] that does not convert; the comparator is called when
    the user has two events or more, and throws at a [timestamp] that
    does not convert. *)
Definition user_clickstream_throws (user : string) (log : list Event) : bool :=
  existsb (fun e => negb (converts (userId e))) log
  || (2 <=? length (List.filter (belongs_to user) log))%nat
     && existsb (fun e => negb (converts (timestamp e))) (List.filter (belongs_to user) log).




End WithRuntime.

End Server.

(* ===================================================================== *)
(** * The ClickstreamService class *)
(* ===================================================================== *)

Module Client.

(** The methods of [clickstreamLogger]. *)
Inductive LogLevel : Type := Info | Success | Error | Interaction | Api.

Record LogLine : Type := mkLog {
  level : LogLevel;
  text : string
}.

(** A string kept in localStorage under 'failed_clickstream_events': the
    serialisation of an array of events, or a text that [JSON.parse]
    rejects. *)
Inductive Text : Type :=
| Serialized (events : list Event)
| Garbled.

(** How a [fetch] settles: it rejects, or it resolves to a response with a
    status and a body that [response.json()] parses ([Some]) or rejects. *)
Inductive FetchResult : Type :=
| NetworkError
| HttpResponse (status : nat) (parsed : option JsValue).

(** The fields of [this]. *)
Record Service : Type := mkService {
  this_baseURL : string;
  this_sessionId : string;
  this_userId : JsValue;
  this_isInitialized : bool
}.

(** What the page reads of the browser. *)
Record Window : Type := mkWindow {
  location_href : string;
  navigator_userAgent : string;
  innerWidth : float;
  innerHeight : float;
  now_toISOString : string
}.

(** The state a method runs in.  [network n e] is how the [n]-th POST to
    /clickstream settles when its body is [e]; [posted] lists the bodies
    handed to [fetch] so far; [storage_full] makes [setItem] throw a
    QuotaExceededError. *)
Record World : Type := mkWorld {
  this : Service;
  window : Window;
  failed_clickstream_events : option Text;
  storage_full : bool;
  network : nat -> Event -> FetchResult;
  posted : list Event;
  console : list LogLine
}.

(** Computations over a [World] that return or throw. *)
Definition M (A : Type) : Type := World -> Outcome A * World.

Definition ret {A : Type} (a : A) : M A := fun w => (Returns a, w).

Definition bind {A B : Type} (m : M A) (k : A -> M B) : M B :=
  fun w =>
    match m w with
    | (Returns a, w') => k a w'
    | (Throws e, w') => (Throws e, w')
    end.

Definition throw {A : Type} (e : string) : M A := fun w => (Throws e, w).

(** [try { body } catch (error) { handler }]. *)
Definition try_catch {A : Type} (body : M A) (handler : string -> M A) : M A :=
  fun w =>
    match body w with
    | (Returns a, w') => (Returns a, w')
    | (Throws e, w') => handler e w'
    end.

Notation "x <- m ;; k" := (bind m (fun x => k))
  (at level 100, m at next level, right associativity).
Notation "m ;;; k" := (bind m (fun _ => k))
  (at level 100, right associativity).

Definition reads {A : Type} (f : World -> A) : M A := fun w => (Returns (f w), w).

Definition log (l : LogLevel) (msg : string) : M unit :=
  fun w => (Returns tt,
            mkWorld (this w) (window w) (failed_clickstream_events w) (storage_full w)
                    (network w) (posted w) (console w ++ [mkLog l msg])).

(** [fetch(`${this.baseURL}/clickstream`, {method: 'POST', body:
    JSON.stringify(e)})]: the request leaves and the promise it returns
    settles as the network decides. *)
Definition fetch_clickstream (e : Event) : M FetchResult :=
  fun w => (Returns (network w (length (posted w)) e),
            mkWorld (this w) (window w) (failed_clickstream_events w) (storage_full w)
                    (network w) (posted w ++ [e]) (console w)).

(** [await promise]: a rejection is thrown. *)
Definition await (p : FetchResult) : M (nat * option JsValue) :=
  match p with
  | NetworkError => throw "TypeError: Failed to fetch"
  | HttpResponse st parsed => ret (st, parsed)
  end.

(** [response.ok]. *)
Definition ok (st : nat) : bool := (200 <=? st) && (st <=? 299).

(** [await response.json()]. *)
Definition response_json (parsed : option JsValue) : M JsValue :=
  match parsed with
  | Some v => ret v
  | None => throw "SyntaxError"
  end.

Definition localStorage_getItem : M (option Text) := reads failed_clickstream_events.

Definition localStorage_setItem (t : Text) : M unit :=
  fun w =>
    if storage_full w then (Throws "QuotaExceededError", w)
    else (Returns tt,
          mkWorld (this w) (window w) (Some t) (storage_full w)
                  (network w) (posted w) (console w)).

Definition localStorage_removeItem : M unit :=
  fun w => (Returns tt,
            mkWorld (this w) (window w) None (storage_full w)
                    (network w) (posted w) (console w)).

Definition JSON_parse (t : Text) : M (list Event) :=
  match t with
  | Serialized events => ret events
  | Garbled => throw "SyntaxError"
  end.

Definition JSON_stringify (events : list Event) : Text := Serialized events.

(** [storeFailedEvent(event)]. *)
Definition storeFailedEvent (event : Event) : M unit :=
  try_catch
    (item <- localStorage_getItem ;;
     failedEvents <- JSON_parse (default (Serialized []) item) ;;
     let failedEvents := failedEvents ++ [event] in
     localStorage_setItem (JSON_stringify failedEvents) ;;;
     log Info "Failed event stored for retry")
    (fun _ => log Error "Failed to store event in localStorage").

(** [{ width: window.innerWidth, height: window.innerHeight }]. *)
Definition viewport_of (win : Window) : JsValue :=
  JObj (<["width" := JNum (innerWidth win)]> (<["height" := JNum (innerHeight win)]> ∅)).

(** The object literal [clickstreamEvent] of [trackEvent]. *)
Definition clickstreamEvent (s : Service) (win : Window)
    (eventType : string) (eventData : JsValue) : Event :=
  {| id := JUndefined;
     sessionId := JStr (this_sessionId s);
     userId := this_userId s;
     eventType := JStr eventType;
     eventData := eventData;
     timestamp := JStr (now_toISOString win);
     url := JStr (location_href win);
     userAgent := JStr (navigator_userAgent win);
     viewport := viewport_of win;
     ip := JUndefined;
     action := JStr eventType;
     elementId := JUndefined;
     page := JUndefined;
     additionalData := JUndefined;
     details := eventData |}.

(** The default parameter [eventData = {}]. *)
Definition or_empty_object (eventData : JsValue) : JsValue :=
  match eventData with
  | JUndefined => JObj ∅
  | _ => eventData
  end.

(** [result.id], read while logging the success: a [null] body throws. *)
Definition read_id (result : JsValue) : M JsValue :=
  match result with
  | JNull | JUndefined => throw "TypeError: cannot read properties of null"
  | _ => ret (get result "id")
  end.

(** [async trackEvent(eventType, eventData = {})]; the value is what the
    returned promise resolves to. *)
Definition trackEvent (eventType : string) (eventData : JsValue) : M JsValue :=
  let eventData := or_empty_object eventData in
  s <- reads this ;;
  if negb (this_isInitialized s) && negb (String.eqb eventType "session_start") then
    log Error "Clickstream not initialized. Call initialize() first." ;;;
    ret JUndefined
  else
    win <- reads window ;;
    let event := clickstreamEvent s win eventType eventData in
    log Interaction ("Event tracked: " ++ eventType) ;;;
    try_catch
      (promise <- fetch_clickstream event ;;
       response <- await promise ;;
       if ok (fst response) then
         result <- response_json (snd response) ;;
         _ <- read_id result ;;
         log Api "Event sent to server successfully" ;;;
         ret result
       else throw "HTTP error")
      (fun _ =>
         log Error "Failed to send clickstream event" ;;;
         storeFailedEvent event ;;;
         ret JUndefined).

(** [failedEvents.map(event => fetch(...))]: every request is started, in
    order; the promises are collected. *)
Fixpoint map_fetch (failedEvents : list Event) : M (list FetchResult) :=
  match failedEvents with
  | [] => ret []
  | event :: rest =>
      p <- fetch_clickstream event ;;
      ps <- map_fetch rest ;;
      ret (p :: ps)
  end.

(** [await Promise.allSettled(promises)] never rejects. *)
Definition Promise_allSettled (promises : list FetchResult) : M unit := ret tt.

(** [async retryFailedEvents()]. *)
Definition retryFailedEvents : M unit :=
  try_catch
    (item <- localStorage_getItem ;;
     failedEvents <- JSON_parse (default (Serialized []) item) ;;
     if (length failedEvents =? 0)%nat then ret tt
     else
       log Info "Retrying failed events" ;;;
       retryPromises <- map_fetch failedEvents ;;
       Promise_allSettled retryPromises ;;;
       localStorage_removeItem ;;;
       log Success "Failed events retry completed")
    (fun _ => log Error "Error during failed events retry").

(** [initialize(user)]; the [session_start] event is tracked without
    being awaited. *)
Definition initialize (user : JsValue) : M unit :=
  fun w =>
    let s := this w in
    let uid := or_else (or_else (get user "username") (get user "id")) (JStr "anonymous") in
    let s' := mkService (this_baseURL s) (this_sessionId s) uid true in
    let w1 := mkWorld s' (window w) (failed_clickstream_events w) (storage_full w)
                      (network w) (posted w) (console w) in
    (log Success "Clickstream tracking initialized" ;;;
     win <- reads window ;;
     trackEvent "session_start"
       (JObj (<["user" := uid]>
              (<["userUsername" := get user "username"]>
              (<["userId" := get user "id"]>
              (<["sessionId" := JStr (this_sessionId s')]>
              (<["userAgent" := JStr (navigator_userAgent win)]>
              (<["viewport" := viewport_of win]>
              (<["timestamp" := JStr (now_toISOString win)]> ∅)))))))) ;;;
     ret tt) w1.

(** The object literal [trackQuizComplete] passes as [eventData]. *)
Definition quiz_result (courseId : JsValue) (score totalQuestions timeSpent : float)
    (completedAt : string) : JsValue :=
  JObj (<["courseId" := courseId]>
        (<["score" := JNum score]>
        (<["totalQuestions" := JNum totalQuestions]>
        (<["percentage" :=
             JNum (Math_round (PrimFloat.mul (PrimFloat.div score totalQuestions) 100))]>
        (<["timeSpent" := JNum timeSpent]>
        (<["completedAt" := JStr completedAt]> ∅)))))).

(** [trackQuizComplete(courseId, score, totalQuestions, timeSpent)]. *)
Definition trackQuizComplete (courseId : JsValue) (score totalQuestions timeSpent : float)
    : M JsValue :=
  win <- reads window ;;
  trackEvent "quiz_complete"
    (quiz_result courseId score totalQuestions timeSpent (now_toISOString win)).

(** ** Vocabulary for the statements about the client *)

(** The events waiting in the retry queue. *)
Definition queue_entries (w : World) : list Event :=
  match failed_clickstream_events w with
  | Some (Serialized events) => events
  | _ => []
  end.

(** [w] with one more console line. *)
Definition logged (w : World) (l : LogLevel) (msg : string) : World :=
  mkWorld (this w) (window w) (failed_clickstream_events w) (storage_full w)
          (network w) (posted w) (console w ++ [mkLog l msg]).

(** A delivery succeeds when the response is 2xx and its body parses to a
    JSON value other than [null]; the body is then [trackEvent]'s result. *)
Definition delivered (r : FetchResult) : option JsValue :=
  match r with
  | NetworkError => None
  | HttpResponse st parsed =>
      if ok st then
        match parsed with
        | Some JNull | Some JUndefined | None => None
        | Some result => Some result
        end
      else None
  end.

(** The retry queue can take one more event: the stored text, if any,
    parses and [setItem] does not throw. *)
Definition storable (w : World) : bool :=
  negb (storage_full w) &&
  match failed_clickstream_events w with
  | Some Garbled => false
  | _ => true
  end.

(** The state a retry pass ends in. *)
Definition after_retry (w : World) : World :=
  match failed_clickstream_events w with
  | Some Garbled => logged w Error "Error during failed events retry"
  | None | Some (Serialized []) => w
  | Some (Serialized failedEvents) =>
      mkWorld (this w) (window w) None (storage_full w) (network w)
              (posted w ++ failedEvents)
              ((console w ++ [mkLog Info "Retrying failed events"])
                 ++ [mkLog Success "Failed events retry completed"])
  end.

End Client.

(* ===================================================================== *)
(** * Aggregation on the dashboards *)
(* ===================================================================== *)

Module Dashboard.

(** Arrays are objects: a function that receives one can change it under
    its caller.  The heap maps references to array contents. *)
Definition Ref : Type := nat.
Definition Heap : Type := list (list Event).

Definition deref (h : Heap) (r : Ref) : list Event := nth r h [].

(** [arr.slice(-n)] allocates a new array. *)
Definition Array_slice_last (n : nat) (r : Ref) (h : Heap) : Ref * Heap :=
  (length h, h ++ [slice_last n (deref h r)]).

(** [arr.reverse()] reverses [arr] in place and returns it. *)
Definition Array_reverse (r : Ref) (h : Heap) : Ref * Heap :=
  (r, <[r := rev (deref h r)]> h).

(** The records pushed for a [quiz_complete] event. *)
Record Quiz : Type := mkQuiz {
  quiz_courseId : JsValue;
  quiz_courseTitle : JsValue;
  quiz_score : JsValue;
  quiz_totalQuestions : JsValue;
  quiz_percentage : JsValue;
  quiz_timestamp : JsValue
}.

(** The records pushed for [video_play] and [text_content_view]. *)
Record Viewed : Type := mkViewed {
  viewed_courseId : JsValue;
  viewed_timestamp : JsValue
}.

Record Achievement : Type := mkAchievement {
  title : string;
  description : string;
  icon : string;
  earned : bool
}.

(** The result of [processAnalytics]. *)
Record Analytics : Type := mkAnalytics {
  totalEvents : nat;
  uniqueSessions : nat;
  eventTypes : gmap string nat;
  recentEvents : list Event;
  topCourses : gmap string nat;
  quizCompletions : list Quiz
}.

(** The result of [processProgressData]. *)
Record Progress : Type := mkProgress {
  totalSessions : nat;
  coursesViewed : list JsValue;
  quizzesTaken : list Quiz;
  videoWatched : list Viewed;
  textContentViewed : list Viewed;
  achievements : list Achievement;
  learningStreak : nat;
  totalTimeSpent : nat
}.

(** [counts[key] = (counts[key] || 0) + 1] on an object literal used as
    a table of counters (for keys other than the member names of
    [Object.prototype], which a fresh object already answers to). *)
Definition bump (key : string) (counts : gmap string nat) : gmap string nat :=
  <[key := S (default 0 (counts !! key))]> counts.

Definition First_Steps : Achievement :=
  mkAchievement "First Steps" "Viewed your first course" "🎯" true.
Definition Quiz_Master : Achievement :=
  mkAchievement "Quiz Master" "Completed your first quiz" "🧠" true.
Definition High_Achiever : Achievement :=
  mkAchievement "High Achiever" "Scored 80% or higher on a quiz" "⭐" true.
Definition Explorer : Achievement :=
  mkAchievement "Explorer" "Explored 3 different courses" "🔍" true.

(** [if (c) achievements.push(a)]. *)
Definition push_if (c : bool) (a : Achievement) (achievements : list Achievement)
    : list Achievement :=
  if c then achievements ++ [a] else achievements.

Section WithRuntime.
Context {rt : Runtime}.

(** [event.eventType || event.action || 'unknown']. *)
Definition type_of (event : Event) : JsValue :=
  or_else (or_else (eventType event) (action event)) (JStr "unknown").

(** The body of the [forEach] of [processAnalytics], on the three
    accumulators it updates. *)
Definition count_event (acc : gmap string nat * gmap string nat * list Quiz) (event : Event)
    : gmap string nat * gmap string nat * list Quiz :=
  let '(eventTypes, topCourses, quizCompletions) := acc in
  let eventType := type_of event in
  let eventTypes := bump (ToString eventType) eventTypes in
  let topCourses :=
    if truthy (get (eventData event) "courseId") then
      let courseKey :=
        (ToString (get (eventData event) "courseId") ++ " - " ++
         ToString (or_else (get (eventData event) "courseTitle") (JStr "Unknown")))%string in
      bump courseKey topCourses
    else topCourses in
  let quizCompletions :=
    if strict_eq_str eventType "quiz_complete" then
      quizCompletions ++
        [mkQuiz (get (eventData event) "courseId") (get (eventData event) "courseTitle")
                (get (eventData event) "score") (get (eventData event) "totalQuestions")
                (get (eventData event) "percentage") (timestamp event)]
    else quizCompletions in
  (eventTypes, topCourses, quizCompletions).

(** [processAnalytics(clickstream)] of AnalyticsDashboard.jsx; [None] is a
    nullish argument. *)
Definition processAnalytics (clickstream : option Ref) (h : Heap) : Analytics * Heap :=
  match clickstream with
  | None => (mkAnalytics 0 0 ∅ [] ∅ [], h)
  | Some r =>
      let events := deref h r in
      if (length events =? 0)%nat then (mkAnalytics 0 0 ∅ [] ∅ [], h)
      else
        let uniqueSessions := set_of_list same_value_zero (map sessionId events) in
        let '(eventTypes, topCourses, quizCompletions) :=
          fold_left count_event events (∅, ∅, []) in
        let '(copy, h1) := Array_slice_last 10 r h in
        let '(recent, h2) := Array_reverse copy h1 in
        (mkAnalytics (length events) (length uniqueSessions) eventTypes
                     (deref h2 recent) topCourses quizCompletions, h2)
  end.

(** The record [processProgressData] pushes for a [quiz_complete] event. *)
Definition quiz_of (event : Event) : Quiz :=
  mkQuiz (get (eventData event) "courseId") (get (eventData event) "courseTitle")
         (or_else (get (eventData event) "score") (JNum 0))
         (or_else (get (eventData event) "totalQuestions") (JNum 0))
         (or_else (get (eventData event) "percentage") (JNum 0))
         (timestamp event).

(** The body of the [forEach] of [processProgressData]. *)
Definition record_event
    (acc : list JsValue * list Quiz * list Viewed * list Viewed) (event : Event)
    : list JsValue * list Quiz * list Viewed * list Viewed :=
  let '(coursesViewed, quizzesTaken, videoWatched, textContentViewed) := acc in
  let eventType := type_of event in
  let coursesViewed :=
    if strict_eq_str eventType "course_view" && truthy (get (eventData event) "courseId")
    then set_add same_value_zero (get (eventData event) "courseId") coursesViewed
    else coursesViewed in
  let quizzesTaken :=
    if strict_eq_str eventType "quiz_complete" then
      quizzesTaken ++ [quiz_of event]
    else quizzesTaken in
  let videoWatched :=
    if strict_eq_str eventType "video_play" then
      videoWatched ++ [mkViewed (get (eventData event) "courseId") (timestamp event)]
    else videoWatched in
  let textContentViewed :=
    if strict_eq_str eventType "text_content_view" then
      textContentViewed ++ [mkViewed (get (eventData event) "courseId") (timestamp event)]
    else textContentViewed in
  (coursesViewed, quizzesTaken, videoWatched, textContentViewed).

(** [new Date(event.timestamp).toDateString()]. *)
Definition activity_date (event : Event) : DateString :=
  toDateString (new_Date (timestamp event)).

(** [processProgressData(clickstream)] of the LearningProgress component. *)
Definition processProgressData (clickstream : option Ref) (h : Heap) : Progress * Heap :=
  match clickstream with
  | None => (mkProgress 0 [] [] [] [] [] 0 0, h)
  | Some r =>
      let events := deref h r in
      if (length events =? 0)%nat then (mkProgress 0 [] [] [] [] [] 0 0, h)
      else
        let sessions := set_of_list same_value_zero (map sessionId events) in
        let '(coursesViewed, quizzesTaken, videoWatched, textContentViewed) :=
          fold_left record_event events ([], [], [], []) in
        let achievements := [] in
        let achievements := push_if (1 <=? length coursesViewed)%nat First_Steps achievements in
        let achievements := push_if (1 <=? length quizzesTaken)%nat Quiz_Master achievements in
        let achievements :=
          push_if (existsb (fun quiz => ge_num (quiz_percentage quiz) 80) quizzesTaken)
                  High_Achiever achievements in
        let achievements := push_if (3 <=? length coursesViewed)%nat Explorer achievements in
        let activityDates := set_of_list DateString_eqb (map activity_date events) in
        (mkProgress (length sessions) coursesViewed quizzesTaken videoWatched
                    textContentViewed achievements (length activityDates)
                    (length sessions * 15), h)
  end.

(** The keys of the [dailyEngagement] map of [loadLearningAnalytics]
    (App-old.jsx). *)
Definition dailyEngagement (userInteractions : list Event) : list DateString :=
  set_of_list DateString_eqb (map activity_date userInteractions).

Definition has (keys : list DateString) (d : DateString) : bool :=
  existsb (DateString_eqb d) keys.

(** [while (dailyEngagement.has(currentDate.toDateString()))
      { learningStreak++; currentDate.setDate(currentDate.getDate() - 1) }].
    [currentDate] is followed through its local calendar day, which
    [setDate(getDate() - 1)] moves back by one.  [fuel] bounds the number
    of iterations. *)
Fixpoint walk_back (fuel : nat) (keys : list DateString) (currentDay : Z) : nat :=
  match fuel with
  | O => O
  | S fuel' =>
      if has keys (LocalDate currentDay)
      then S (walk_back fuel' keys (currentDay - 1)%Z)
      else O
  end.

(** The streak of [loadLearningAnalytics]; [now] is the time value of
    [new Date()].  The loop leaves after at most one iteration per key. *)
Definition loadLearningAnalytics_learningStreak (userInteractions : list Event) (now : Z) : nat :=
  let keys := dailyEngagement userInteractions in
  walk_back (S (length keys)) keys (LocalDay now).

(** ** Vocabulary for the statements about the aggregation *)

(** The statistics of [processAnalytics] as a function of the events. *)
Definition summarize (events : list Event) : Analytics :=
  if (length events =? 0)%nat then mkAnalytics 0 0 ∅ [] ∅ []
  else
    let '(eventTypes, topCourses, quizCompletions) :=
      fold_left count_event events (∅, ∅, []) in
    mkAnalytics (length events)
                (length (set_of_list same_value_zero (map sessionId events)))
                eventTypes (rev (slice_last 10 events)) topCourses quizCompletions.




End WithRuntime.

End Dashboard.

(* ===================================================================== *)
(** * A concrete runtime *)
(* ===================================================================== *)

(** An instance of [Runtime] on which the model can be evaluated.  It
    agrees with the host on the inputs used below: timestamps in the
    format of [toISOString], decimal integer literals, integral numbers
    of magnitude below 2^53, and a page running in UTC.  The general
    statements are proved for every runtime. *)
Module Sample.

Definition digit (a : ascii) : option Z :=
  let n := Z.of_nat (nat_of_ascii a) in
  if (48 <=? n)%Z && (n <=? 57)%Z then Some (n - 48)%Z else None.

Fixpoint digits (s : string) (acc : Z) : option Z :=
  match s with
  | EmptyString => Some acc
  | String a rest =>
      match digit a with
      | Some d => digits rest (10 * acc + d)%Z
      | None => None
      end
  end.

Definition decimal (s : string) : option Z :=
  match s with
  | EmptyString => None
  | _ => digits s 0%Z
  end.

Definition StringToNumber (s : string) : float :=
  match s with
  | EmptyString => PrimFloat.zero
  | _ =>
      match digits s 0%Z with
      | Some z => float_of_Z z
      | None => PrimFloat.nan
      end
  end.

Definition NumberToString (x : float) : string :=
  match time_clip x with
  | Some z => if PrimFloat.eqb (float_of_Z z) x then pretty z else "NaN"
  | None => "NaN"
  end.

(** Days from 1970-01-01 to the given civil date (proleptic Gregorian). *)
Definition days_from_civil (y m d : Z) : Z :=
  let y' := if (m <=? 2)%Z then (y - 1)%Z else y in
  let era := (y' / 400)%Z in
  let yoe := (y' - era * 400)%Z in
  let mp := ((m + 9) mod 12)%Z in
  let doy := ((153 * mp + 2) / 5 + d - 1)%Z in
  let doe := (yoe * 365 + yoe / 4 - yoe / 100 + doy)%Z in
  (era * 146097 + doe - 719468)%Z.

Definition days_in_month (y m : Z) : Z :=
  if (m =? 2)%Z then
    (if ((y mod 4 =? 0)%Z && negb (y mod 100 =? 0)%Z) || (y mod 400 =? 0)%Z then 29 else 28)%Z
  else if (m =? 4)%Z || (m =? 6)%Z || (m =? 9)%Z || (m =? 11)%Z then 30%Z
  else 31%Z.

Definition field (s : string) (from len : nat) : option Z :=
  decimal (substring from len s).

(** [Date.parse] on "YYYY-MM-DDTHH:mm:ss.sssZ"; any other text is NaN. *)
Definition DateParse (s : string) : option Z :=
  if negb (String.length s =? 24)%nat then None
  else if negb (String.eqb (substring 4 1 s ++ substring 7 1 s ++ substring 10 1 s ++
                            substring 13 1 s ++ substring 16 1 s ++ substring 19 1 s ++
                            substring 23 1 s) "--T::.Z") then None
  else
    y ← field s 0 4; m ← field s 5 2; d ← field s 8 2;
    hh ← field s 11 2; mm ← field s 14 2; ss ← field s 17 2; ms ← field s 20 3;
    if (1 <=? m)%Z && (m <=? 12)%Z && (1 <=? d)%Z && (d <=? days_in_month y m)%Z
       && (hh <=? 23)%Z && (mm <=? 59)%Z && (ss <=? 59)%Z
    then Some ((((days_from_civil y m d * 24 + hh) * 60 + mm) * 60 + ss) * 1000 + ms)%Z
    else None.

Definition LocalDay (t : Z) : Z := (t / 86400000)%Z.

Definition runtime : Runtime :=
  {| Js.StringToNumber := StringToNumber;
     Js.NumberToString := NumberToString;
     Js.DateParse := DateParse;
     Js.LocalDay := LocalDay |}.

End Sample.

(* ===================================================================== *)
(** * Concrete pages, requests and logs *)
(* ===================================================================== *)

Module Examples.

(** A POST body as [trackEvent] builds it. *)
Definition sent (user type : string) (data : JsValue) (time : string) : Event :=
  Client.clickstreamEvent
    (Client.mkService "http://localhost:5000/api" "session_1704067200000_k3x9q2m1z" (JStr user) true)
    (Client.mkWindow "http://localhost:5173/" "Mozilla/5.0" 1280 720 time)
    type data.

Definition request (e : Event) : Server.Request :=
  Server.mkRequest e (JStr "Mozilla/5.0") (JStr "::1") 1704067200000
                   "2024-01-01T00:00:00.000Z".

(** The record the ingestion endpoint stores for a POST body. *)
Definition stored (e : Event) : Event := Server.clickData (request e).

Definition log_of (events : list Event) : Server.FileSystem :=
  Server.mkFS (Server.Document events) None.

(** A log file that cannot be written (the write throws and the file
    keeps its content). *)
Definition read_only (events : list Event) : Server.FileSystem :=
  Server.mkFS (Server.Document events) (Some (Server.Document events)).

Definition page_view : Event :=
  sent "alice" "page_view" (JObj (<["page" := JStr "videos"]> ∅)) "2024-01-01T09:00:00.000Z".

Definition older : Event :=
  sent "alice" "course_view" (JObj (<["courseId" := JNum 1]> ∅)) "2024-01-01T10:00:00.000Z".

Definition undated : Event :=
  sent "alice" "course_view" (JObj (<["courseId" := JNum 2]> ∅)) "not-a-date".







Definition newer : Event :=
  sent "alice" "course_view" (JObj (<["courseId" := JNum 3]> ∅)) "2024-01-02T10:00:00.000Z".

(** Activity on 4, 3 and 1 January 2024, none on 2 January; the page is
    opened on 4 January at noon. *)
Definition today_event : Event :=
  sent "alice" "page_view" (JObj (<["page" := JStr "home"]> ∅)) "2024-01-04T08:00:00.000Z".

Definition yesterday_event : Event :=
  sent "alice" "course_view" (JObj (<["courseId" := JNum 1]> ∅)) "2024-01-03T20:30:00.000Z".

Definition three_days_ago_event : Event :=
  sent "alice" "course_view" (JObj (<["courseId" := JNum 2]> ∅)) "2024-01-01T10:00:00.000Z".

Definition gap_log : list Event :=
  [stored today_event; stored yesterday_event; stored three_days_ago_event].

Definition noon_4_January_2024 : Z := 1704369600000.

(** A network that rejects every request, and one whose server answers
    as POST /api/clickstream does. *)
Definition offline : nat -> Event -> Client.FetchResult :=
  fun _ _ => Client.NetworkError.

Definition acknowledgement : JsValue :=
  JObj (<["success" := JBool true]>
        (<["message" := JStr "Clickstream data recorded"]>
        (<["id" := JNum 1704067200000]> ∅))).

Definition online : nat -> Event -> Client.FetchResult :=
  fun _ _ => Client.HttpResponse 200 (Some acknowledgement).

(** The user object of a logged-in learner. *)
Definition alice : JsValue :=
  JObj (<["id" := JNum 1]> (<["username" := JStr "alice"]> ∅)).

(** A page with the given tracking state, retry queue, storage condition
    and network. *)
Definition page_of (initialized : bool) (item : option Client.Text) (full : bool)
    (net : nat -> Event -> Client.FetchResult) : Client.World :=
  Client.mkWorld
    (Client.mkService "http://localhost:5000/api" "session_1704067200000_k3x9q2m1z"
                      (if initialized then JStr "alice" else JNull) initialized)
    (Client.mkWindow "http://localhost:5173/" "Mozilla/5.0" 1280 720
                     "2024-01-01T09:00:00.000Z")
    item full net [] [].

End Examples.

(* ===================================================================== *)
(** * More of JavaScript: strings, spread, strict equality *)
(* ===================================================================== *)

Module JsMore.

(** [a === b].  Two objects are equal only when they are the same object;
    the operands compared below are parsed from different documents. *)
Definition strict_eq (a b : JsValue) : bool :=
  match a, b with
  | JUndefined, JUndefined => true
  | JNull, JNull => true
  | JBool x, JBool y => Bool.eqb x y
  | JNum x, JNum y => PrimFloat.eqb x y
  | JStr x, JStr y => String.eqb x y
  | _, _ => false
  end.

(** The characters of a string, each as a one-character string value. *)
Fixpoint characters (s : string) : list JsValue :=
  match s with
  | EmptyString => []
  | String c rest => JStr (String c EmptyString) :: characters rest
  end.

(** The own enumerable properties [{...v}] copies: those of an object, the
    indexed characters of a string, none of any other primitive. *)
Definition spread (v : JsValue) : gmap string JsValue :=
  match v with
  | JObj m => m
  | JStr s => list_to_map (imap (fun i c => (pretty i, c)) (characters s))
  | _ => ∅
  end.

(** A default parameter [p = d]: [d] replaces an [undefined] argument. *)
Definition default_param (d v : JsValue) : JsValue :=
  match v with
  | JUndefined => d
  | _ => v
  end.

(** [s.split(sep)] for a one-character separator. *)
Fixpoint split (sep : ascii) (s : string) : list string :=
  match s with
  | EmptyString => [EmptyString]
  | String c rest =>
      if Ascii.eqb c sep then EmptyString :: split sep rest
      else
        match split sep rest with
        | part :: parts => String c part :: parts
        | [] => [String c EmptyString]
        end
  end.

(** The number of occurrences of a character. *)
Fixpoint occurrences (c : ascii) (s : string) : nat :=
  match s with
  | EmptyString => 0
  | String d rest => (if Ascii.eqb d c then 1 else 0) + occurrences c rest
  end.

Definition is_Some_bool {A : Type} (o : option A) : bool :=
  match o with
  | Some _ => true
  | None => false
  end.

Definition is_space (a : ascii) : bool :=
  let n := nat_of_ascii a in
  (n =? 32)%nat || ((9 <=? n)%nat && (n <=? 13)%nat).

Fixpoint trim_start (s : string) : string :=
  match s with
  | String c rest => if is_space c then trim_start rest else s
  | EmptyString => s
  end.

Definition digit_value (a : ascii) : option N :=
  let n := N.of_nat (nat_of_ascii a) in
  if (48 <=? n)%N && (n <=? 57)%N then Some (n - 48)%N else None.

Definition hex_value (a : ascii) : option N :=
  let n := N.of_nat (nat_of_ascii a) in
  if (48 <=? n)%N && (n <=? 57)%N then Some (n - 48)%N
  else if (97 <=? n)%N && (n <=? 102)%N then Some (n - 87)%N
  else if (65 <=? n)%N && (n <=? 70)%N then Some (n - 55)%N
  else None.

(** Every character is a decimal digit. *)
Fixpoint all_digits (s : string) : bool :=
  match s with
  | EmptyString => true
  | String c rest => is_Some_bool (digit_value c) && all_digits rest
  end.

(** The value of the longest prefix of digits, continuing from [acc];
    [None] as long as no digit was read. *)
Fixpoint read_digits (value : ascii -> option N) (radix : N) (s : string) (acc : option N)
    : option N :=
  match s with
  | EmptyString => acc
  | String c rest =>
      match value c with
      | Some d => read_digits value radix rest (Some (radix * default 0%N acc + d)%N)
      | None => acc
      end
  end.

(** [parseInt(s)]: leading white space, a sign, a [0x] prefix, then the
    longest run of digits; [None] is NaN. *)
Definition parseInt (s : string) : option Z :=
  let s := trim_start s in
  let '(negative, s) :=
    match s with
    | String "-" rest => (true, rest)
    | String "+" rest => (false, rest)
    | _ => (false, s)
    end in
  let magnitude :=
    match s with
    | String "0" (String "x" rest) | String "0" (String "X" rest) =>
        read_digits hex_value 16 rest None
    | _ => read_digits digit_value 10 s None
    end in
  (fun n => if negative then (- Z.of_N n)%Z else Z.of_N n) <$> magnitude.

(** [parseInt(parts[i])]; a missing part is [undefined], which does not
    parse. *)
Definition parseInt_part (parts : list string) (i : nat) : option Z :=
  match nth_error parts i with
  | Some part => parseInt part
  | None => None
  end.

(** A number that holds an integer (exact below 2^53), or NaN. *)
Definition number_of (z : option Z) : JsValue :=
  match z with
  | Some n => JNum (float_of_Z n)
  | None => JNum PrimFloat.nan
  end.



End JsMore.

(* ===================================================================== *)
(** * The rest of the ClickstreamService class *)
(* ===================================================================== *)

Module ClientMore.
Import Client JsMore.

(** [generateSessionId()]; [Date_now] is the reading of [Date.now()] and
    [random] the text [Math.random().toString(36).substr(2, 9)]. *)
Definition generateSessionId (Date_now : N) (random : string) : string :=
  "session_" +:+ pretty Date_now +:+ "_" +:+ random.

(** [import.meta.env.VITE_API_BASE_URL || 'http://localhost:5000/api']. *)
Definition base_url (VITE_API_BASE_URL : option string) : string :=
  match VITE_API_BASE_URL with
  | Some u => if String.eqb u "" then "http://localhost:5000/api" else u
  | None => "http://localhost:5000/api"
  end.

(** [constructor()]: the singleton the module creates when it loads. *)
Definition constructor (VITE_API_BASE_URL : option string) (Date_now : N) (random : string)
    (w : World) : World :=
  mkWorld (mkService (base_url VITE_API_BASE_URL) (generateSessionId Date_now random)
                     JNull false)
          (window w) (failed_clickstream_events w) (storage_full w) (network w) (posted w)
          (console w ++ [mkLog Info "Clickstream service initialized"]).

(** [trackNavigation(from, to, data = {})]. *)
Definition trackNavigation (from to data : JsValue) : M JsValue :=
  let data := default_param (JObj ∅) data in
  trackEvent "navigation"
    (JObj (spread data ∪ <["from" := from]> (<["to" := to]> ∅))).

(** [trackPageView(pageName, data = {})]. *)
Definition trackPageView (pageName data : JsValue) : M JsValue :=
  let data := default_param (JObj ∅) data in
  win <- reads window ;;
  trackEvent "page_view"
    (JObj (spread data ∪
           <["page" := pageName]> (<["timestamp" := JStr (now_toISOString win)]> ∅))).

(** [trackCourseView(courseId, courseTitle, courseType)]. *)
Definition trackCourseView (courseId courseTitle courseType : JsValue) : M JsValue :=
  win <- reads window ;;
  trackEvent "course_view"
    (JObj (<["courseId" := courseId]>
           (<["courseTitle" := courseTitle]>
           (<["courseType" := courseType]>
           (<["viewStartTime" := JStr (now_toISOString win)]> ∅))))).

(** [trackQuizStart(courseId, courseTitle, totalQuestions)]. *)
Definition trackQuizStart (courseId courseTitle totalQuestions : JsValue) : M JsValue :=
  win <- reads window ;;
  trackEvent "quiz_start"
    (JObj (<["courseId" := courseId]>
           (<["courseTitle" := courseTitle]>
           (<["totalQuestions" := totalQuestions]>
           (<["startTime" := JStr (now_toISOString win)]> ∅))))).

(** [trackQuizAnswer(courseId, questionIndex, selectedAnswer, isCorrect)]. *)
Definition trackQuizAnswer (courseId questionIndex selectedAnswer isCorrect : JsValue)
    : M JsValue :=
  win <- reads window ;;
  trackEvent "quiz_answer"
    (JObj (<["courseId" := courseId]>
           (<["questionIndex" := questionIndex]>
           (<["selectedAnswer" := selectedAnswer]>
           (<["isCorrect" := isCorrect]>
           (<["answerTime" := JStr (now_toISOString win)]> ∅)))))).

(** [trackVideoPlay(courseId, videoUrl)]. *)
Definition trackVideoPlay (courseId videoUrl : JsValue) : M JsValue :=
  win <- reads window ;;
  trackEvent "video_play"
    (JObj (<["courseId" := courseId]>
           (<["videoUrl" := videoUrl]>
           (<["playTime" := JStr (now_toISOString win)]> ∅)))).

(** [trackVideoPause(courseId, videoUrl, currentTime)]. *)
Definition trackVideoPause (courseId videoUrl currentTime : JsValue) : M JsValue :=
  win <- reads window ;;
  trackEvent "video_pause"
    (JObj (<["courseId" := courseId]>
           (<["videoUrl" := videoUrl]>
           (<["currentTime" := currentTime]>
           (<["pauseTime" := JStr (now_toISOString win)]> ∅))))).

(** [trackTextContentView(courseId, scrollDepth = 0)]. *)
Definition trackTextContentView (courseId scrollDepth : JsValue) : M JsValue :=
  let scrollDepth := default_param (JNum 0) scrollDepth in
  win <- reads window ;;
  trackEvent "text_content_view"
    (JObj (<["courseId" := courseId]>
           (<["scrollDepth" := scrollDepth]>
           (<["viewTime" := JStr (now_toISOString win)]> ∅)))).

(** [trackButtonClick(buttonName, context = {})]. *)
Definition trackButtonClick (buttonName context : JsValue) : M JsValue :=
  let context := default_param (JObj ∅) context in
  win <- reads window ;;
  trackEvent "button_click"
    (JObj (<["buttonName" := buttonName]>
           (<["context" := context]>
           (<["clickTime" := JStr (now_toISOString win)]> ∅)))).

(** [trackFilter(filterType, filterValue, resultsCount)]. *)
Definition trackFilter (filterType filterValue resultsCount : JsValue) : M JsValue :=
  win <- reads window ;;
  trackEvent "filter_applied"
    (JObj (<["filterType" := filterType]>
           (<["filterValue" := filterValue]>
           (<["resultsCount" := resultsCount]>
           (<["filterTime" := JStr (now_toISOString win)]> ∅))))).

(** [parseInt(this.sessionId.split('_')[1])]. *)
Definition session_start_of (sessionId : string) : option Z :=
  parseInt_part (split "_" sessionId) 1.

(** [Date.now() - parseInt(this.sessionId.split('_')[1])]; NaN when the
    session id holds no number there. *)
Definition elapsed (Date_now : N) (sessionId : string) : option Z :=
  (fun start => (Z.of_N Date_now - start)%Z) <$> session_start_of sessionId.

(** [trackSessionEnd()]; [Date_now] is the reading of [Date.now()]. *)
Definition trackSessionEnd (Date_now : N) : M JsValue :=
  s <- reads this ;;
  win <- reads window ;;
  trackEvent "session_end"
    (JObj (<["sessionDuration" := number_of (elapsed Date_now (this_sessionId s))]>
           (<["endTime" := JStr (now_toISOString win)]> ∅))).

(** [formatDuration(seconds)] on an integer: [Math.floor] of a quotient
    is the floored quotient, [%] the remainder with the sign of the
    dividend, and a template literal prints the decimal numeral. *)
Definition formatDuration (seconds : Z) : string :=
  let hours := (seconds / 3600)%Z in
  let minutes := (Z.rem seconds 3600 / 60)%Z in
  if (0 <? hours)%Z then
    pretty hours +:+ "h " +:+ pretty minutes +:+ "m " +:+ pretty (Z.rem seconds 60) +:+ "s"
  else if (0 <? minutes)%Z then
    pretty minutes +:+ "m " +:+ pretty (Z.rem seconds 60) +:+ "s"
  else pretty seconds +:+ "s".

(** The object [getSessionStats()] returns; the two dates are given by
    their time values, which [toISOString] renders. *)
Record SessionStats : Type := mkSessionStats {
  stats_sessionId : string;
  stats_userId : JsValue;
  duration : Z;
  durationFormatted : string;
  startTime : Z;
  currentTime : Z
}.

(** [getSessionStats()].  [new Date(sessionStart).toISOString()] throws a
    RangeError on an invalid date. *)
Definition getSessionStats (Date_now : N) : M SessionStats :=
  s <- reads this ;;
  match session_start_of (this_sessionId s) with
  | Some sessionStart =>
      let duration := (Z.of_N Date_now - sessionStart)%Z in
      if (Z.abs sessionStart <=? 8640000000000000)%Z then
        ret (mkSessionStats (this_sessionId s) (this_userId s) duration
                            (formatDuration duration) sessionStart (Z.of_N Date_now))
      else throw "RangeError: Invalid time value"
  | None => throw "RangeError: Invalid time value"
  end.

(** ** Vocabulary for the statements about the wrappers *)

(** A call of one of the tracking methods, with its arguments. *)
Inductive Call : Type :=
| Navigation (from to data : JsValue)
| PageView (pageName data : JsValue)
| CourseView (courseId courseTitle courseType : JsValue)
| QuizStart (courseId courseTitle totalQuestions : JsValue)
| QuizAnswer (courseId questionIndex selectedAnswer isCorrect : JsValue)
| QuizComplete (courseId : JsValue) (score totalQuestions timeSpent : float)
| VideoPlay (courseId videoUrl : JsValue)
| VideoPause (courseId videoUrl currentTime : JsValue)
| TextContentView (courseId scrollDepth : JsValue)
| ButtonClick (buttonName context : JsValue)
| Filter (filterType filterValue resultsCount : JsValue)
| SessionEnd (Date_now : N).

Definition perform (c : Call) : M JsValue :=
  match c with
  | Navigation from to data => trackNavigation from to data
  | PageView pageName data => trackPageView pageName data
  | CourseView courseId courseTitle courseType => trackCourseView courseId courseTitle courseType
  | QuizStart courseId courseTitle totalQuestions =>
      trackQuizStart courseId courseTitle totalQuestions
  | QuizAnswer courseId questionIndex selectedAnswer isCorrect =>
      trackQuizAnswer courseId questionIndex selectedAnswer isCorrect
  | QuizComplete courseId score totalQuestions timeSpent =>
      trackQuizComplete courseId score totalQuestions timeSpent
  | VideoPlay courseId videoUrl => trackVideoPlay courseId videoUrl
  | VideoPause courseId videoUrl currentTime => trackVideoPause courseId videoUrl currentTime
  | TextContentView courseId scrollDepth => trackTextContentView courseId scrollDepth
  | ButtonClick buttonName context => trackButtonClick buttonName context
  | Filter filterType filterValue resultsCount =>
      trackFilter filterType filterValue resultsCount
  | SessionEnd Date_now => trackSessionEnd Date_now
  end.

(** The event type each method passes to [trackEvent]. *)
Definition event_type_of (c : Call) : string :=
  match c with
  | Navigation _ _ _ => "navigation"
  | PageView _ _ => "page_view"
  | CourseView _ _ _ => "course_view"
  | QuizStart _ _ _ => "quiz_start"
  | QuizAnswer _ _ _ _ => "quiz_answer"
  | QuizComplete _ _ _ _ => "quiz_complete"
  | VideoPlay _ _ => "video_play"
  | VideoPause _ _ _ => "video_pause"
  | TextContentView _ _ => "text_content_view"
  | ButtonClick _ _ => "button_click"
  | Filter _ _ _ => "filter_applied"
  | SessionEnd _ => "session_end"
  end.

(** The arguments a call names, as (key, value) pairs of its [eventData]. *)
Definition named_arguments (c : Call) : list (string * JsValue) :=
  match c with
  | Navigation from to _ => [("from", from); ("to", to)]
  | PageView pageName _ => [("page", pageName)]
  | CourseView courseId courseTitle courseType =>
      [("courseId", courseId); ("courseTitle", courseTitle); ("courseType", courseType)]
  | QuizStart courseId courseTitle totalQuestions =>
      [("courseId", courseId); ("courseTitle", courseTitle); ("totalQuestions", totalQuestions)]
  | QuizAnswer courseId questionIndex selectedAnswer isCorrect =>
      [("courseId", courseId); ("questionIndex", questionIndex);
       ("selectedAnswer", selectedAnswer); ("isCorrect", isCorrect)]
  | QuizComplete courseId score totalQuestions timeSpent =>
      [("courseId", courseId); ("score", JNum score); ("totalQuestions", JNum totalQuestions);
       ("timeSpent", JNum timeSpent)]
  | VideoPlay courseId videoUrl => [("courseId", courseId); ("videoUrl", videoUrl)]
  | VideoPause courseId videoUrl currentTime =>
      [("courseId", courseId); ("videoUrl", videoUrl); ("currentTime", currentTime)]
  | TextContentView courseId scrollDepth =>
      [("courseId", courseId); ("scrollDepth", default_param (JNum 0) scrollDepth)]
  | ButtonClick buttonName context =>
      [("buttonName", buttonName); ("context", default_param (JObj ∅) context)]
  | Filter filterType filterValue resultsCount =>
      [("filterType", filterType); ("filterValue", filterValue);
       ("resultsCount", resultsCount)]
  | SessionEnd _ => []
  end.

(** The caller's extra data of a call that spreads it over its own keys. *)
Definition extra_data (c : Call) : gmap string JsValue :=
  match c with
  | Navigation _ _ data | PageView _ data => spread (default_param (JObj ∅) data)
  | _ => ∅
  end.

(** [retryFailedEvents] is an [async] function.  It runs without
    interruption up to [await Promise.allSettled(retryPromises)]: by then
    the queue has been read and every queued event handed to [fetch].  It
    is resumed when the requests have settled, and whatever the page ran
    in between worked on the same [localStorage].  [retry_until_await] is
    the first part ([None] when the queue is empty and the function
    returns), [retry_after_await] the second, and
    [retryFailedEvents_around meanwhile] the whole call with the state
    change [meanwhile] of the other code that ran while it waited. *)
Definition retry_until_await : M (option (list FetchResult)) :=
  item <- localStorage_getItem ;;
  failedEvents <- JSON_parse (default (Serialized []) item) ;;
  if (length failedEvents =? 0)%nat then ret None
  else
    log Info "Retrying failed events" ;;;
    retryPromises <- map_fetch failedEvents ;;
    ret (Some retryPromises).

Definition retry_after_await (retryPromises : list FetchResult) : M unit :=
  Promise_allSettled retryPromises ;;;
  localStorage_removeItem ;;;
  log Success "Failed events retry completed".

Definition retryFailedEvents_around (meanwhile : World -> World) : M unit :=
  try_catch
    (waiting <- retry_until_await ;;
     match waiting with
     | None => ret tt
     | Some retryPromises => fun w => retry_after_await retryPromises (meanwhile w)
     end)
    (fun _ => log Error "Error during failed events retry").


End ClientMore.

(* ===================================================================== *)
(** * backend/server-local.js: accounts, content, health *)
(* ===================================================================== *)

Module Accounts.
Import JsMore.

(** A record of users.json.  Ids are array lengths plus one, small
    natural numbers; the credentials are whatever JSON the request held. *)
Record User : Type := mkUser {
  user_id : nat;
  username : JsValue;
  email : JsValue;
  password : JsValue;
  user_createdAt : string;
  lastLogin : option string
}.

(** [const { password: _, ...userResponse } = user]. *)
Record PublicUser : Type := mkPublicUser {
  public_id : nat;
  public_username : JsValue;
  public_email : JsValue;
  public_createdAt : string;
  public_lastLogin : option string
}.

Definition without_password (u : User) : PublicUser :=
  mkPublicUser (user_id u) (username u) (email u) (user_createdAt u) (lastLogin u).

(** A question of a quiz and a record of content.json; [quizData] is
    absent or an object with a list of questions. *)
Record Question : Type := mkQuestion {
  question : JsValue;
  options : list JsValue;
  correct : JsValue
}.

Record Content : Type := mkContent {
  content_id : nat;
  title : JsValue;
  content_type : JsValue;
  description : JsValue;
  videoUrl : JsValue;
  quizData : option (list Question);
  content_createdAt : string
}.

(** A database file: a document that parses to an array of rows, or one
    that cannot be read or parsed. *)
Inductive Table (A : Type) : Type :=
| Rows (rows : list A)
| Corrupt.
Arguments Rows {A} rows.
Arguments Corrupt {A}.

(** The data directory.  A write fault [Some t] makes writing that file
    throw and leaves it holding [t]. *)
Record Disk : Type := mkDisk {
  users_json : Table User;
  users_write_fault : option (Table User);
  content_json : Table Content;
  content_write_fault : option (Table Content);
  clickstream_db : Server.FileSystem
}.

(** [readDB(dbName)]: an unreadable file reads as []. *)
Definition readDB {A : Type} (t : Table A) : list A :=
  match t with
  | Rows rows => rows
  | Corrupt => []
  end.

(** [writeDB(dbName, data)]: the new content of the file, and whether the
    write went through. *)
Definition writeDB {A : Type} (fault : option (Table A)) (data : list A) : bool * Table A :=
  match fault with
  | None => (true, Rows data)
  | Some remains => (false, remains)
  end.

(** The JSON bodies of the routes. *)
Inductive Reply : Type :=
| Rejected (success : bool) (message : string)
| Authenticated (success : bool) (message : string) (user : PublicUser) (token : string)
| ContentList (success : bool) (content : list Content)
| ContentCreated (success : bool) (message : string) (content : Content)
| Seeded (success : bool) (message : string)
| Healthy (message timestamp environment database : string) (users content clickstream : nat).

Record Answer : Type := mkAnswer {
  status : nat;
  reply : Reply
}.

(** [arr.findIndex(pred)]. *)
Fixpoint findIndex {A : Type} (pred : A -> bool) (l : list A) : option nat :=
  match l with
  | [] => None
  | x :: rest => if pred x then Some 0 else S <$> findIndex pred rest
  end.

(** [`mock-jwt-token-${id}`]. *)
Definition mock_token (id : nat) : string := "mock-jwt-token-" +:+ pretty id.

Definition with_users (d : Disk) (t : Table User) : Disk :=
  mkDisk t (users_write_fault d) (content_json d) (content_write_fault d) (clickstream_db d).

Definition with_content (d : Disk) (t : Table Content) : Disk :=
  mkDisk (users_json d) (users_write_fault d) t (content_write_fault d) (clickstream_db d).

(** [app.post('/api/auth/register')]; [now] is [new Date().toISOString()]. *)
Definition register (d : Disk) (body : JsValue) (now : string) : Answer * Disk :=
  let username' := get body "username" in
  let email' := get body "email" in
  let password' := get body "password" in
  if negb (truthy username') || negb (truthy email') || negb (truthy password') then
    (mkAnswer 400 (Rejected false "Username, email, and password are required"), d)
  else
    let users := readDB (users_json d) in
    match List.find (fun user => strict_eq (email user) email'
                                 || strict_eq (username user) username') users with
    | Some existingUser =>
        (mkAnswer 400 (Rejected false "User with this email or username already exists"), d)
    | None =>
        let newUser := mkUser (length users + 1) username' email' password' now None in
        let '(_, t) := writeDB (users_write_fault d) (users ++ [newUser]) in
        (mkAnswer 201 (Authenticated true "User registered successfully"
                                     (without_password newUser)
                                     (mock_token (user_id newUser))),
         with_users d t)
    end.

(** [user.lastLogin = new Date().toISOString()]. *)
Definition logged_in (u : User) (now : string) : User :=
  mkUser (user_id u) (username u) (email u) (password u) (user_createdAt u) (Some now).

(** [app.post('/api/auth/login')].  The user found is an element of the
    array, so setting its [lastLogin] changes the array at the position
    [found]; [users[userIndex] = user] then stores the same object at the
    first position that holds its id. *)
Definition login (d : Disk) (body : JsValue) (now : string) : Answer * Disk :=
  let email' := get body "email" in
  let password' := get body "password" in
  if negb (truthy email') || negb (truthy password') then
    (mkAnswer 400 (Rejected false "Email and password are required"), d)
  else
    let users := readDB (users_json d) in
    let matches u := strict_eq (email u) email' && strict_eq (password u) password' in
    match findIndex matches users, List.find matches users with
    | Some found, Some user =>
        let user := logged_in user now in
        let users := <[found := user]> users in
        let users :=
          match findIndex (fun u => (user_id u =? user_id user)%nat) users with
          | Some userIndex => <[userIndex := user]> users
          | None => users
          end in
        let '(_, t) := writeDB (users_write_fault d) users in
        (mkAnswer 200 (Authenticated true "Login successful" (without_password user)
                                     (mock_token (user_id user))),
         with_users d t)
    | _, _ => (mkAnswer 401 (Rejected false "Invalid email or password"), d)
    end.

(** [app.get('/api/content')]. *)
Definition get_content (d : Disk) : Answer :=
  mkAnswer 200 (ContentList true (readDB (content_json d))).

(** The fields of the body of POST /api/content. *)
Record ContentBody : Type := mkContentBody {
  body_title : JsValue;
  body_type : JsValue;
  body_description : JsValue;
  body_videoUrl : JsValue;
  body_quizData : option (list Question)
}.

(** [app.post('/api/content')]. *)
Definition post_content (d : Disk) (body : ContentBody) (now : string) : Answer * Disk :=
  let content := readDB (content_json d) in
  let newContent :=
    mkContent (length content + 1) (body_title body) (body_type body)
              (body_description body) (body_videoUrl body) (body_quizData body) now in
  let '(_, t) := writeDB (content_write_fault d) (content ++ [newContent]) in
  (mkAnswer 201 (ContentCreated true "Content created successfully" newContent),
   with_content d t).

(** [sampleContent] of the seed route. *)
Definition sampleContent (now : string) : list Content :=
  [ mkContent 1 (JStr "Introduction to Web Development") (JStr "text")
              (JStr "Learn the basics of HTML, CSS, and JavaScript")
              JUndefined None now;
    mkContent 2 (JStr "JavaScript Fundamentals") (JStr "video")
              (JStr "Master JavaScript concepts with practical examples")
              (JStr "https://www.youtube.com/watch?v=PkZNo7MFNFg") None now;
    mkContent 3 (JStr "HTML Basics Quiz") (JStr "quiz")
              (JStr "Test your HTML knowledge") JUndefined
              (Some [mkQuestion (JStr "What does HTML stand for?")
                                [JStr "Hyper Text Markup Language";
                                 JStr "High Tech Modern Language";
                                 JStr "Home Tool Markup Language"]
                                (JNum 0)])
              now ].

(** [app.post('/api/seed')]. *)
Definition seed (d : Disk) (now : string) : Answer * Disk :=
  let '(_, t) := writeDB (content_write_fault d) (sampleContent now) in
  (mkAnswer 200 (Seeded true "Sample data seeded successfully"), with_content d t).

(** [app.get('/api/health')]; [NODE_ENV] is the environment variable. *)
Definition health (d : Disk) (now : string) (NODE_ENV : option string) : Answer :=
  mkAnswer 200 (Healthy "EduTrack Analytics Platform API is running!" now
                        (match NODE_ENV with
                         | Some e => if String.eqb e "" then "development" else e
                         | None => "development"
                         end)
                        "Local JSON Database"
                        (length (readDB (users_json d)))
                        (length (readDB (content_json d)))
                        (length (Server.readDB (clickstream_db d)))).

(** ** Vocabulary for the statements about the accounts *)

(** A request that may change the data directory. *)
Inductive Request : Type :=
| Register (body : JsValue) (now : string)
| Login (body : JsValue) (now : string)
| PostContent (body : ContentBody) (now : string)
| Seed (now : string).

Definition serve (d : Disk) (r : Request) : Answer * Disk :=
  match r with
  | Register body now => register d body now
  | Login body now => login d body now
  | PostContent body now => post_content d body now
  | Seed now => seed d now
  end.

(** The data directory after a sequence of requests. *)
Definition serve_all (d : Disk) (rs : list Request) : Disk :=
  fold_left (fun d r => snd (serve d r)) rs d.

(** What identifies an account: everything but the last login. *)
Definition account (u : User) : nat * JsValue * JsValue * JsValue * string :=
  (user_id u, username u, email u, password u, user_createdAt u).

(** Ids are positions plus one. *)
Definition ids_by_position {A : Type} (id : A -> nat) (rows : list A) : Prop :=
  forall i row, rows !! i = Some row -> id row = S i.

(** No account has an email or a user name that [===] equates with that
    of an earlier one, which is what [register] tests.  Two objects are
    never [===], so this says nothing of object-valued fields. *)
Definition accounts_distinct (users : list User) : Prop :=
  forall i j u v, users !! i = Some u -> users !! j = Some v -> (i < j)%nat ->
    strict_eq (email u) (email v) = false /\ strict_eq (username u) (username v) = false.

(** No two accounts have the same string as email, or the same string as
    user name. *)
Definition strings_unshared (users : list User) : Prop :=
  forall (i j : nat) (u v : User) (s : string),
    users !! i = Some u -> users !! j = Some v -> i <> j ->
    (email u = JStr s -> email v <> JStr s) /\
    (username u = JStr s -> username v <> JStr s).

(** Every write to the data directory goes through. *)
Definition writable (d : Disk) : Prop :=
  users_write_fault d = None /\ content_write_fault d = None.

(** The tables are consistent: ids are positions plus one in both, and
    the accounts are distinct. *)
Definition consistent (d : Disk) : Prop :=
  ids_by_position user_id (readDB (users_json d)) /\
  accounts_distinct (readDB (users_json d)) /\
  ids_by_position content_id (readDB (content_json d)).

(** A data directory as the server creates it: three empty tables. *)
Definition fresh : Disk :=
  mkDisk (Rows []) None (Rows []) None (Server.mkFS (Server.Document []) None).

(** The email and the user name are free in the table. *)
Definition free (users : list User) (name mail : string) : Prop :=
  forall u, In u users ->
    strict_eq (email u) (JStr mail) = false /\ strict_eq (username u) (JStr name) = false.

(** The body of a register or login request. *)
Definition credentials (name mail pass : JsValue) : JsValue :=
  JObj (<["username" := name]> (<["email" := mail]> (<["password" := pass]> ∅))).

End Accounts.

(* ===================================================================== *)
(** * The dashboards, continued *)
(* ===================================================================== *)

Module DashboardMore.
Import Dashboard.


(** [if (c) earnedBadges++]. *)
Definition increment_if (c : bool) (n : nat) : nat := if c then S n else n.


(** The sum of the counters of a table. *)
Definition total (counts : gmap string nat) : nat :=
  map_fold (fun _ n acc => n + acc) 0 counts.

Section WithRuntime.
Context {rt : Runtime}.

(** *** loadLearningAnalytics (App-old.jsx), the statistics other than the
    streak.  [weeklyEngagement] and [progressPercentage], which no
    statement below reads, are left out. *)

(** [action.action === name]. *)
Definition action_is (name : string) (interaction : Event) : bool :=
  strict_eq_str (action interaction) name.

Definition moduleViews (userInteractions : list Event) : list Event :=
  List.filter (action_is "course_view") userInteractions.
Definition assessmentStarts (userInteractions : list Event) : list Event :=
  List.filter (action_is "quiz_start") userInteractions.
Definition assessmentCompletes (userInteractions : list Event) : list Event :=
  List.filter (action_is "quiz_complete") userInteractions.
Definition mediaPlays (userInteractions : list Event) : list Event :=
  List.filter (action_is "video_play") userInteractions.

(** [[...new Set(moduleViews.map(action => action.details?.courseId).filter(Boolean))]]. *)
Definition uniqueModules (userInteractions : list Event) : list JsValue :=
  set_of_list same_value_zero
    (List.filter truthy
       (map (fun interaction => get (details interaction) "courseId")
            (moduleViews userInteractions))).

(** [Math.floor(totalEngagementMinutes / 60)] with 35 minutes a module. *)
Definition loadLearningAnalytics_totalStudyHours (userInteractions : list Event) : nat :=
  (length (uniqueModules userInteractions) * 35) / 60.


Definition loadLearningAnalytics_earnedBadges (userInteractions : list Event) : nat :=
  let earnedBadges := 0%nat in
  let earnedBadges :=
    increment_if (1 <=? length (uniqueModules userInteractions))%nat earnedBadges in
  let earnedBadges :=
    increment_if (1 <=? length (assessmentStarts userInteractions))%nat earnedBadges in
  let earnedBadges :=
    increment_if (1 <=? length (mediaPlays userInteractions))%nat earnedBadges in
  let earnedBadges :=
    increment_if (1 <=? length (assessmentCompletes userInteractions))%nat earnedBadges in
  let earnedBadges :=
    increment_if (5 <=? length (uniqueModules userInteractions))%nat earnedBadges in
  earnedBadges.

Definition loadLearningAnalytics_proficiencyLevel (userInteractions : list Event) : string :=
  let earnedBadges := loadLearningAnalytics_earnedBadges userInteractions in
  let proficiencyLevel := "Novice" in
  let proficiencyLevel := if (3 <=? earnedBadges)%nat then "Learner" else proficiencyLevel in
  let proficiencyLevel := if (5 <=? earnedBadges)%nat then "Skilled" else proficiencyLevel in
  let proficiencyLevel := if (7 <=? earnedBadges)%nat then "Expert" else proficiencyLevel in
  proficiencyLevel.

(** ** Vocabulary for the statements about the dashboards *)




(** The record [processAnalytics] pushes for a [quiz_complete] event. *)
Definition completion_of (event : Event) : Quiz :=
  mkQuiz (get (eventData event) "courseId") (get (eventData event) "courseTitle")
         (get (eventData event) "score") (get (eventData event) "totalQuestions")
         (get (eventData event) "percentage") (timestamp event).





End WithRuntime.

End DashboardMore.

(* ===================================================================== *)
(** * The authentication context (AuthContext) *)
(* ===================================================================== *)

Module Auth.
Import JsMore.

(** The state of [authReducer]. *)
Record AuthState : Type := mkAuthState {
  user : JsValue;
  token : JsValue;
  isAuthenticated : bool;
  isLoading : bool;
  error : JsValue
}.

Definition initialAuthState : AuthState := mkAuthState JNull JNull false false JNull.

(** The actions, with the parts of the payload the reducer reads. *)
Inductive Action : Type :=
| LOGIN_REQUEST
| LOGIN_SUCCESS (payload_user payload_token : JsValue)
| LOGIN_FAILURE (payload : JsValue)
| REGISTER_REQUEST
| REGISTER_SUCCESS (payload_user payload_token : JsValue)
| REGISTER_FAILURE (payload : JsValue)
| LOGOUT
| SET_USER (payload : JsValue)
| CLEAR_ERROR
| Unknown (type : string).

(** [authReducer(state, action)]; the log lines are left out. *)
Definition authReducer (state : AuthState) (action : Action) : AuthState :=
  match action with
  | LOGIN_REQUEST | REGISTER_REQUEST =>
      mkAuthState (user state) (token state) (isAuthenticated state) true JNull
  | LOGIN_SUCCESS payload_user payload_token =>
      mkAuthState payload_user payload_token true false JNull
  | REGISTER_SUCCESS payload_user payload_token =>
      mkAuthState payload_user payload_token true false JNull
  | LOGIN_FAILURE payload | REGISTER_FAILURE payload =>
      mkAuthState (user state) (token state) (isAuthenticated state) false payload
  | LOGOUT => initialAuthState
  | SET_USER payload =>
      mkAuthState payload (token state) true (isLoading state) (error state)
  | CLEAR_ERROR =>
      mkAuthState (user state) (token state) (isAuthenticated state) (isLoading state) JNull
  | Unknown _ => state
  end.

(** A string kept in localStorage under 'auth_user': the serialisation of
    a value that came from JSON (and is read back unchanged), or a text
    that [JSON.parse] rejects. *)
Inductive Stored : Type :=
| Stringified (v : JsValue)
| Unparseable (s : string).

(** [JSON.stringify(v)] as [setItem] stores it: of [undefined] it is
    [undefined], stored as the text "undefined". *)
Definition JSON_stringify (v : JsValue) : Stored :=
  match v with
  | JUndefined => Unparseable "undefined"
  | _ => Stringified v
  end.

(** The request [apiRequest] hands to [fetch]. *)
Record Request : Type := mkRequest {
  endpoint : string;
  method : string;
  body : JsValue;
  Authorization : option string
}.

(** What the provider runs in: the reducer's state as of the last render,
    the two items of localStorage, whether the [n]-th call of [setItem]
    throws a QuotaExceededError and how many calls were made, how the
    [n]-th request settles, and the requests made so far. *)
Record Page : Type := mkPage {
  state : AuthState;
  auth_token : option string;
  auth_user : option Stored;
  setItem_fails : nat -> bool;
  setItem_calls : nat;
  network : nat -> Request -> Client.FetchResult;
  requests : list Request
}.

(** Computations over a [Page] that return or throw. *)
Definition M (A : Type) : Type := Page -> Outcome A * Page.

Definition ret {A : Type} (a : A) : M A := fun p => (Returns a, p).

Definition bind {A B : Type} (m : M A) (k : A -> M B) : M B :=
  fun p =>
    match m p with
    | (Returns a, p') => k a p'
    | (Throws e, p') => (Throws e, p')
    end.

Definition throw {A : Type} (e : string) : M A := fun p => (Throws e, p).

(** [try { body } catch (error) { handler }]; [e] is [error.message]. *)
Definition try_catch {A : Type} (body : M A) (handler : string -> M A) : M A :=
  fun p =>
    match body p with
    | (Returns a, p') => (Returns a, p')
    | (Throws e, p') => handler e p'
    end.

Notation "x <- m ;; k" := (bind m (fun x => k))
  (at level 100, m at next level, right associativity).
Notation "m ;;; k" := (bind m (fun _ => k))
  (at level 100, right associativity).

Definition reads {A : Type} (f : Page -> A) : M A := fun p => (Returns (f p), p).

(** [dispatch(action)]. *)
Definition dispatch (action : Action) : M unit :=
  fun p => (Returns tt,
            mkPage (authReducer (state p) action) (auth_token p) (auth_user p)
                   (setItem_fails p) (setItem_calls p) (network p) (requests p)).

Definition setItem_auth_token (t : string) : M unit :=
  fun p =>
    if setItem_fails p (setItem_calls p) then
      (Throws "QuotaExceededError",
       mkPage (state p) (auth_token p) (auth_user p)
              (setItem_fails p) (S (setItem_calls p)) (network p) (requests p))
    else
      (Returns tt,
       mkPage (state p) (Some t) (auth_user p)
              (setItem_fails p) (S (setItem_calls p)) (network p) (requests p)).

Definition setItem_auth_user (s : Stored) : M unit :=
  fun p =>
    if setItem_fails p (setItem_calls p) then
      (Throws "QuotaExceededError",
       mkPage (state p) (auth_token p) (auth_user p)
              (setItem_fails p) (S (setItem_calls p)) (network p) (requests p))
    else
      (Returns tt,
       mkPage (state p) (auth_token p) (Some s)
              (setItem_fails p) (S (setItem_calls p)) (network p) (requests p)).

Definition removeItem_auth_token : M unit :=
  fun p => (Returns tt,
            mkPage (state p) None (auth_user p)
                   (setItem_fails p) (setItem_calls p) (network p) (requests p)).

Definition removeItem_auth_user : M unit :=
  fun p => (Returns tt,
            mkPage (state p) (auth_token p) None
                   (setItem_fails p) (setItem_calls p) (network p) (requests p)).

(** [JSON.parse(userData)]; no JSON text denotes [undefined]. *)
Definition JSON_parse (s : Stored) : M JsValue :=
  match s with
  | Stringified JUndefined => throw "SyntaxError"
  | Stringified v => ret v
  | Unparseable _ => throw "SyntaxError"
  end.

(** [o.k] without optional chaining: reading a property of [null] or
    [undefined] throws. *)
Definition property (o : JsValue) (k : string) : M JsValue :=
  match o with
  | JNull | JUndefined => throw "TypeError: Cannot read properties"
  | _ => ret (get o k)
  end.

(** [fetch(url, config)] and the [await] on it: the request leaves, and a
    rejection is thrown. *)
Definition fetch (request : Request) : M (nat * option JsValue) :=
  fun p =>
    let p' := mkPage (state p) (auth_token p) (auth_user p)
                     (setItem_fails p) (setItem_calls p) (network p)
                     (requests p ++ [request]) in
    match network p (length (requests p)) request with
    | Client.NetworkError => (Throws "TypeError: Failed to fetch", p')
    | Client.HttpResponse st parsed => (Returns (st, parsed), p')
    end.

(** [await response.json()]. *)
Definition response_json (parsed : option JsValue) : M JsValue :=
  match parsed with
  | Some v => ret v
  | None => throw "SyntaxError"
  end.

(** The truth of a string read from localStorage ([null] when absent). *)
Definition present (item : option string) : bool :=
  match item with
  | Some s => negb (String.eqb s "")
  | None => false
  end.

Definition present_user (item : option Stored) : bool :=
  match item with
  | Some (Stringified _) => true
  | Some (Unparseable s) => negb (String.eqb s "")
  | None => false
  end.

(** [clearAuthStorage()]. *)
Definition clearAuthStorage : M unit :=
  removeItem_auth_token ;;; removeItem_auth_user.

(** The outcome [login] and [register] resolve to. *)
Inductive Result : Type :=
| Succeeded (user : JsValue)
| Failed (error : string).

Section WithRuntime.
Context {rt : Runtime}.

(** [storeAuthData(user, token)]. *)
Definition storeAuthData (user token : JsValue) : M unit :=
  setItem_auth_token (ToString token) ;;;
  setItem_auth_user (JSON_stringify user).

(** [initializeAuth()]. *)
Definition initializeAuth : M unit :=
  try_catch
    (token <- reads auth_token ;;
     userData <- reads auth_user ;;
     if present token && present_user userData then
       user <- JSON_parse (default (Unparseable "") userData) ;;
       let tokenParts := split "." (default "" token) in
       if (length tokenParts =? 3)%nat then
         dispatch (LOGIN_SUCCESS user (JStr (default "" token)))
       else clearAuthStorage
     else ret tt)
    (fun _ => clearAuthStorage).

(** [apiRequest(endpoint, { method, body: JSON.stringify(body) })].  The
    log line after the response reads [data.success], which throws when
    the body is the JSON [null]. *)
Definition apiRequest (endpoint method : string) (body : JsValue) : M JsValue :=
  s <- reads state ;;
  let authorization :=
    if truthy (token s) then Some ("Bearer " +:+ ToString (token s)) else None in
  try_catch
    (response <- fetch (mkRequest endpoint method body authorization) ;;
     let '(status, parsed) := response in
     data <- response_json parsed ;;
     property data "success" ;;;
     if negb (Client.ok status) then
       throw (ToString (or_else (get data "message")
                                (JStr ("HTTP error! status: " +:+ pretty status))))
     else ret data)
    (fun error => throw error).

(** [{ email, password }]. *)
Definition login_body (email password : JsValue) : JsValue :=
  JObj (<["email" := email]> (<["password" := password]> ∅)).

(** [login(email, password)]. *)
Definition login (email password : JsValue) : M Result :=
  dispatch LOGIN_REQUEST ;;;
  try_catch
    (response <- apiRequest "/auth/login" "POST" (login_body email password) ;;
     if truthy (get response "token") then
       let token := get response "token" in
       let user := JObj (delete "token" (spread response)) in
       storeAuthData user token ;;;
       dispatch (LOGIN_SUCCESS user token) ;;;
       ret (Succeeded user)
     else
       throw (ToString (or_else (get response "message") (JStr "Login failed"))))
    (fun error =>
       dispatch (LOGIN_FAILURE (JStr error)) ;;;
       ret (Failed error)).

(** [register(userData)]; the first log line reads [userData.username]
    outside the [try]. *)
Definition register (userData : JsValue) : M Result :=
  property userData "username" ;;;
  dispatch REGISTER_REQUEST ;;;
  try_catch
    (response <- apiRequest "/auth/register" "POST" userData ;;
     if truthy (get response "success") && truthy (get response "token") then
       let user := get response "user" in
       let token := get response "token" in
       storeAuthData user token ;;;
       dispatch (REGISTER_SUCCESS user token) ;;;
       ret (Succeeded user)
     else
       throw (ToString (or_else (get response "message") (JStr "Registration failed"))))
    (fun error =>
       dispatch (REGISTER_FAILURE (JStr error)) ;;;
       ret (Failed error)).

(** [logout()] and [clearError()]. *)
Definition logout : M unit :=
  clearAuthStorage ;;; dispatch LOGOUT.

Definition clearError : M unit := dispatch CLEAR_ERROR.

(** ** Vocabulary for the statements about the provider *)

(** What a component can ask the provider to do. *)
Inductive Operation : Type :=
| Login (email password : JsValue)
| Register (userData : JsValue)
| Logout
| ClearError.

Definition run (op : Operation) (p : Page) : Page :=
  match op with
  | Login email password => snd (login email password p)
  | Register userData => snd (register userData p)
  | Logout => snd (logout p)
  | ClearError => snd (clearError p)
  end.

Definition run_all (ops : list Operation) (p : Page) : Page :=
  fold_left (fun p op => run op p) ops p.

(** The state is at rest: nothing is loading; signed out means no user
    and no token; signed in means a truthy token. *)
Definition at_rest (s : AuthState) : Prop :=
  isLoading s = false /\
  (isAuthenticated s = false -> user s = JNull /\ token s = JNull) /\
  (isAuthenticated s = true -> truthy (token s) = true).

(** localStorage agrees with the state: when signed in, the token and
    the user of the state are the ones stored. *)
Definition stored_agrees (p : Page) : Prop :=
  isAuthenticated (state p) = true ->
  auth_token p = Some (ToString (token (state p))) /\
  auth_user p = Some (JSON_stringify (user (state p))).

(** The page after a reload: the provider starts from the initial state,
    localStorage is what it was, and the mount effect runs
    [initializeAuth]. *)
Definition reloaded (p : Page) : Page :=
  mkPage initialAuthState (auth_token p) (auth_user p)
         (setItem_fails p) (setItem_calls p) (network p) (requests p).

Definition reload (p : Page) : Page := snd (initializeAuth (reloaded p)).

(** The request [login] makes on the page [p]. *)
Definition login_request (p : Page) (email password : JsValue) : Request :=
  mkRequest "/auth/login" "POST" (login_body email password)
            (if truthy (token (state p))
             then Some ("Bearer " +:+ ToString (token (state p))) else None).

Definition register_request (p : Page) (userData : JsValue) : Request :=
  mkRequest "/auth/register" "POST" userData
            (if truthy (token (state p))
             then Some ("Bearer " +:+ ToString (token (state p))) else None).

(** The next request of the page [p] is [request] and settles as
    [result]. *)
Definition answered (p : Page) (request : Request) (result : Client.FetchResult) : Prop :=
  network p (length (requests p)) request = result.

(** No write to localStorage fails. *)
Definition storage_holds (p : Page) : Prop := forall n, setItem_fails p n = false.

(** An object literal without the keys whose value is [undefined], as
    [res.json] sends it. *)
Definition field (k : string) (v : JsValue) (m : gmap string JsValue) : gmap string JsValue :=
  match v with
  | JUndefined => m
  | _ => <[k := v]> m
  end.

Definition json_of_user (u : Accounts.PublicUser) : JsValue :=
  JObj (field "id" (JNum (float_of_Z (Z.of_nat (Accounts.public_id u))))
       (field "username" (Accounts.public_username u)
       (field "email" (Accounts.public_email u)
       (field "createdAt" (JStr (Accounts.public_createdAt u))
       (field "lastLogin" (match Accounts.public_lastLogin u with
                           | Some t => JStr t
                           | None => JNull
                           end) ∅))))).

(** The response of server-local.js to a register or login request, as
    [fetch] resolves it. *)
Definition served (answer : Accounts.Answer) : Client.FetchResult :=
  Client.HttpResponse (Accounts.status answer)
    (match Accounts.reply answer with
     | Accounts.Rejected success message =>
         Some (JObj (<["success" := JBool success]> (<["message" := JStr message]> ∅)))
     | Accounts.Authenticated success message user token =>
         Some (JObj (<["success" := JBool success]>
                    (<["message" := JStr message]>
                    (<["user" := json_of_user user]>
                    (<["token" := JStr token]> ∅)))))
     | _ => None
     end).

(** The user id the clickstream service binds for a signed-in user
    (App-old.jsx: [if (user) clickstreamService.initialize(user)]). *)
Definition tracked_as (user : JsValue) (w : Client.World) : JsValue :=
  Client.this_userId (Client.this (snd (Client.initialize user w))).

End WithRuntime.

(** A page that was just opened, on a network that settles every request
    as [result], with a localStorage that takes every write. *)
Definition opened (result : Client.FetchResult) : Page :=
  mkPage initialAuthState None None (fun _ => false) 0 (fun _ _ => result) [].

End Auth.

(* ===================================================================== *)
(** * The quiz of CourseViewer.jsx (QuizContent) *)
(* ===================================================================== *)

Module Quiz.
Import Client ClientMore JsMore.

(** What [QuizContent] reads of its [course]; [course_questions] is
    [course.quizData?.questions || []]. *)
Record Course : Type := mkCourse {
  course_id : JsValue;
  course_title : JsValue;
  course_questions : list Accounts.Question
}.

(** The four pieces of state; a selected answer is [null] or the index of
    an option. *)
Record QuizState : Type := mkQuizState {
  currentQuestion : nat;
  selectedAnswer : option nat;
  answers : list (option nat);
  showResults : bool
}.

Definition initial : QuizState := mkQuizState 0 None [] false.

(** A count or an index as a JavaScript number. *)
Definition number (n : nat) : JsValue := JNum (float_of_Z (Z.of_nat n)).

Definition answer_value (answer : option nat) : JsValue :=
  match answer with
  | Some answerIndex => number answerIndex
  | None => JNull
  end.

(** [questions[index]?.correct]. *)
Definition correct_at (questions : list Accounts.Question) (index : nat) : JsValue :=
  match questions !! index with
  | Some question => Accounts.correct question
  | None => JUndefined
  end.

(** [calculateScore(answersArray)]: [forEach] with its index. *)
Definition calculateScore (questions : list Accounts.Question)
    (answersArray : list (option nat)) : nat :=
  fold_left (fun correct hit => if hit : bool then S correct else correct)
            (imap (fun index answer =>
                     strict_eq (answer_value answer) (correct_at questions index))
                  answersArray)
            0%nat.

(** A call whose promise nobody awaits: the page goes on, however the
    call settles. *)
Definition fire {A : Type} (call : M A) (w : World) : World := snd (call w).

(** The effect run when the quiz is shown. *)
Definition mount (course : Course) (w : World) : World :=
  let questions := course_questions course in
  if (0 <? length questions)%nat then
    fire (trackQuizStart (course_id course) (course_title course)
                         (number (length questions))) w
  else w.

(** [handleAnswerSelect(answerIndex)]; the lines of [courseLogger] are
    left out here and below. *)
Definition handleAnswerSelect (course : Course) (answerIndex : nat)
    (q : QuizState) (w : World) : QuizState * World :=
  let isCorrect :=
    strict_eq (number answerIndex)
              (correct_at (course_questions course) (currentQuestion q)) in
  (mkQuizState (currentQuestion q) (Some answerIndex) (answers q) (showResults q),
   fire (trackQuizAnswer (course_id course) (number (currentQuestion q))
                         (number answerIndex) (JBool isCorrect)) w).

(** [Date.now() - parseInt(clickstreamService.sessionId.split('_')[1])]. *)
Definition timeSpent_of (Date_now : N) (sessionId : string) : float :=
  match elapsed Date_now sessionId with
  | Some ms => float_of_Z ms
  | None => PrimFloat.nan
  end.

(** [handleNextQuestion()]; [Date_now] is the reading of [Date.now()]. *)
Definition handleNextQuestion (course : Course) (Date_now : N)
    (q : QuizState) (w : World) : QuizState * World :=
  let questions := course_questions course in
  let newAnswers := answers q ++ [selectedAnswer q] in
  if (currentQuestion q + 1 <? length questions)%nat then
    (mkQuizState (currentQuestion q + 1) None newAnswers (showResults q), w)
  else
    let score := calculateScore questions newAnswers in
    let timeSpent := timeSpent_of Date_now (this_sessionId (this w)) in
    (mkQuizState (currentQuestion q) (selectedAnswer q) newAnswers true,
     fire (trackQuizComplete (course_id course) (float_of_Z (Z.of_nat score))
                             (float_of_Z (Z.of_nat (length questions))) timeSpent) w).

(** [resetQuiz()]. *)
Definition resetQuiz : QuizState := initial.

(** What the learner can click.  Without questions the component shows
    no button; on the results page only 'Take Quiz Again'; on a question
    its options and 'Next Question', which is disabled while nothing is
    selected. *)
Inductive Click : Type :=
| Pick (answerIndex : nat)
| Next (Date_now : N)
| Again.

Definition options_shown (course : Course) (q : QuizState) : nat :=
  match course_questions course !! currentQuestion q with
  | Some question => length (Accounts.options question)
  | None => 0
  end.

Definition click (course : Course) (c : Click) (q : QuizState) (w : World)
    : QuizState * World :=
  if (length (course_questions course) =? 0)%nat then (q, w)
  else if showResults q then
    match c with
    | Again => (resetQuiz, w)
    | _ => (q, w)
    end
  else
    match c with
    | Pick answerIndex =>
        if (answerIndex <? options_shown course q)%nat
        then handleAnswerSelect course answerIndex q w
        else (q, w)
    | Next Date_now =>
        match selectedAnswer q with
        | Some _ => handleNextQuestion course Date_now q w
        | None => (q, w)
        end
    | Again => (q, w)
    end.

(** ** Vocabulary for the statements about the quiz *)

Definition clicks (course : Course) (cs : list Click) (q : QuizState) (w : World)
    : QuizState * World :=
  fold_left (fun qw c => click course c (fst qw) (snd qw)) cs (q, w).

Definition is_answer (e : Event) : Prop := eventType e = JStr "quiz_answer".

(** A 'quiz_complete' event of a quiz of [total] questions on a page
    whose service was constructed at [t0]. *)
Definition is_completion (total : nat) (t0 : N) (e : Event) : Prop :=
  eventType e = JStr "quiz_complete" /\
  get (eventData e) "totalQuestions" = number total /\
  (exists score, (score <= total)%nat /\ get (eventData e) "score" = number score) /\
  exists Date_now,
    get (eventData e) "timeSpent" = JNum (float_of_Z (Z.of_N Date_now - Z.of_N t0)).

(** The state between two clicks: every answer recorded was selected;
    on the results page there is one per question, before that one per
    question passed, and a question is being shown. *)
Definition in_progress (total : nat) (q : QuizState) : Prop :=
  Forall (fun answer => answer <> None) (answers q) /\
  if showResults q then length (answers q) = total
  else currentQuestion q = length (answers q) /\
       (length (answers q) <= total)%nat /\
       ((0 < total)%nat -> (length (answers q) < total)%nat).

(** On the results page, the last event posted reports the score of the
    answers recorded. *)
Definition reported (course : Course) (q : QuizState) (new : list Event) : Prop :=
  showResults q = true ->
  exists e, last new = Some e /\
            eventType e = JStr "quiz_complete" /\
            get (eventData e) "score"
              = number (calculateScore (course_questions course) (answers q)).

End Quiz.

(* ===================================================================== *)
(** * backend/server-mock.js: the two account routes *)
(* ===================================================================== *)

Module Mock.

(** [app.post('/api/auth/register')]: the JSON it sends for a body that
    is an object; there is no token in it. *)
Definition register (body : JsValue) : JsValue :=
  let username := get body "username" in
  let email := get body "email" in
  JObj (<["success" := JBool true]>
       (<["message" := JStr "User registered successfully (mock)"]>
       (<["user" := JObj (<["id" := JNum 1]>
                         (Auth.field "username" username
                         (Auth.field "email" email ∅)))]>
       (<["note" := JStr "This is a mock response - replace with real MongoDB later"]>
        ∅)))).

(** [app.post('/api/auth/login')]. *)
Definition login (body : JsValue) : JsValue :=
  let email := get body "email" in
  JObj (<["success" := JBool true]>
       (<["message" := JStr "Login successful (mock)"]>
       (<["user" := JObj (<["id" := JNum 1]> (Auth.field "email" email ∅))]>
       (<["token" := JStr "mock-jwt-token"]>
       (<["note" :=
            JStr "This is a mock response - replace with real authentication later"]>
        ∅))))).

(** [res.json(body)] as [fetch] resolves it. *)
Definition served (response : JsValue) : Client.FetchResult :=
  Client.HttpResponse 200 (Some response).

End Mock.

(* ===================================================================== *)
(** * The registration form (RegisterForm): password rule and rating *)
(* ===================================================================== *)

Module RegisterForm.

(** A JavaScript string as its UTF-16 code units, which is what [length]
    counts and what the character classes below test. *)
Definition CodeUnits : Type := list N.

(** The classes [[a-z]], [[A-Z]], [\d] and [[^a-zA-Z\d]]. *)
Definition lower (c : N) : bool := (97 <=? c)%N && (c <=? 122)%N.
Definition upper (c : N) : bool := (65 <=? c)%N && (c <=? 90)%N.
Definition digit (c : N) : bool := (48 <=? c)%N && (c <=? 57)%N.
Definition other (c : N) : bool := negb (lower c || upper c || digit c).

(** [/[class]/.test(s)]: some code unit of [s] is in the class. *)
Definition test (class : N -> bool) (s : CodeUnits) : bool := existsb class s.

Record Rating : Type := mkRating {
  strength : nat;
  label : string;
  color : option string
}.

Definition labels : list string := ["Very Weak"; "Weak"; "Fair"; "Good"; "Strong"].
Definition colors : list string :=
  ["bg-red-500"; "bg-orange-500"; "bg-yellow-500"; "bg-blue-500"; "bg-green-500"].

(** [arr[strength - 1]]: [undefined] at index -1. *)
Definition before {A : Type} (arr : list A) (strength : nat) : option A :=
  match strength with
  | O => None
  | S index => arr !! index
  end.

Definition increment_if (c : bool) (strength : nat) : nat :=
  if c then S strength else strength.

(** [getPasswordStrength(password)]; the password watched is a string,
    the empty one until something is typed. *)
Definition getPasswordStrength (password : CodeUnits) : Rating :=
  match password with
  | [] => mkRating 0 "Enter password" None
  | _ =>
      let strength := 0%nat in
      let strength := increment_if (6 <=? length password)%nat strength in
      let strength := increment_if (test lower password) strength in
      let strength := increment_if (test upper password) strength in
      let strength := increment_if (test digit password) strength in
      let strength := increment_if (test other password) strength in
      mkRating strength
               (default "Very Weak" (before labels strength))
               (Some (default "bg-red-500" (before colors strength)))
  end.

(** The line terminators, which [.] does not match. *)
Definition line_terminator (c : N) : bool :=
  (c =? 10)%N || (c =? 13)%N || (c =? 8232)%N || (c =? 8233)%N.

(** What [.*] can run over from the start of the string. *)
Fixpoint first_line (s : CodeUnits) : CodeUnits :=
  match s with
  | [] => []
  | c :: rest => if line_terminator c then [] else c :: first_line rest
  end.

(** The rule of [registerSchema] for [password]: [min(1)], [min(6)],
    [max(100)] and the pattern [/^(?=.*[a-z])(?=.*[A-Z])(?=.*\d)/], whose
    three lookaheads start at the beginning of the string. *)
Definition password_accepted (password : CodeUnits) : bool :=
  (1 <=? length password)%nat && (6 <=? length password)%nat
  && (length password <=? 100)%nat
  && (test lower (first_line password) && test upper (first_line password)
      && test digit (first_line password)).

End RegisterForm.

(* ===================================================================== *)
(** * Properties of the server routes *)
(* ===================================================================== *)

Module ServerFacts.
Import Server.







Lemma insert_by_perm {A : Type} (cmp : A -> A -> option Z) (x : A) (l : list A) :
  Permutation (insert_by cmp x l) (x :: l).
Proof.
  induction l as [| y l IH]; simpl; [reflexivity |].
  destruct (positive (cmp x y)); [| reflexivity].
  rewrite IH. apply perm_swap.
Qed.

Lemma Array_sort_perm {A : Type} (cmp : A -> A -> option Z) (l : list A) :
  Permutation (Array_sort cmp l) l.
Proof.
  induction l as [| x l IH]; simpl; [reflexivity |].
  rewrite insert_by_perm. constructor. exact IH.
Qed.

(** *** Calls that may throw *)


Lemma ToPrimitive_cases (v : JsValue) :
  ToPrimitive v =
    if converts v
    then Returns (match v with JObj _ => JStr "[object Object]" | _ => v end)
    else Throws "TypeError: Cannot convert object to primitive value".
Proof.
  unfold converts, ToPrimitive. destruct v as [| | | | | o]; try reflexivity.
  destruct (o !! "toString"); reflexivity.
Qed.

(** A callback that throws on the elements [bad] and otherwise returns
    [p]: the filter throws when some element is [bad] and is the pure
    filter otherwise. *)
Lemma Array_filter_spec {A : Type} (callback : A -> Outcome bool) (bad p : A -> bool)
    (err : string) (l : list A) :
  (forall x, callback x = if bad x then Throws err else Returns (p x)) ->
  Array_filter callback l =
    if existsb bad l then Throws err else Returns (List.filter p l).
Proof.
  intros Hc. induction l as [| x l IH]; simpl; [reflexivity |].
  rewrite Hc. destruct (bad x); simpl; [reflexivity |].
  rewrite IH. destruct (existsb bad l); simpl; [reflexivity |].
  destruct (p x); reflexivity.
Qed.


Lemma insert_by_call_spec {A : Type} (cmp_call : A -> A -> Outcome (option Z))
    (cmp : A -> A -> option Z) (bad : A -> bool) (err : string) (x : A) (l : list A) :
  (forall a b, cmp_call a b = if bad b || bad a then Throws err else Returns (cmp a b)) ->
  existsb bad l = false ->
  insert_by_call cmp_call x l =
    match l with
    | [] => Returns [x]
    | _ :: _ => if bad x then Throws err else Returns (insert_by cmp x l)
    end.
Proof.
  intros Hc. induction l as [| y l IH]; simpl; [reflexivity |].
  intros Hl. apply orb_false_iff in Hl. destruct Hl as [Hy Hl].
  rewrite Hc, Hy. simpl. destruct (bad x); simpl; [reflexivity |].
  destruct (positive (cmp x y)); [| reflexivity].
  rewrite (IH Hl). destruct l; reflexivity.
Qed.

(** A comparator that throws when an argument is [bad] and otherwise
    returns [cmp]: the sort throws when the array has two elements or
    more and one of them is [bad], and is the pure sort otherwise. *)
Lemma Array_sort_call_spec {A : Type} (cmp_call : A -> A -> Outcome (option Z))
    (cmp : A -> A -> option Z) (bad : A -> bool) (err : string) (l : list A) :
  (forall a b, cmp_call a b = if bad b || bad a then Throws err else Returns (cmp a b)) ->
  Array_sort_call cmp_call l =
    if (2 <=? length l)%nat && existsb bad l then Throws err
    else Returns (Array_sort cmp l).
Proof.
  intros Hc. induction l as [| x l IH]; [reflexivity |].
  change (Array_sort_call cmp_call (x :: l))
    with (and_then (Array_sort_call cmp_call l) (insert_by_call cmp_call x)).
  rewrite IH. destruct l as [| y l].
  - reflexivity.
  - destruct l as [| z l].
    + simpl. rewrite Hc. rewrite orb_false_r.
      destruct (bad y), (bad x); simpl; try reflexivity.
      destruct (positive (cmp x y)); reflexivity.
    + change (2 <=? length (y :: z :: l))%nat with true.
      change (2 <=? length (x :: y :: z :: l))%nat with true.
      cbv beta iota delta [andb].
      change (existsb bad (x :: y :: z :: l)) with (bad x || existsb bad (y :: z :: l)).
      destruct (existsb bad (y :: z :: l)) eqn:Hl.
      * rewrite orb_true_r. reflexivity.
      * rewrite orb_false_r. unfold and_then.
        assert (Hs : existsb bad (Array_sort cmp (y :: z :: l)) = false).
        { apply not_true_is_false. intros Hex. apply existsb_exists in Hex.
          destruct Hex as (e & He & Hb).
          assert (Hin : In e (y :: z :: l)).
          { eapply Permutation_in; [apply Array_sort_perm | exact He]. }
          assert (existsb bad (y :: z :: l) = true)
            by (apply existsb_exists; exists e; split; assumption).
          congruence. }
        rewrite (insert_by_call_spec cmp_call cmp bad err x _ Hc Hs).
        destruct (Array_sort cmp (y :: z :: l)) as [| s0 s] eqn:Es.
        -- exfalso. pose proof (Array_sort_perm cmp (y :: z :: l)) as Hp.
           rewrite Es in Hp. apply Permutation_nil in Hp. discriminate.
        -- change (Array_sort cmp (x :: y :: z :: l))
             with (insert_by cmp x (Array_sort cmp (y :: z :: l))).
           rewrite Es. reflexivity.
Qed.

Section WithRuntime.
Context {rt : Runtime}.





Lemma test_owner_spec (v : string) (item : Event) :
  test_owner v item =
    if negb (converts (userId item))
    then Throws "TypeError: Cannot convert object to primitive value"
    else Returns (belongs_to v item).
Proof.
  unfold test_owner, belongs_to, equals_str. rewrite ToPrimitive_cases.
  destruct (userId item) as [| | | | | o]; simpl; try reflexivity.
  - destruct (String.eqb _ _); reflexivity.
  - destruct (converts (JObj o)); reflexivity.
Qed.

Lemma compare_newest_first_spec (a b : Event) :
  compare_newest_first a b =
    if negb (converts (timestamp b)) || negb (converts (timestamp a))
    then Throws "TypeError: Cannot convert object to primitive value"
    else Returns (newest_first a b).
Proof.
  unfold compare_newest_first, newest_first, construct_Date. rewrite !ToPrimitive_cases.
  destruct (converts (timestamp b)), (converts (timestamp a)); reflexivity.
Qed.



(** Loose equality accepts the string and the numeric form of an id. *)
Lemma userId_matches_string (v : string) (e : Event) :
  userId e = JStr v -> userId_matches v e = true.
Proof.
  intros H. unfold userId_matches. rewrite H. simpl. apply String.eqb_refl.
Qed.

Lemma userId_matches_number (v : string) (x : float) (e : Event) :
  userId e = JNum x -> userId_matches v e = PrimFloat.eqb x (StringToNumber v).
Proof.
  intros H. unfold userId_matches. rewrite H. reflexivity.
Qed.






(** The bounds are inclusive: an event stamped exactly at a bound passes. *)
Lemma date_bounds_inclusive (t : Z) :
  date_ge (Some t) (Some t) = true /\ date_le (Some t) (Some t) = true.
Proof. simpl. split; apply Z.leb_refl. Qed.

(** An invalid date satisfies neither bound. *)
Lemma invalid_date_outside (b : option Z) :
  date_ge None b = false /\ date_le None b = false.
Proof. split; reflexivity. Qed.



(** *** The per-user route *)



Lemma belongs_to_loose (v : string) (e : Event) :
  belongs_to v e = loose_eq_str (userId e) v.
Proof.
  unfold belongs_to. destruct (userId e); simpl; try reflexivity.
  apply orb_diag.
Qed.


(** The per-user route: the answer of the [catch] when the filter or the
    comparator throws, the sorted events of the user otherwise. *)
Lemma get_user_clickstream_cases (fs : FileSystem) (user : string) :
  get_user_clickstream fs user =
    if user_clickstream_throws user (readDB fs)
    then status_json 500 (Failure false "Failed to fetch user data")
    else json (UserHistory true user
                 (length (Array_sort newest_first (List.filter (belongs_to user) (readDB fs))))
                 (Array_sort newest_first (List.filter (belongs_to user) (readDB fs)))).
Proof.
  unfold get_user_clickstream, user_clickstream_throws. cbv zeta.
  rewrite (Array_filter_spec _ (fun e => negb (converts (userId e))) (belongs_to user)
             "TypeError: Cannot convert object to primitive value" _ (test_owner_spec user)).
  destruct (existsb _ (readDB fs)); [reflexivity |].
  unfold and_then.
  rewrite (Array_sort_call_spec _ newest_first (fun e => negb (converts (timestamp e)))
             "TypeError: Cannot convert object to primitive value" _
             compare_newest_first_spec).
  cbv beta iota delta [orb].
  destruct ((2 <=? length _)%nat && existsb _ _); reflexivity.
Qed.


(** Whatever the route answers, the events it returns are logged events
    of the user. *)
Lemma get_user_clickstream_data (fs : FileSystem) (user : string) (e : Event) :
  In e (data_of (get_user_clickstream fs user)) ->
  In e (readDB fs) /\ loose_eq_str (userId e) user = true.
Proof.
  rewrite get_user_clickstream_cases.
  destruct (user_clickstream_throws user (readDB fs)); simpl; [intros [] |].
  intros H. eapply Permutation_in in H; [| apply Array_sort_perm].
  apply filter_In in H. rewrite belongs_to_loose in H. exact H.
Qed.


End WithRuntime.

(** C1: the log cannot be written, and POST /api/clickstream still answers
    200 with [success: true]: [writeDB] reports the failed write by
    returning [false], which the route does not look at. *)
Theorem post_clickstream_acknowledges_failed_write :
  let fs := Examples.read_only [] in
  let req := Examples.request Examples.page_view in
  writeDB fs (readDB fs ++ [clickData req]) = (false, fs) /\
  post_clickstream fs req =
    (mkResponse 200 (Recorded true "Clickstream data recorded" (JNum 1704067200000)), fs).
Proof. split; reflexivity. Qed.


(** Whatever the failed write leaves behind, the route acknowledges the
    event as recorded when the session id is a string. *)
Lemma post_clickstream_ignores_write_fault (fs : FileSystem) (req : Request)
    (remains : FileContent) (sid : string) :
  write_fault fs = Some remains ->
  sessionId (req_body req) = JStr sid ->
  post_clickstream fs req =
    (mkResponse 200 (Recorded true "Clickstream data recorded" (JNum (Date_now req))),
     mkFS remains (Some remains)).
Proof.
  intros Hw Hs. unfold post_clickstream, writeDB, writeFileSync, log_recorded.
  rewrite Hw. simpl. rewrite Hs. reflexivity.
Qed.


(** C4: on a log with an older event, an event whose timestamp does not
    parse and a newer event, in this order, the comparator returns NaN
    for both neighbouring pairs and the sort leaves the array as it is:
    the older event is returned before the newer one. *)
Theorem get_user_clickstream_unsorted_around_invalid_date :
  let a := Examples.stored Examples.older in
  let b := Examples.stored Examples.undated in
  let c := Examples.stored Examples.newer in
  let fs := Examples.log_of [a; b; c] in
  newest_first (rt := Sample.runtime) a b = None /\
  newest_first (rt := Sample.runtime) b c = None /\
  newest_first (rt := Sample.runtime) a c = Some 86400000%Z /\
  get_user_clickstream (rt := Sample.runtime) fs "alice" =
    json (UserHistory true "alice" 3 [a; b; c]).
Proof. repeat split; reflexivity. Qed.



End ServerFacts.

(* ===================================================================== *)
(** * Properties of the capture client *)
(* ===================================================================== *)

Module ClientFacts.
Import Client.

Lemma storeFailedEvent_stores (event : Event) (w : World) :
  storable w = true ->
  exists w', storeFailedEvent event w = (Returns tt, w') /\
    failed_clickstream_events w' = Some (Serialized (queue_entries w ++ [event])) /\
    posted w' = posted w.
Proof.
  unfold storable, storeFailedEvent, queue_entries. intros H.
  apply andb_true_iff in H. destruct H as [Hfull Hitem].
  apply negb_true_iff in Hfull.
  destruct w as [s win item full net sent out]. simpl in *. subst full.
  destruct item as [[q |] |]; try discriminate; eexists; repeat split.
Qed.

Lemma storeFailedEvent_drops (event : Event) (w : World) :
  storable w = false ->
  exists w', storeFailedEvent event w = (Returns tt, w') /\
    failed_clickstream_events w' = failed_clickstream_events w /\
    posted w' = posted w.
Proof.
  unfold storable, storeFailedEvent. intros H.
  destruct w as [s win item full net sent out]. simpl in *.
  destruct item as [[q |] |]; destruct full; try discriminate; eexists; repeat split.
Qed.

(** [storeFailedEvent] never throws. *)
Lemma storeFailedEvent_returns (event : Event) (w : World) :
  exists w', storeFailedEvent event w = (Returns tt, w') /\ posted w' = posted w.
Proof.
  destruct (storable w) eqn:H.
  - destruct (storeFailedEvent_stores event w H) as (w' & E & _ & P). eauto.
  - destruct (storeFailedEvent_drops event w H) as (w' & E & _ & P). eauto.
Qed.

(** [trackEvent] does not touch the fields of [this]. *)
Lemma trackEvent_keeps_this (w : World) (type : string) (data : JsValue) :
  this (snd (trackEvent type data w)) = this w.
Proof.
  destruct w as [s win item full net sent out].
  unfold trackEvent, bind, reads, try_catch, fetch_clickstream, log,
    storeFailedEvent, localStorage_getItem,
    localStorage_setItem, await, response_json, read_id, throw, ret.
  simpl.
  destruct (negb (this_isInitialized s) && negb (String.eqb type "session_start"));
    [reflexivity |]. simpl.
  destruct (net (length sent) _) as [| st [result |]]; simpl;
    try destruct (ok st); simpl; try destruct result; simpl;
    destruct item as [[q |] |], full; simpl; auto.
Qed.

(** [initialize(user)] binds the user name, else the user id, else
    'anonymous', and marks the service initialised. *)
Lemma initialize_binds_user (user : JsValue) (w : World) :
  this (snd (initialize user w)) =
    mkService (this_baseURL (this w)) (this_sessionId (this w))
              (or_else (or_else (get user "username") (get user "id")) (JStr "anonymous"))
              true.
Proof.
  unfold initialize, bind at 1, log at 1. unfold bind at 1, reads at 1.
  unfold bind at 1.
  match goal with |- context [trackEvent ?t ?d ?w0] =>
    pose proof (trackEvent_keeps_this w0 t d) as H;
    destruct (trackEvent t d w0) as [[v | e] w1] end;
    simpl in H |- *; exact H.
Qed.

(** C10: before [initialize], [trackEvent] of anything but
    'session_start' only logs an error and resolves to [undefined]: no
    request is made and the retry queue is not touched. *)
Theorem trackEvent_before_initialize (w : World) (eventType : string) (eventData : JsValue) :
  this_isInitialized (this w) = false ->
  eventType <> "session_start" ->
  trackEvent eventType eventData w =
    (Returns JUndefined,
     logged w Error "Clickstream not initialized. Call initialize() first.") /\
  posted (snd (trackEvent eventType eventData w)) = posted w /\
  failed_clickstream_events (snd (trackEvent eventType eventData w)) =
    failed_clickstream_events w.
Proof.
  intros Hinit Hne.
  assert (E : trackEvent eventType eventData w =
    (Returns JUndefined,
     logged w Error "Clickstream not initialized. Call initialize() first.")).
  { unfold trackEvent, bind, reads. rewrite Hinit.
    apply String.eqb_neq in Hne. rewrite Hne. reflexivity. }
  rewrite E. repeat split.
Qed.

(** After initialisation every call posts exactly one event. *)
Lemma trackEvent_posts_one_event (w : World) (type : string) (data : JsValue) :
  this_isInitialized (this w) = true ->
  posted (snd (trackEvent type data w))
    = posted w ++ [clickstreamEvent (this w) (window w) type (or_empty_object data)].
Proof.
  intros Hinit.
  destruct w as [s win item full net sent out]. simpl in Hinit.
  unfold trackEvent, bind, reads, try_catch, fetch_clickstream, log,
    storeFailedEvent, localStorage_getItem,
    localStorage_setItem, await, response_json, read_id, throw, ret.
  simpl. rewrite Hinit. simpl.
  destruct (net (length sent) _) as [| st [result |]]; simpl;
    try destruct (ok st); simpl; try destruct result; simpl;
    destruct item as [[q |] |], full; simpl; auto.
Qed.

(** C5 (as amended): after initialisation [trackEvent] posts one event
    carrying the session id, the user id, the event type under [eventType]
    and [action], the data under [eventData] and [details], the timestamp,
    the URL, the user agent and the viewport, and never throws.  When the
    delivery succeeds it resolves to the parsed response body (whose [id]
    is the one the server assigned) and leaves the queue alone.  When it
    fails (network error, non-2xx status, unusable body) it resolves to
    [undefined], and the event is appended to the retry queue if local
    storage can take it; if it cannot, the queue stays as it was. *)
Theorem trackEvent_after_initialize (w : World) (type : string) (data : JsValue) :
  this_isInitialized (this w) = true ->
  let event := clickstreamEvent (this w) (window w) type (or_empty_object data) in
  let outcome := fst (trackEvent type data w) in
  let w' := snd (trackEvent type data w) in
  (sessionId event = JStr (this_sessionId (this w)) /\
   userId event = this_userId (this w) /\
   eventType event = JStr type /\ action event = JStr type /\
   eventData event = or_empty_object data /\
   details event = or_empty_object data /\
   timestamp event = JStr (now_toISOString (window w)) /\
   url event = JStr (location_href (window w)) /\
   userAgent event = JStr (navigator_userAgent (window w)) /\
   viewport event = viewport_of (window w)) /\
  posted w' = posted w ++ [event] /\
  match delivered (network w (length (posted w)) event) with
  | Some result =>
      outcome = Returns result /\
      failed_clickstream_events w' = failed_clickstream_events w
  | None =>
      outcome = Returns JUndefined /\
      if storable w
      then failed_clickstream_events w' = Some (Serialized (queue_entries w ++ [event]))
      else failed_clickstream_events w' = failed_clickstream_events w
  end.
Proof.
  intros Hinit event outcome w'.
  split; [repeat split |].
  subst outcome w' event.
  destruct w as [s win item full net sent out]. simpl in Hinit.
  unfold trackEvent, bind, reads, try_catch, fetch_clickstream, log, storable,
    queue_entries, delivered, storeFailedEvent, localStorage_getItem,
    localStorage_setItem, await, response_json, read_id, throw, ret.
  simpl. rewrite Hinit. simpl.
  destruct (net (length sent) _) as [| st [result |]]; simpl;
    try destruct (ok st); simpl; try destruct result; simpl;
    destruct item as [[q |] |], full; simpl; auto.
Qed.

(** A witness for C10: a 'page_view' tracked on a fresh page. *)
Lemma trackEvent_before_initialize_witness :
  let w := Examples.page_of false None false Examples.online in
  posted (snd (trackEvent "page_view" JUndefined w)) = [] /\
  failed_clickstream_events (snd (trackEvent "page_view" JUndefined w)) = None.
Proof.
  intros w.
  assert (Hinit : this_isInitialized (this w) = false) by reflexivity.
  assert (Hne : "page_view" <> "session_start") by discriminate.
  destruct (trackEvent_before_initialize w "page_view" JUndefined Hinit Hne) as (_ & P & Q).
  split; [exact P | exact Q].
Defined.

(** A witness for C5 (as amended): on a page initialised for alice while
    offline, with room in local storage, a tracked 'page_view' joins the
    retry queue behind the 'session_start' of [initialize]. *)
Lemma trackEvent_after_initialize_witness :
  let w := snd (initialize Examples.alice (Examples.page_of false None false Examples.offline)) in
  fst (trackEvent "page_view" JUndefined w) = Returns JUndefined /\
  map eventType (queue_entries (snd (trackEvent "page_view" JUndefined w)))
    = [JStr "session_start"; JStr "page_view"].
Proof.
  intros w.
  assert (Hinit : this_isInitialized (this w) = true) by reflexivity.
  destruct (trackEvent_after_initialize w "page_view" JUndefined Hinit) as (_ & _ & H).
  change (delivered (network w (length (posted w))
            (clickstreamEvent (this w) (window w) "page_view" (or_empty_object JUndefined))))
    with (@None JsValue) in H.
  change (storable w) with true in H.
  destruct H as [H1 H2]. split; [exact H1 |].
  unfold queue_entries at 1. rewrite H2. reflexivity.
Defined.

(** C5 (as stated) fails twice.  Offline and with local storage full, the
    event is not appended to the retry queue: [setItem] throws,
    [storeFailedEvent] logs the error and the event is gone.  And online,
    the call resolves to the whole response body
    [{success, message, id}], not to the id. *)
Lemma trackEvent_loses_event_when_storage_is_full :
  let lost := Examples.page_of true None true Examples.offline in
  let fine := Examples.page_of true None false Examples.online in
  (this_isInitialized (this lost) = true /\
   network lost 0 (clickstreamEvent (this lost) (window lost) "page_view" (JObj ∅))
     = NetworkError /\
   fst (trackEvent "page_view" JUndefined lost) = Returns JUndefined /\
   queue_entries (snd (trackEvent "page_view" JUndefined lost)) = []) /\
  (fst (trackEvent "page_view" JUndefined fine) = Returns Examples.acknowledgement /\
   Examples.acknowledgement <> JNum 1704067200000).
Proof. repeat split; discriminate. Qed.

(** *** The retry pass *)

Lemma map_fetch_posts (failedEvents : list Event) (w : World) :
  exists promises,
    map_fetch failedEvents w =
      (Returns promises,
       mkWorld (this w) (window w) (failed_clickstream_events w) (storage_full w)
               (network w) (posted w ++ failedEvents) (console w)).
Proof.
  revert w. induction failedEvents as [| e rest IH]; intros w.
  - exists []. simpl. unfold ret. rewrite app_nil_r. destruct w; reflexivity.
  - simpl. unfold bind at 1. unfold fetch_clickstream at 1.
    unfold bind at 1.
    destruct (IH (mkWorld (this w) (window w) (failed_clickstream_events w) (storage_full w)
                          (network w) (posted w ++ [e]) (console w))) as (ps & E).
    rewrite E. simpl. eexists. unfold ret. rewrite <- app_assoc. reflexivity.
Qed.

Lemma retryFailedEvents_run (w : World) :
  retryFailedEvents w = (Returns tt, after_retry w).
Proof.
  destruct w as [s win item full net sent out].
  unfold retryFailedEvents, after_retry, try_catch, localStorage_getItem, reads.
  destruct item as [[[| e q] |] |]; try reflexivity.
  unfold bind at 1. simpl. unfold bind at 1. simpl. unfold bind at 1. simpl.
  change (p <- fetch_clickstream e;; ps <- map_fetch q;; ret (p :: ps))
    with (map_fetch (e :: q)).
  unfold bind at 1.
  match goal with |- context [map_fetch ?l ?w0] =>
    destruct (map_fetch_posts l w0) as (ps & E) end.
  rewrite E. reflexivity.
Qed.

(** C6: a call of [retryFailedEvents] never throws, hands every queued
    event to [fetch], in queue order, and leaves no event queued,
    however the requests settle; a non-empty queue is removed from local
    storage. *)
Theorem retryFailedEvents_empties_queue (w : World) :
  let w' := snd (retryFailedEvents w) in
  fst (retryFailedEvents w) = Returns tt /\
  posted w' = posted w ++ queue_entries w /\
  queue_entries w' = [] /\
  (queue_entries w <> [] -> failed_clickstream_events w' = None).
Proof.
  rewrite retryFailedEvents_run. unfold after_retry, queue_entries. simpl.
  destruct (failed_clickstream_events w) as [[[| e q] |] |] eqn:Hitem; simpl;
    rewrite ?Hitem, ?app_nil_r; repeat split; congruence.
Qed.

End ClientFacts.

(* ===================================================================== *)
(** * Properties of the aggregation *)
(* ===================================================================== *)

Module DashboardFacts.
Import Dashboard.

(** *** Insertion-ordered sets *)

Section Sets.
Context {A : Type} (eqb : A -> A -> bool).
Hypothesis eqb_eq : forall x y, eqb x y = true <-> x = y.

Lemma set_add_In (x y : A) (s : list A) :
  In y (set_add eqb x s) <-> y = x \/ In y s.
Proof.
  induction s as [| z s IH]; simpl.
  - intuition congruence.
  - destruct (eqb z x) eqn:E.
    + apply eqb_eq in E. subst. simpl. intuition congruence.
    + simpl. rewrite IH. intuition congruence.
Qed.

Lemma set_add_NoDup (x : A) (s : list A) :
  NoDup s -> NoDup (set_add eqb x s).
Proof.
  induction 1 as [| z s Hz Hs IH]; simpl.
  - repeat constructor. apply not_elem_of_nil.
  - destruct (eqb z x) eqn:E; [constructor; assumption |].
    constructor; [| exact IH].
    rewrite list_elem_of_In, set_add_In. intros [-> | H].
    + assert (eqb x x = true) by (apply eqb_eq; reflexivity). congruence.
    + apply Hz. apply list_elem_of_In. exact H.
Qed.


Lemma fold_set_add_NoDup (l s : list A) :
  NoDup s -> NoDup (fold_left (fun s x => set_add eqb x s) l s).
Proof.
  revert s. induction l as [| x l IH]; intros s Hs; simpl; [assumption |].
  apply IH, set_add_NoDup, Hs.
Qed.


Lemma set_of_list_NoDup (l : list A) : NoDup (set_of_list eqb l).
Proof. apply fold_set_add_NoDup. constructor. Qed.

End Sets.

Lemma DateString_eqb_eq (a b : DateString) : DateString_eqb a b = true <-> a = b.
Proof.
  destruct a as [| x], b as [| y]; simpl; try (split; congruence).
  rewrite Z.eqb_eq. split; congruence.
Qed.

Lemma has_In (keys : list DateString) (d : DateString) :
  has keys d = true <-> In d keys.
Proof.
  unfold has. rewrite existsb_exists. split.
  - intros (x & Hx & E). apply DateString_eqb_eq in E. congruence.
  - intros H. exists d. split; [assumption | apply DateString_eqb_eq; reflexivity].
Qed.

(** *** The streak loop stays within its fuel *)

Lemma walk_back_visits (keys : list DateString) (fuel : nat) (day : Z) (i : nat) :
  (i < walk_back fuel keys day)%nat ->
  In (LocalDate (day - Z.of_nat i)) keys.
Proof.
  revert day i. induction fuel as [| fuel IH]; intros day i; simpl; [lia |].
  destruct (has keys (LocalDate day)) eqn:H; [| lia].
  destruct i as [| i]; intros Hi.
  - replace (day - Z.of_nat 0)%Z with day by lia. apply has_In, H.
  - replace (day - Z.of_nat (S i))%Z with (day - 1 - Z.of_nat i)%Z by lia.
    apply IH. lia.
Qed.

Lemma walk_back_bounded (keys : list DateString) (fuel : nat) (day : Z) :
  NoDup keys -> (walk_back fuel keys day <= length keys)%nat.
Proof.
  intros Hk.
  set (n := walk_back fuel keys day).
  set (visited := (fun i => LocalDate (day - Z.of_nat i)) <$> seq 0 n).
  assert (Hlen : length visited = n)
    by (unfold visited; rewrite length_fmap, length_seq; reflexivity).
  rewrite <- Hlen. apply submseteq_length, NoDup_submseteq.
  - assert (Hinj : Inj eq eq (fun i => LocalDate (day - Z.of_nat i)))
      by (intros i j E; inversion E; lia).
    unfold visited. apply NoDup_fmap_2; [exact Hinj | apply NoDup_seq].
  - intros d Hd. unfold visited in Hd. apply list_elem_of_fmap in Hd.
    destruct Hd as (i & -> & Hi). apply elem_of_seq in Hi.
    apply list_elem_of_In, (walk_back_visits keys fuel). fold n. lia.
Qed.

Lemma walk_back_more_fuel (keys : list DateString) (fuel : nat) (day : Z) :
  (walk_back fuel keys day < fuel)%nat ->
  forall extra, walk_back (fuel + extra) keys day = walk_back fuel keys day.
Proof.
  revert day. induction fuel as [| fuel IH]; intros day; simpl; [lia |].
  destruct (has keys (LocalDate day)); [| reflexivity].
  intros H extra. f_equal. apply IH. lia.
Qed.

(** *** Fresh arrays *)

Lemma deref_alloc (h : Heap) (x : list Event) : deref (h ++ [x]) (length h) = x.
Proof. unfold deref. apply nth_middle. Qed.

Lemma deref_old (h : Heap) (x : list Event) (r : Ref) :
  (r < length h)%nat -> deref (h ++ [x]) r = deref h r.
Proof. intros H. unfold deref. apply app_nth1. exact H. Qed.

Lemma update_alloc (h : Heap) (x y : list Event) :
  <[length h := y]> (h ++ [x]) = h ++ [y].
Proof. induction h as [| a h IH]; simpl; [reflexivity | f_equal; exact IH]. Qed.

Lemma deref_nonempty (h : Heap) (r : Ref) : deref h r <> [] -> (r < length h)%nat.
Proof.
  intros H. destruct (Nat.lt_ge_cases r (length h)) as [L | G]; [exact L |].
  exfalso. apply H. unfold deref. apply nth_overflow. exact G.
Qed.

Section WithRuntime.
Context {rt : Runtime}.

(** [processAnalytics] reads its argument and allocates one array, the
    reversed copy of the last ten events. *)
Lemma processAnalytics_summarize (r : Ref) (h : Heap) :
  processAnalytics (Some r) h =
    (summarize (deref h r),
     if (length (deref h r) =? 0)%nat then h
     else h ++ [rev (slice_last 10 (deref h r))]).
Proof.
  unfold processAnalytics, summarize.
  destruct (length (deref h r) =? 0)%nat; [reflexivity |].
  destruct (fold_left count_event (deref h r) (∅, ∅, [])) as [[et tc] qc].
  unfold Array_slice_last, Array_reverse.
  rewrite deref_alloc, update_alloc, deref_alloc. reflexivity.
Qed.

(** [processProgressData] leaves the heap as it found it. *)
Lemma processProgressData_heap (clickstream : option Ref) (h : Heap) :
  snd (processProgressData clickstream h) = h.
Proof.
  unfold processProgressData. destruct clickstream as [r |]; [| reflexivity].
  destruct (length (deref h r) =? 0)%nat; [reflexivity |].
  destruct (fold_left record_event (deref h r) ([], [], [], [])) as [[[cv qt] vw] tv].
  reflexivity.
Qed.

(** C9: both aggregation functions give the same statistics when called
    again on the same array, and change no array that existed before the
    call (so not their argument); on a nullish or empty argument they
    return the all-zero statistics. *)
Theorem aggregation_repeatable_and_zero_on_empty (clickstream : option Ref) (h : Heap) :
  (fst (processAnalytics clickstream (snd (processAnalytics clickstream h)))
     = fst (processAnalytics clickstream h) /\
   forall r, (r < length h)%nat ->
             deref (snd (processAnalytics clickstream h)) r = deref h r) /\
  (fst (processProgressData clickstream (snd (processProgressData clickstream h)))
     = fst (processProgressData clickstream h) /\
   snd (processProgressData clickstream h) = h) /\
  ((clickstream = None \/ exists r, clickstream = Some r /\ deref h r = []) ->
   processAnalytics clickstream h = (mkAnalytics 0 0 ∅ [] ∅ [], h) /\
   processProgressData clickstream h = (mkProgress 0 [] [] [] [] [] 0 0, h)).
Proof.
  split; [| split].
  - destruct clickstream as [r |]; [| split; reflexivity].
    rewrite !processAnalytics_summarize. simpl.
    destruct (length (deref h r) =? 0)%nat eqn:E.
    + split; reflexivity.
    + assert (Hr : (r < length h)%nat).
      { apply deref_nonempty. intros H0. rewrite H0 in E. discriminate. }
      split.
      * rewrite deref_old by exact Hr. reflexivity.
      * intros r' Hr'. apply deref_old. exact Hr'.
  - rewrite !processProgressData_heap. split; reflexivity.
  - intros [-> | (r & -> & Hr)]; [split; reflexivity |].
    unfold processAnalytics, processProgressData. rewrite Hr. split; reflexivity.
Qed.

(** *** The learning streak *)

(** The loop of [loadLearningAnalytics] leaves by its own test: more fuel
    does not change the streak. *)
Lemma learningStreak_total (userInteractions : list Event) (now : Z) (extra : nat) :
  let keys := dailyEngagement userInteractions in
  walk_back (S (length keys) + extra) keys (LocalDay now) =
  loadLearningAnalytics_learningStreak userInteractions now.
Proof.
  intros keys. unfold loadLearningAnalytics_learningStreak. fold keys.
  apply walk_back_more_fuel.
  assert (walk_back (S (length keys)) keys (LocalDay now) <= length keys)%nat; [| lia].
  apply walk_back_bounded. apply set_of_list_NoDup. exact DateString_eqb_eq.
Qed.





End WithRuntime.


(** With one more event, stamped "not-a-date", the same log counts 4:
    "Invalid Date" is a date string like the others. *)
Lemma processProgressData_streak_counts_invalid_date :
  let events := Examples.gap_log ++ [Examples.stored Examples.undated] in
  map (activity_date (rt := Sample.runtime)) events =
    [LocalDate 19726; LocalDate 19725; LocalDate 19723; InvalidDate] /\
  learningStreak
    (fst (processProgressData (rt := Sample.runtime) (Some 0%nat) [events])) = 4%nat /\
  loadLearningAnalytics_learningStreak (rt := Sample.runtime)
    events Examples.noon_4_January_2024 = 2%nat.
Proof. repeat split; reflexivity. Qed.


End DashboardFacts.

(* ===================================================================== *)
(** * From a tracked quiz to the badge *)
(* ===================================================================== *)

Module Pipeline.
Import Client Server Dashboard.




Section WithRuntime.
Context {rt : Runtime}.







End WithRuntime.


End Pipeline.

(* ===================================================================== *)
(** * More properties of the capture client *)
(* ===================================================================== *)

Module ClientMoreFacts.
Import Client JsMore ClientMore.

(** The guard of [trackEvent]. *)
Lemma trackEvent_guard (w : World) (type : string) (data : JsValue) :
  this_isInitialized (this w) = false ->
  type <> "session_start" ->
  trackEvent type data w =
    (Returns JUndefined, logged w Error "Clickstream not initialized. Call initialize() first.").
Proof.
  intros Hinit Hne. unfold trackEvent, bind, reads. rewrite Hinit.
  apply String.eqb_neq in Hne. rewrite Hne. reflexivity.
Qed.

(** What [trackEvent] leaves alone: the service, the page and the
    environment. *)
Lemma trackEvent_frame (w : World) (type : string) (data : JsValue) :
  let w' := snd (trackEvent type data w) in
  this w' = this w /\ window w' = window w /\
  network w' = network w /\ storage_full w' = storage_full w.
Proof.
  destruct w as [s win item full net sent out].
  unfold trackEvent, bind, reads, try_catch, fetch_clickstream, log,
    storeFailedEvent, localStorage_getItem,
    localStorage_setItem, await, response_json, read_id, throw, ret.
  simpl.
  destruct (negb (this_isInitialized s) && negb (String.eqb type "session_start"));
    [repeat split |]. simpl.
  destruct (net (length sent) _) as [| st [result |]]; simpl;
    try destruct (ok st); simpl; try destruct result; simpl;
    destruct item as [[q |] |], full; simpl; auto.
Qed.

(** A failed delivery, on a page whose storage can take it, queues the
    event behind those already waiting. *)
Lemma trackEvent_failure_queues (w : World) (type : string) (data : JsValue) :
  this_isInitialized (this w) = true ->
  let event := clickstreamEvent (this w) (window w) type (or_empty_object data) in
  delivered (network w (length (posted w)) event) = None ->
  storable w = true ->
  failed_clickstream_events (snd (trackEvent type data w))
    = Some (Serialized (queue_entries w ++ [event])).
Proof.
  intros Hinit event. subst event.
  destruct w as [s win item full net sent out]. simpl in Hinit.
  unfold trackEvent, bind, reads, try_catch, fetch_clickstream, log, storable,
    queue_entries, delivered, storeFailedEvent, localStorage_getItem,
    localStorage_setItem, await, response_json, read_id, throw, ret.
  simpl. rewrite Hinit. simpl.
  destruct (net (length sent) _) as [| st [result |]]; simpl;
    try destruct (ok st); simpl; try destruct result; simpl;
    destruct item as [[q |] |], full; simpl; intros; try discriminate; auto.
Qed.

(** Every tracking method is [trackEvent] on its fixed event type and on
    an object that holds the caller's extra data and, under the keys the
    extra data does not claim, the named arguments. *)
Lemma perform_trackEvent (c : Call) (w : World) :
  exists m : gmap string JsValue,
    perform c w = trackEvent (event_type_of c) (JObj m) w /\
    (forall k v, extra_data c !! k = Some v -> m !! k = Some v) /\
    (forall k v, In (k, v) (named_arguments c) -> extra_data c !! k = None ->
                 m !! k = Some v).
Proof.
  destruct c; simpl perform; simpl event_type_of;
    (eexists; split; [reflexivity |]); simpl extra_data; simpl named_arguments;
    (split;
     [ intros k v H; try (rewrite lookup_empty in H; discriminate H);
       apply lookup_union_Some_l; exact H
     | intros k v Hin Hex;
       try (rewrite lookup_union_r by exact Hex);
       simpl in Hin;
       repeat (destruct Hin as [Hin | Hin]; [inversion Hin; subst; reflexivity |]);
       destruct Hin ]).
Qed.

(** X1: before [initialize] every tracking method, [trackSessionEnd] on
    unload included, only logs the error of [trackEvent]'s guard; nothing
    is posted and nothing is queued. *)
Theorem tracking_methods_dropped_before_initialize (c : Call) (w : World) :
  this_isInitialized (this w) = false ->
  perform c w =
    (Returns JUndefined, logged w Error "Clickstream not initialized. Call initialize() first.") /\
  posted (snd (perform c w)) = posted w /\
  failed_clickstream_events (snd (perform c w)) = failed_clickstream_events w.
Proof.
  intros Hinit. destruct (perform_trackEvent c w) as (m & E & _).
  rewrite E, trackEvent_guard; [repeat split | exact Hinit |].
  destruct c; discriminate.
Qed.

(** A witness for X1: a button click before [initialize]. *)
Lemma tracking_methods_dropped_before_initialize_witness :
  let w := Examples.page_of false None false Examples.online in
  posted (snd (trackButtonClick (JStr "start") (JStr "home") w)) = [].
Proof.
  intros w.
  assert (Hinit : this_isInitialized (this w) = false) by reflexivity.
  exact (proj1 (proj2 (tracking_methods_dropped_before_initialize
                         (ButtonClick (JStr "start") (JStr "home")) w Hinit))).
Defined.

(** X2: after [initialize] each tracking method posts exactly one event: its
    type is the method's fixed tag, under [eventType] and [action]; the
    data are the same object under [eventData] and [details]; the session
    and user ids are those of the service; and every named argument is
    found in the data under its key, unless the caller's extra data
    carries that key. *)
Theorem tracking_methods_post_one_tagged_event (c : Call) (w : World) :
  this_isInitialized (this w) = true ->
  exists event,
    posted (snd (perform c w)) = posted w ++ [event] /\
    eventType event = JStr (event_type_of c) /\
    action event = JStr (event_type_of c) /\
    details event = eventData event /\
    sessionId event = JStr (this_sessionId (this w)) /\
    userId event = this_userId (this w) /\
    forall k v, In (k, v) (named_arguments c) -> extra_data c !! k = None ->
                get (eventData event) k = v.
Proof.
  intros Hinit. destruct (perform_trackEvent c w) as (m & E & _ & Hargs).
  rewrite E. eexists. split.
  - apply ClientFacts.trackEvent_posts_one_event. exact Hinit.
  - repeat split. intros k v Hin Hex. simpl. rewrite (Hargs k v Hin Hex). reflexivity.
Qed.

(** A witness for X2: a video paused at 12.5 seconds. *)
Lemma tracking_methods_post_one_tagged_event_witness :
  let w := Examples.page_of true None false Examples.online in
  exists event,
    posted (snd (trackVideoPause (JStr "c1") (JStr "v.mp4") (JNum 12.5) w)) = [event] /\
    eventType event = JStr "video_pause" /\
    get (eventData event) "currentTime" = JNum 12.5.
Proof.
  intros w.
  assert (Hinit : this_isInitialized (this w) = true) by reflexivity.
  destruct (tracking_methods_post_one_tagged_event
              (VideoPause (JStr "c1") (JStr "v.mp4") (JNum 12.5)) w Hinit)
    as (event & Hp & Ht & _ & _ & _ & _ & Hk).
  exists event. split; [exact Hp |]. split; [exact Ht |].
  apply Hk; [| reflexivity]. simpl. tauto.
Defined.

(** X3: the extra data a caller passes to [trackNavigation] or
    [trackPageView] is spread last, so a key it carries replaces the
    method's own value for that key ([from], [to], [page], [timestamp]). *)
Theorem extra_data_overrides_named_arguments (c : Call) (w : World) :
  this_isInitialized (this w) = true ->
  exists event,
    posted (snd (perform c w)) = posted w ++ [event] /\
    forall k v, extra_data c !! k = Some v -> get (eventData event) k = v.
Proof.
  intros Hinit. destruct (perform_trackEvent c w) as (m & E & Hextra & _).
  rewrite E. eexists. split.
  - apply ClientFacts.trackEvent_posts_one_event. exact Hinit.
  - intros k v Hk. simpl. rewrite (Hextra k v Hk). reflexivity.
Qed.

(** A witness for X3: a page view of 'videos' whose extra data names
    another page is recorded under that other page. *)
Lemma extra_data_overrides_named_arguments_witness :
  let w := Examples.page_of true None false Examples.online in
  let data := JObj (<["page" := JStr "quiz"]> ∅) in
  exists event,
    posted (snd (trackPageView (JStr "videos") data w)) = [event] /\
    get (eventData event) "page" = JStr "quiz".
Proof.
  intros w data.
  assert (Hinit : this_isInitialized (this w) = true) by reflexivity.
  destruct (extra_data_overrides_named_arguments (PageView (JStr "videos") data) w Hinit)
    as (event & Hp & Hk).
  exists event. split; [exact Hp |]. apply Hk. reflexivity.
Defined.

(** The first part of a retry pass on a non-empty queue: every queued
    event is handed to [fetch], and the queue is still stored. *)
Lemma retry_until_await_run (w : World) (e : Event) (q : list Event) :
  failed_clickstream_events w = Some (Serialized (e :: q)) ->
  exists promises,
    retry_until_await w =
      (Returns (Some promises),
       mkWorld (this w) (window w) (Some (Serialized (e :: q))) (storage_full w)
               (network w) (posted w ++ e :: q)
               (console w ++ [mkLog Info "Retrying failed events"])).
Proof.
  intros Hitem. destruct w as [s win item full net sent out]. simpl in Hitem. subst item.
  unfold retry_until_await, localStorage_getItem, reads.
  unfold bind at 1. simpl. unfold bind at 1. simpl. unfold bind at 1. simpl.
  change (p <- fetch_clickstream e;; ps <- map_fetch q;; ret (p :: ps))
    with (map_fetch (e :: q)).
  unfold bind at 1.
  match goal with |- context [map_fetch ?l ?w0] =>
    destruct (ClientFacts.map_fetch_posts l w0) as (ps & E) end.
  rewrite E. exists ps. reflexivity.
Qed.

(** With nothing run in between, the two parts are the call. *)
Lemma retryFailedEvents_around_nothing (w : World) :
  retryFailedEvents_around (fun w' => w') w = retryFailedEvents w.
Proof.
  rewrite ClientFacts.retryFailedEvents_run.
  destruct (failed_clickstream_events w) as [[[| e q] |] |] eqn:Hitem.
  - destruct w as [s win item full net sent out]. simpl in Hitem. subst item. reflexivity.
  - destruct (retry_until_await_run w e q Hitem) as (ps & E).
    unfold retryFailedEvents_around, try_catch, bind at 1. rewrite E.
    unfold after_retry. rewrite Hitem. reflexivity.
  - destruct w as [s win item full net sent out]. simpl in Hitem. subst item. reflexivity.
  - destruct w as [s win item full net sent out]. simpl in Hitem. subst item. reflexivity.
Qed.

(** X4: an event whose delivery fails on a page that can store it is
    appended to the stored queue.  A later [retryFailedEvents], started
    in any state whose stored queue still holds the event, posts the
    queued events again, unchanged (same body, same timestamp) and in
    queue order, before it waits for the responses.  When the call is
    resumed it posts nothing more and removes the stored queue as it then
    is: whether or not the second attempt succeeded, and together with
    whatever the page stored in it while the call was waiting. *)
Theorem failed_event_is_retried_once (w : World) (type : string) (data : JsValue)
    (later : World) (meanwhile : World -> World) :
  this_isInitialized (this w) = true ->
  let event := clickstreamEvent (this w) (window w) type (or_empty_object data) in
  delivered (network w (length (posted w)) event) = None ->
  storable w = true ->
  In event (queue_entries later) ->
  let w1 := snd (trackEvent type data w) in
  let waiting := snd (retry_until_await later) in
  let w2 := snd (retryFailedEvents_around meanwhile later) in
  (posted w1 = posted w ++ [event] /\
   queue_entries w1 = queue_entries w ++ [event]) /\
  (posted waiting = posted later ++ queue_entries later /\
   queue_entries waiting = queue_entries later) /\
  (fst (retryFailedEvents_around meanwhile later) = Returns tt /\
   posted w2 = posted (meanwhile waiting) /\
   queue_entries w2 = [] /\
   failed_clickstream_events w2 = None) /\
  retryFailedEvents_around (fun w' => w') later = retryFailedEvents later.
Proof.
  intros Hinit event Hfail Hst Hin w1 waiting w2.
  assert (Hq : failed_clickstream_events w1 = Some (Serialized (queue_entries w ++ [event])))
    by (apply trackEvent_failure_queues; assumption).
  assert (Hp : posted w1 = posted w ++ [event])
    by (apply ClientFacts.trackEvent_posts_one_event; exact Hinit).
  split; [split; [exact Hp | unfold queue_entries at 1; rewrite Hq; reflexivity] |].
  assert (Hitem : exists e q, failed_clickstream_events later = Some (Serialized (e :: q))).
  { unfold queue_entries in Hin.
    destruct (failed_clickstream_events later) as [[[| e q] |] |]; try destruct Hin.
    - exists e, q. reflexivity.
    - exists e, q. reflexivity. }
  destruct Hitem as (e & q & Hitem).
  destruct (retry_until_await_run later e q Hitem) as (ps & E).
  assert (Hw : waiting = snd (retry_until_await later)) by reflexivity.
  assert (H2 : w2 = snd (retryFailedEvents_around meanwhile later)) by reflexivity.
  rewrite E in Hw. simpl in Hw.
  unfold retryFailedEvents_around, try_catch, bind at 1 in H2. rewrite E in H2.
  unfold retryFailedEvents_around at 1, try_catch, bind at 1. rewrite E.
  rewrite <- Hw in H2 |- *.
  clearbody waiting w2. subst w2.
  split; [unfold queue_entries; rewrite Hw, Hitem; split; reflexivity |].
  split; [repeat split |].
  apply retryFailedEvents_around_nothing.
Qed.

(** A witness for X4: a page view tracked offline, and the retry pass
    started right after; while the pass waits, a 'session_start' event
    fails as well and is stored.  The page view is posted twice, the
    stored 'session_start' is removed with the queue and not posted by
    the pass. *)
Lemma failed_event_is_retried_once_witness :
  let w := Examples.page_of true None false Examples.offline in
  let event := clickstreamEvent (this w) (window w) "page_view" (JObj ∅) in
  let start := clickstreamEvent (this w) (window w) "session_start" (JObj ∅) in
  let meanwhile := fun w' => snd (storeFailedEvent start w') in
  let w1 := snd (trackEvent "page_view" JUndefined w) in
  queue_entries (meanwhile (snd (retry_until_await w1))) = [event; start] /\
  posted (snd (retryFailedEvents_around meanwhile w1)) = [event; event] /\
  queue_entries (snd (retryFailedEvents_around meanwhile w1)) = [].
Proof.
  intros w event start meanwhile w1.
  assert (Hinit : this_isInitialized (this w) = true) by reflexivity.
  assert (Hfail : delivered (network w (length (posted w))
                    (clickstreamEvent (this w) (window w) "page_view"
                       (or_empty_object JUndefined))) = None) by reflexivity.
  assert (Hst : storable w = true) by reflexivity.
  assert (Hin : In (clickstreamEvent (this w) (window w) "page_view"
                      (or_empty_object JUndefined)) (queue_entries w1))
    by (left; reflexivity).
  destruct (failed_event_is_retried_once w "page_view" JUndefined w1 meanwhile
              Hinit Hfail Hst Hin)
    as (_ & _ & (_ & Hposted & Hqueue & _) & _).
  split; [reflexivity |]. split; [| exact Hqueue].
  etransitivity; [exact Hposted | reflexivity].
Defined.

(** [initialize] posts the 'session_start' event. *)
Lemma initialize_posts_session_start (user : JsValue) (w : World) :
  exists start,
    posted (snd (initialize user w)) = posted w ++ [start] /\
    eventType start = JStr "session_start" /\
    userId start
      = or_else (or_else (get user "username") (get user "id")) (JStr "anonymous") /\
    sessionId start = JStr (this_sessionId (this w)).
Proof.
  unfold initialize, bind at 1, log at 1. unfold bind at 1, reads at 1.
  unfold bind at 1.
  match goal with |- context [trackEvent ?t ?d ?w0] =>
    pose proof (ClientFacts.trackEvent_posts_one_event w0 t d eq_refl) as H;
    destruct (trackEvent t d w0) as [[v | e] w1] end;
    simpl in H |- *; rewrite H; eexists; repeat split.
Qed.

Lemma initialize_keeps_window (user : JsValue) (w : World) :
  window (snd (initialize user w)) = window w.
Proof.
  unfold initialize, bind at 1, log at 1. unfold bind at 1, reads at 1.
  unfold bind at 1.
  match goal with |- context [trackEvent ?t ?d ?w0] =>
    pose proof (trackEvent_frame w0 t d) as (_ & H & _);
    destruct (trackEvent t d w0) as [[v | e] w1] end;
    simpl in H |- *; exact H.
Qed.

(** X5: [initialize(user)] posts one 'session_start' event and binds the
    user name, else the user id, else 'anonymous' (a user with neither a
    non-empty name nor a non-zero id is anonymous); every event tracked
    afterwards carries that user id and the session id the service was
    constructed with, which a second [initialize] does not change. *)
Theorem initialize_binds_user_and_keeps_session (user : JsValue) (w : World)
    (type : string) (data : JsValue) :
  let uid := or_else (or_else (get user "username") (get user "id")) (JStr "anonymous") in
  let w1 := snd (initialize user w) in
  (exists start,
     posted w1 = posted w ++ [start] /\
     eventType start = JStr "session_start" /\
     userId start = uid /\
     sessionId start = JStr (this_sessionId (this w))) /\
  (exists event,
     posted (snd (trackEvent type data w1)) = posted w1 ++ [event] /\
     eventType event = JStr type /\
     userId event = uid /\
     sessionId event = JStr (this_sessionId (this w))) /\
  (truthy (get user "username") = false -> truthy (get user "id") = false ->
   uid = JStr "anonymous") /\
  this_sessionId (this (snd (initialize user w1))) = this_sessionId (this w).
Proof.
  intros uid w1.
  pose proof (ClientFacts.initialize_binds_user user w) as Hthis. fold w1 in Hthis.
  split; [apply initialize_posts_session_start |]. split; [| split].
  - eexists. split.
    + apply ClientFacts.trackEvent_posts_one_event. rewrite Hthis. reflexivity.
    + rewrite Hthis. repeat split.
  - intros Hn Hi. subst uid. unfold or_else. rewrite Hn, Hi. reflexivity.
  - rewrite ClientFacts.initialize_binds_user. simpl. rewrite Hthis. reflexivity.
Qed.

(** *** Decimal numerals *)

Lemma digit_value_char (d : N) :
  (d < 10)%N -> digit_value (pretty_N_char d) = Some d.
Proof.
  intros H.
  assert (d = 0 \/ d = 1 \/ d = 2 \/ d = 3 \/ d = 4 \/ d = 5 \/ d = 6 \/ d = 7
          \/ d = 8 \/ d = 9)%N as Hd by lia.
  repeat (destruct Hd as [-> | Hd]; [reflexivity |]). subst. reflexivity.
Qed.

Lemma all_digits_pretty_go (x : N) (s : string) :
  all_digits s = true -> all_digits (pretty_N_go x s) = true.
Proof.
  revert s. induction (N.lt_wf_0 x) as [x _ IH]; intros s Hs.
  destruct (N.eq_dec x 0%N) as [-> | Hx]; [rewrite pretty_N_go_0; exact Hs |].
  rewrite pretty_N_go_step by lia. apply IH.
  - apply N.div_lt; lia.
  - simpl. rewrite digit_value_char by (apply N.mod_lt; lia). exact Hs.
Qed.

Lemma pretty_go_nonempty (x : N) (s : string) :
  s <> EmptyString -> pretty_N_go x s <> EmptyString.
Proof.
  revert s. induction (N.lt_wf_0 x) as [x _ IH]; intros s Hs.
  destruct (N.eq_dec x 0%N) as [-> | Hx]; [rewrite pretty_N_go_0; exact Hs |].
  rewrite pretty_N_go_step by lia. apply IH; [apply N.div_lt; lia | discriminate].
Qed.

(** The numeral of a natural number is a non-empty string of digits. *)
Lemma pretty_numeral (x : N) : all_digits (pretty x) = true /\ pretty x <> EmptyString.
Proof.
  unfold pretty, pretty_N. destruct (decide (x = 0%N)) as [| Hx]; [split; [reflexivity | discriminate] |].
  split; [apply all_digits_pretty_go; reflexivity |].
  rewrite pretty_N_go_step by lia. apply pretty_go_nonempty. discriminate.
Qed.

(** Reading the numeral of [x] in front of [s] continues from [x]. *)
Lemma read_digits_pretty_go (x : N) :
  (0 < x)%N ->
  exists k : N, forall s acc,
    read_digits digit_value 10 (pretty_N_go x s) acc
      = read_digits digit_value 10 s (Some (default 0%N acc * 10 ^ k + x)%N).
Proof.
  induction (N.lt_wf_0 x) as [x _ IH]; intros Hx.
  assert (Hd : digit_value (pretty_N_char (N.modulo x 10)) = Some (N.modulo x 10))
    by (apply digit_value_char, N.mod_lt; lia).
  destruct (N.eq_dec (N.div x 10) 0%N) as [Hq | Hq].
  - exists 1%N. intros s acc. rewrite pretty_N_go_step by exact Hx.
    rewrite Hq, pretty_N_go_0. simpl. rewrite Hd. do 2 f_equal.
    pose proof (N.div_mod x 10). lia.
  - destruct (IH (N.div x 10)) as (k & Hk);
      [apply N.div_lt; lia | apply N.neq_0_lt_0; exact Hq |].
    exists (k + 1)%N. intros s acc. rewrite pretty_N_go_step by exact Hx.
    rewrite Hk. simpl. rewrite Hd. do 2 f_equal.
    rewrite N.pow_add_r. pose proof (N.div_mod x 10). lia.
Qed.

Lemma read_digits_pretty (x : N) :
  read_digits digit_value 10 (pretty x) None = Some x.
Proof.
  unfold pretty, pretty_N. destruct (decide (x = 0%N)) as [-> | Hx]; [reflexivity |].
  destruct (read_digits_pretty_go x) as (k & Hk); [lia |].
  rewrite Hk. simpl. reflexivity.
Qed.

(** A digit is neither white space, nor a sign, nor the [x] of a
    hexadecimal prefix. *)
Lemma digit_is_plain (c : ascii) :
  is_Some_bool (digit_value c) = true ->
  is_space c = false /\ c <> "-"%char /\ c <> "+"%char /\ c <> "x"%char /\ c <> "X"%char.
Proof.
  destruct c as [[] [] [] [] [] [] [] []]; try discriminate; intros _;
    repeat split; discriminate.
Qed.

(** [parseInt] of a string of digits reads all of it. *)
Lemma parseInt_digits (s : string) :
  all_digits s = true -> s <> EmptyString ->
  parseInt s = Z.of_N <$> read_digits digit_value 10 s None.
Proof.
  destruct s as [| c rest]; [congruence |]. simpl. intros H _.
  apply andb_true_iff in H. destruct H as [Hc Hrest].
  destruct (digit_is_plain c Hc) as (Hsp & Hm & Hp & _).
  unfold parseInt. simpl. rewrite Hsp.
  assert (Hrest2 : forall c2 r, rest = String c2 r -> c2 <> "x"%char /\ c2 <> "X"%char).
  { intros c2 r ->. simpl in Hrest. apply andb_true_iff in Hrest. destruct Hrest as [H2 _].
    destruct (digit_is_plain c2 H2) as (_ & _ & _ & Hx & HX). split; assumption. }
  destruct c as [[] [] [] [] [] [] [] []]; try discriminate Hc; try congruence;
    try reflexivity;
    destruct rest as [| c2 r]; try reflexivity;
    destruct (Hrest2 c2 r eq_refl) as [Hx HX];
    destruct c2 as [[] [] [] [] [] [] [] []]; try congruence; reflexivity.
Qed.

(** [parseInt] inverts the decimal numeral of a natural number. *)
Lemma parseInt_pretty (x : N) : parseInt (pretty x) = Some (Z.of_N x).
Proof.
  destruct (pretty_numeral x) as [Hd Hne].
  rewrite parseInt_digits by assumption. rewrite read_digits_pretty. reflexivity.
Qed.

Lemma occurrences_digits (c : ascii) (s : string) :
  digit_value c = None -> all_digits s = true -> occurrences c s = 0.
Proof.
  intros Hc. induction s as [| d s IH]; simpl; [reflexivity |].
  intros H. apply andb_true_iff in H. destruct H as [Hd Hs].
  rewrite IH by exact Hs.
  destruct (Ascii.eqb_spec d c) as [-> | _]; [rewrite Hc in Hd; discriminate | reflexivity].
Qed.

(** Splitting at the first separator. *)
Lemma split_first (sep : ascii) (a b : string) :
  occurrences sep a = 0 ->
  split sep (a +:+ String sep b) = a :: split sep b.
Proof.
  induction a as [| c a IH]; simpl.
  - intros _. rewrite Ascii.eqb_refl. reflexivity.
  - destruct (Ascii.eqb c sep); [discriminate |]. simpl. intros H.
    rewrite IH by exact H. reflexivity.
Qed.

(** The number of parts is one more than the number of separators. *)
Lemma split_length (sep : ascii) (s : string) :
  length (split sep s) = S (occurrences sep s).
Proof.
  induction s as [| c s IH]; simpl; [reflexivity |].
  destruct (Ascii.eqb c sep); simpl; [rewrite IH; reflexivity |].
  destruct (split sep s) as [| p ps]; simpl in *; [discriminate IH | exact IH].
Qed.

(** The session id of [generateSessionId] gives back the time it was
    generated at. *)
Lemma session_start_of_generated (t0 : N) (random : string) :
  session_start_of (generateSessionId t0 random) = Some (Z.of_N t0).
Proof.
  unfold session_start_of, generateSessionId.
  destruct (pretty_numeral t0) as [Hd _].
  change ("session_" +:+ pretty t0 +:+ "_" +:+ random)
    with ("session" +:+ String "_" (pretty t0 +:+ String "_" random)).
  rewrite split_first by reflexivity.
  rewrite split_first by (apply occurrences_digits; [reflexivity | exact Hd]).
  unfold parseInt_part. simpl. apply parseInt_pretty.
Qed.

(** X6: the time a service was constructed at is read back from its
    session id, so for a service constructed at [t0] both
    [getSessionStats] and [trackSessionEnd] report the age [now - t0] in
    milliseconds; [getSessionStats] renders that millisecond count with
    [formatDuration], which takes it for seconds. *)
Theorem session_age_read_from_session_id (url : option string) (t0 : N) (random : string)
    (w : World) (user : JsValue) (now : N) :
  (t0 <= 8640000000000000)%N ->
  let w1 := snd (initialize user (constructor url t0 random w)) in
  let age := (Z.of_N now - Z.of_N t0)%Z in
  fst (getSessionStats now w1)
    = Returns (mkSessionStats (generateSessionId t0 random) (this_userId (this w1))
                              age (formatDuration age) (Z.of_N t0) (Z.of_N now)) /\
  exists event,
    posted (snd (trackSessionEnd now w1)) = posted w1 ++ [event] /\
    eventType event = JStr "session_end" /\
    get (eventData event) "sessionDuration" = JNum (float_of_Z age).
Proof.
  intros Hrange w1 age.
  pose proof (ClientFacts.initialize_binds_user user (constructor url t0 random w)) as Hthis.
  fold w1 in Hthis. simpl in Hthis.
  split.
  - unfold getSessionStats, bind, reads. rewrite Hthis. simpl.
    rewrite session_start_of_generated.
    replace (Z.abs (Z.of_N t0) <=? 8640000000000000)%Z with true
      by (symmetry; apply Z.leb_le; lia).
    reflexivity.
  - eexists. split.
    + unfold trackSessionEnd, bind at 1, reads at 1. unfold bind at 1, reads at 1.
      apply ClientFacts.trackEvent_posts_one_event. rewrite Hthis. reflexivity.
    + split; [reflexivity |]. simpl. rewrite Hthis. simpl.
      unfold elapsed. rewrite session_start_of_generated. reflexivity.
Qed.

(** A witness for X6: a page opened on 1 January 2024 and left 90
    seconds later is reported as 90000 ms old and rendered "25h 0m 0s". *)
Lemma session_age_read_from_session_id_witness :
  let w1 := snd (initialize Examples.alice
                   (constructor None 1704067200000 "k3x9q2m1z"
                      (Examples.page_of false None false Examples.online))) in
  fst (getSessionStats 1704067290000 w1)
    = Returns (mkSessionStats "session_1704067200000_k3x9q2m1z" (JStr "alice")
                              90000 "25h 0m 0s" 1704067200000 1704067290000).
Proof.
  intros w1.
  assert (Hrange : (1704067200000 <= 8640000000000000)%N) by (vm_compute; discriminate).
  destruct (session_age_read_from_session_id None 1704067200000 "k3x9q2m1z"
              (Examples.page_of false None false Examples.online) Examples.alice
              1704067290000 Hrange) as [H _].
  fold w1 in H. rewrite H. reflexivity.
Defined.

(** X7: for a non-negative whole number of seconds, the hours, minutes
    and seconds [formatDuration] prints add up to its argument, with
    minutes and seconds below 60; hours are printed from 3600 seconds on,
    minutes from 60 on, and below that the seconds alone. *)
Theorem formatDuration_decomposes (seconds : Z) :
  (0 <= seconds)%Z ->
  let h := (seconds / 3600)%Z in
  let m := (seconds mod 3600 / 60)%Z in
  let r := (seconds mod 60)%Z in
  (h * 3600 + m * 60 + r = seconds /\ 0 <= m < 60 /\ 0 <= r < 60)%Z /\
  formatDuration seconds =
    if (3600 <=? seconds)%Z then
      pretty h +:+ "h " +:+ pretty m +:+ "m " +:+ pretty r +:+ "s"
    else if (60 <=? seconds)%Z then pretty m +:+ "m " +:+ pretty r +:+ "s"
    else pretty seconds +:+ "s".
Proof.
  intros Hs h m r. split.
  - subst h m r. Z.to_euclidean_division_equations. lia.
  - unfold formatDuration. rewrite !Z.rem_mod_nonneg by lia. fold h m r.
    destruct (Z.leb_spec 3600 seconds) as [H1 | H1].
    + replace (0 <? h)%Z with true; [reflexivity |].
      symmetry. apply Z.ltb_lt. subst h. Z.to_euclidean_division_equations. lia.
    + replace (0 <? h)%Z with false
        by (symmetry; apply Z.ltb_ge; subst h; Z.to_euclidean_division_equations; lia).
      destruct (Z.leb_spec 60 seconds) as [H2 | H2].
      * replace (0 <? m)%Z with true; [reflexivity |].
        symmetry. apply Z.ltb_lt. subst m. Z.to_euclidean_division_equations. lia.
      * replace (0 <? m)%Z with false; [reflexivity |].
        symmetry. apply Z.ltb_ge. subst m. Z.to_euclidean_division_equations. lia.
Qed.

(** A witness for X7: 3725 seconds. *)
Lemma formatDuration_decomposes_witness :
  formatDuration 3725 = "1h 2m 5s".
Proof.
  assert (H : (0 <= 3725)%Z) by lia.
  rewrite (proj2 (formatDuration_decomposes 3725 H)). reflexivity.
Defined.

End ClientMoreFacts.
(* ===================================================================== *)
(** * Properties of the account and content routes *)
(* ===================================================================== *)

Module AccountsFacts.
Import JsMore Accounts.

Lemma findIndex_Some {A : Type} (pred : A -> bool) (l : list A) (i : nat) :
  findIndex pred l = Some i ->
  exists x, l !! i = Some x /\ pred x = true /\ List.find pred l = Some x /\
            forall j y, (j < i)%nat -> l !! j = Some y -> pred y = false.
Proof.
  revert i. induction l as [| a l IH]; intros i; simpl; [discriminate |].
  destruct (pred a) eqn:Ha.
  - intros [= <-]. exists a. repeat split; [exact Ha | intros j y Hj; lia].
  - destruct (findIndex pred l) as [k |] eqn:Hk; [| discriminate].
    simpl. intros [= <-]. destruct (IH k eq_refl) as (x & Hx & Hp & Hf & Hlt).
    exists x. repeat split; try assumption.
    intros [| j] y Hj Hy; simpl in Hy; [congruence | apply (Hlt j); [lia | exact Hy]].
Qed.

Lemma findIndex_None {A : Type} (pred : A -> bool) (l : list A) :
  findIndex pred l = None ->
  List.find pred l = None /\ forall x, In x l -> pred x = false.
Proof.
  induction l as [| a l IH]; simpl; [intros _; split; [reflexivity | intros x []] |].
  destruct (pred a) eqn:Ha; [discriminate |].
  destruct (findIndex pred l); [discriminate |]. intros _.
  destruct (IH eq_refl) as [Hf Hall]. split; [exact Hf |].
  intros x [<- | Hx]; [exact Ha | apply Hall, Hx].
Qed.

Lemma find_None_all {A : Type} (pred : A -> bool) (l : list A) :
  List.find pred l = None -> forall x, In x l -> pred x = false.
Proof.
  induction l as [| a l IH]; simpl; [intros _ x [] |].
  destruct (pred a) eqn:Ha; [discriminate |].
  intros H x [<- | Hx]; [exact Ha | apply IH; assumption].
Qed.

Lemma findIndex_id (users : list User) (p : nat) (u : User) :
  ids_by_position user_id users ->
  users !! p = Some u ->
  findIndex (fun v => (user_id v =? user_id u)%nat) users = Some p.
Proof.
  intros Hids Hp.
  destruct (findIndex (fun v => (user_id v =? user_id u)%nat) users) as [i |] eqn:Hi.
  - destruct (findIndex_Some _ _ _ Hi) as (x & Hx & Heq & _).
    apply Nat.eqb_eq in Heq. rewrite (Hids i x Hx), (Hids p u Hp) in Heq.
    congruence.
  - destruct (findIndex_None _ _ Hi) as [_ Hall].
    assert (Hin : In u users) by (apply list_elem_of_In, list_elem_of_lookup; eauto).
    specialize (Hall u Hin). simpl in Hall. rewrite Nat.eqb_refl in Hall. discriminate.
Qed.

Lemma ids_by_position_insert (users : list User) (p : nat) (u u' : User) :
  ids_by_position user_id users ->
  users !! p = Some u -> user_id u' = user_id u ->
  ids_by_position user_id (<[p := u']> users).
Proof.
  intros Hids Hp Hid i row Hrow.
  destruct (decide (i = p)) as [-> | Hne].
  - rewrite list_lookup_insert_eq in Hrow by (eapply lookup_lt_Some; exact Hp).
    injection Hrow as <-. rewrite Hid. apply Hids, Hp.
  - rewrite list_lookup_insert_ne in Hrow by congruence. apply Hids, Hrow.
Qed.

Lemma ids_by_position_snoc {A : Type} (id : A -> nat) (rows : list A) (row : A) :
  ids_by_position id rows -> id row = S (length rows) ->
  ids_by_position id (rows ++ [row]).
Proof.
  intros Hids Hid i r Hr.
  destruct (Nat.lt_ge_cases i (length rows)) as [L | G].
  - rewrite lookup_app_l in Hr by exact L. apply Hids, Hr.
  - rewrite lookup_app_r in Hr by exact G.
    destruct (i - length rows) as [| k] eqn:Hk; simpl in Hr; [| destruct k; discriminate Hr].
    injection Hr as <-. rewrite Hid. f_equal. lia.
Qed.

(** What [login] does on a table whose ids are positions. *)
Lemma login_run (d : Disk) (body : JsValue) (now : string) :
  ids_by_position user_id (readDB (users_json d)) ->
  let users := readDB (users_json d) in
  let mail := get body "email" in
  let pass := get body "password" in
  let matches u := strict_eq (email u) mail && strict_eq (password u) pass in
  login d body now =
    if negb (truthy mail) || negb (truthy pass) then
      (mkAnswer 400 (Rejected false "Email and password are required"), d)
    else
      match findIndex matches users with
      | Some i =>
          match users !! i with
          | Some u =>
              (mkAnswer 200 (Authenticated true "Login successful"
                               (without_password (logged_in u now)) (mock_token (user_id u))),
               with_users d (snd (writeDB (users_write_fault d)
                                          (<[i := logged_in u now]> users))))
          | None => (mkAnswer 401 (Rejected false "Invalid email or password"), d)
          end
      | None => (mkAnswer 401 (Rejected false "Invalid email or password"), d)
      end.
Proof.
  intros Hids users mail pass matches. unfold login. fold users mail pass.
  destruct (negb (truthy mail) || negb (truthy pass)); [reflexivity |].
  change (fun u => strict_eq (email u) mail && strict_eq (password u) pass) with matches.
  destruct (findIndex matches users) as [i |] eqn:Hi.
  - destruct (findIndex_Some _ _ _ Hi) as (u & Hu & _ & Hf & _).
    rewrite Hf, Hu.
    assert (Hu' : (<[i := logged_in u now]> users) !! i = Some (logged_in u now))
      by (apply list_lookup_insert_eq; eapply lookup_lt_Some; exact Hu).
    rewrite (findIndex_id _ i (logged_in u now));
      [| eapply ids_by_position_insert; eauto | exact Hu'].
    rewrite list_insert_insert_eq.
    destruct (writeDB (users_write_fault d) (<[i:=logged_in u now]> users)); reflexivity.
  - reflexivity.
Qed.

Lemma accounts_after_login (users : list User) (i : nat) (u : User) (now : string) :
  users !! i = Some u ->
  account <$> <[i := logged_in u now]> users = account <$> users.
Proof.
  intros Hu. rewrite list_fmap_insert. apply list_insert_id.
  rewrite list_lookup_fmap, Hu. reflexivity.
Qed.

Lemma accounts_distinct_same_accounts (users users' : list User) :
  account <$> users' = account <$> users ->
  accounts_distinct users -> accounts_distinct users'.
Proof.
  intros Heq Hd i j u v Hu Hv Hij.
  assert (Hl : forall k x, users' !! k = Some x ->
            exists y, users !! k = Some y /\ account y = account x).
  { intros k x Hx.
    assert (H : (account <$> users) !! k = Some (account x))
      by (rewrite <- Heq, list_lookup_fmap, Hx; reflexivity).
    rewrite list_lookup_fmap in H. destruct (users !! k) as [y |]; [| discriminate H].
    exists y. split; [reflexivity | simpl in H; congruence]. }
  destruct (Hl i u Hu) as (u0 & Hu0 & Eu). destruct (Hl j v Hv) as (v0 & Hv0 & Ev).
  destruct (Hd i j u0 v0 Hu0 Hv0 Hij) as [He Hn].
  unfold account in Eu, Ev. injection Eu as _ Eun Eue _ _. injection Ev as _ Evn Eve _ _.
  rewrite <- Eue, <- Eve, <- Eun, <- Evn. split; assumption.
Qed.

Local Ltac untouched Hwu Hwc Hids Hdist Hcont :=
  simpl; split; [split; assumption |];
  split; [exact (conj Hids (conj Hdist Hcont)) | reflexivity].

Lemma register_preserves (d : Disk) (body : JsValue) (now : string) :
  writable d -> consistent d ->
  let d' := snd (register d body now) in
  writable d' /\ consistent d' /\
  (account <$> readDB (users_json d)) `prefix_of` (account <$> readDB (users_json d')).
Proof.
  intros [Hwu Hwc] (Hids & Hdist & Hcont). unfold register.
  destruct (negb (truthy (get body "username")) || negb (truthy (get body "email"))
            || negb (truthy (get body "password")));
    [untouched Hwu Hwc Hids Hdist Hcont |].
  destruct (List.find _ (readDB (users_json d))) as [existing |] eqn:Hfind;
    [untouched Hwu Hwc Hids Hdist Hcont |].
  rewrite Hwu. simpl. split; [split; assumption |].
  split; [split; [| split; [| exact Hcont]] |].
  - apply ids_by_position_snoc; [exact Hids | simpl; lia].
  - intros i j u v Hu Hv Hij. simpl in Hu, Hv.
    destruct (Nat.lt_ge_cases j (length (readDB (users_json d)))) as [L | G].
    + rewrite lookup_app_l in Hu by lia. rewrite lookup_app_l in Hv by exact L.
      exact (Hdist i j u v Hu Hv Hij).
    + rewrite lookup_app_r in Hv by exact G.
      destruct (j - length (readDB (users_json d))) as [| k] eqn:Hk; simpl in Hv;
        [| destruct k; discriminate Hv].
      injection Hv as <-. simpl.
      assert (Hi : (i < length (readDB (users_json d)))%nat) by lia.
      rewrite lookup_app_l in Hu by exact Hi.
      assert (Hin : In u (readDB (users_json d)))
        by (apply list_elem_of_In, list_elem_of_lookup; eauto).
      pose proof (find_None_all _ _ Hfind u Hin) as H. simpl in H.
      apply orb_false_iff in H. exact H.
  - rewrite fmap_app. apply prefix_app_r. reflexivity.
Qed.

Lemma login_preserves (d : Disk) (body : JsValue) (now : string) :
  writable d -> consistent d ->
  let d' := snd (login d body now) in
  writable d' /\ consistent d' /\
  account <$> readDB (users_json d') = account <$> readDB (users_json d).
Proof.
  intros [Hwu Hwc] (Hids & Hdist & Hcont). simpl.
  rewrite (login_run d body now Hids).
  destruct (negb (truthy (get body "email")) || negb (truthy (get body "password")));
    [untouched Hwu Hwc Hids Hdist Hcont |].
  destruct (findIndex _ (readDB (users_json d))) as [i |] eqn:Hi;
    [| untouched Hwu Hwc Hids Hdist Hcont].
  destruct (readDB (users_json d) !! i) as [u |] eqn:Hu; [| untouched Hwu Hwc Hids Hdist Hcont].
  rewrite Hwu. simpl.
  pose proof (accounts_after_login _ i u now Hu) as Hacc.
  split; [split; assumption |].
  split; [split; [| split; [| exact Hcont]] | exact Hacc].
  - eapply ids_by_position_insert; eauto.
  - eapply accounts_distinct_same_accounts; eauto.
Qed.

Lemma serve_preserves (d : Disk) (r : Request) :
  writable d -> consistent d ->
  let d' := snd (serve d r) in
  writable d' /\ consistent d' /\
  (account <$> readDB (users_json d)) `prefix_of` (account <$> readDB (users_json d')).
Proof.
  intros Hw Hc. destruct r as [body now | body now | body now | now]; simpl.
  - apply register_preserves; assumption.
  - destruct (login_preserves d body now Hw Hc) as (H1 & H2 & H3).
    split; [exact H1 |]. split; [exact H2 |]. rewrite H3. reflexivity.
  - destruct Hw as [Hwu Hwc]. destruct Hc as (Hids & Hdist & Hcont).
    unfold post_content. rewrite Hwc. simpl. split; [split; assumption |].
    split; [split; [exact Hids | split; [exact Hdist |]] | reflexivity].
    apply ids_by_position_snoc; [exact Hcont | simpl; lia].
  - destruct Hw as [Hwu Hwc]. destruct Hc as (Hids & Hdist & Hcont).
    unfold seed. rewrite Hwc. simpl. split; [split; assumption |].
    split; [split; [exact Hids | split; [exact Hdist |]] | reflexivity].
    intros [| [| [| i]]] row Hrow; simpl in Hrow; try discriminate Hrow;
      injection Hrow as <-; reflexivity.
Qed.

(** Accounts that [===] tells apart share no string. *)
Lemma accounts_distinct_strings (users : list User) :
  accounts_distinct users -> strings_unshared users.
Proof.
  intros Hd i j u v s Hu Hv Hij.
  assert (Hs : strict_eq (JStr s) (JStr s) = true) by apply String.eqb_refl.
  destruct (Nat.lt_total i j) as [Hlt | [Heq | Hlt]]; [| contradiction |].
  - destruct (Hd i j u v Hu Hv Hlt) as [He Hn].
    split; intros E1 E2; rewrite E1, E2 in *; congruence.
  - destruct (Hd j i v u Hv Hu Hlt) as [He Hn].
    split; intros E1 E2; rewrite E1, E2 in *; congruence.
Qed.

(** An object is a truthy email and user name, and [===] equates it with
    no stored one: the same registration is accepted twice, and the table
    then holds two accounts with the same email and the same user name. *)
Lemma register_accepts_repeated_objects :
  let body := credentials (JObj ∅) (JObj ∅) (JStr "secret") in
  let requests := [Register body "2024-01-01T09:00:00.000Z";
                   Register body "2024-01-01T09:10:00.000Z"] in
  status (fst (register fresh body "2024-01-01T09:00:00.000Z")) = 201 /\
  status (fst (register (snd (register fresh body "2024-01-01T09:00:00.000Z")) body
                        "2024-01-01T09:10:00.000Z")) = 201 /\
  map (fun u => (email u, username u)) (readDB (users_json (serve_all fresh requests)))
    = [(JObj ∅, JObj ∅); (JObj ∅, JObj ∅)].
Proof. repeat split; reflexivity. Qed.

(** X8: as long as the writes go through, no sequence of register,
    login, content and seed requests breaks the tables: user and content
    ids stay equal to the position plus one (so they are unique), no
    account has an email or a user name that [===] equates with that of
    another, so that no two accounts share a string as email or as user
    name (object-valued ones, which [===] never equates, can repeat), and
    the accounts only grow at the end: none is removed, reordered or
    changed, apart from its last login. *)
Theorem tables_stay_consistent (d : Disk) (requests : list Request) :
  writable d -> consistent d ->
  consistent (serve_all d requests) /\
  strings_unshared (readDB (users_json (serve_all d requests))) /\
  (account <$> readDB (users_json d))
    `prefix_of` (account <$> readDB (users_json (serve_all d requests))).
Proof.
  intros Hw Hc.
  assert (H : consistent (serve_all d requests) /\
              (account <$> readDB (users_json d))
                `prefix_of` (account <$> readDB (users_json (serve_all d requests)))).
  { revert d Hw Hc. induction requests as [| r rs IH]; intros d Hw Hc; simpl.
    - split; [exact Hc | reflexivity].
    - destruct (serve_preserves d r Hw Hc) as (Hw' & Hc' & Hp).
      destruct (IH _ Hw' Hc') as [Hc'' Hp'].
      split; [exact Hc'' |]. etransitivity; eassumption. }
  destruct H as [Hc' Hp]. split; [exact Hc' |]. split; [| exact Hp].
  apply accounts_distinct_strings. exact (proj1 (proj2 Hc')).
Qed.

(** A witness for X8: on a fresh data directory alice registers, logs
    in, a second registration under her email and a third under her user
    name are rejected, bob registers, and the seeded content gets one
    more record. *)
Lemma tables_stay_consistent_witness :
  let requests :=
    [ Register (credentials (JStr "alice") (JStr "a@example.com") (JStr "secret"))
               "2024-01-01T09:00:00.000Z";
      Login (credentials JUndefined (JStr "a@example.com") (JStr "secret"))
            "2024-01-01T09:05:00.000Z";
      Register (credentials (JStr "bob") (JStr "a@example.com") (JStr "hunter2"))
               "2024-01-01T09:10:00.000Z";
      Register (credentials (JStr "alice") (JStr "b@example.com") (JStr "hunter2"))
               "2024-01-01T09:11:00.000Z";
      Register (credentials (JStr "bob") (JStr "b@example.com") (JStr "hunter2"))
               "2024-01-01T09:12:00.000Z";
      Seed "2024-01-01T09:15:00.000Z";
      PostContent (mkContentBody (JStr "CSS") (JStr "text") (JStr "Styling") JUndefined None)
                  "2024-01-01T09:20:00.000Z" ] in
  consistent (serve_all fresh requests) /\
  strings_unshared (readDB (users_json (serve_all fresh requests))) /\
  map (fun u => (email u, username u)) (readDB (users_json (serve_all fresh requests)))
    = [(JStr "a@example.com", JStr "alice"); (JStr "b@example.com", JStr "bob")] /\
  length (readDB (content_json (serve_all fresh requests))) = 4.
Proof.
  intros requests.
  assert (Hw : writable fresh) by (split; reflexivity).
  assert (Hc : consistent fresh).
  { split; [| split]; try (intros i row H; destruct i; discriminate H).
    intros i j u v H. destruct i; discriminate H. }
  destruct (tables_stay_consistent fresh requests Hw Hc) as (H1 & H2 & _).
  split; [exact H1 |]. split; [exact H2 |].
  split; reflexivity.
Defined.

(** X9: on a table whose ids are positions, a login is answered 200
    exactly when email and password are truthy and some account has
    strictly equal email and password (which are stored and compared as
    they came); then the first such account is the one returned and the
    only change to the table is its [lastLogin].  Any other login (400,
    401) leaves the data directory untouched. *)
Theorem login_changes_only_last_login (d : Disk) (body : JsValue) (now : string) :
  ids_by_position user_id (readDB (users_json d)) ->
  users_write_fault d = None ->
  let users := readDB (users_json d) in
  let mail := get body "email" in
  let pass := get body "password" in
  let answer := fst (login d body now) in
  let d' := snd (login d body now) in
  (status answer = 200 <->
   truthy mail = true /\ truthy pass = true /\
   exists u, In u users /\ strict_eq (email u) mail = true
             /\ strict_eq (password u) pass = true) /\
  (status answer <> 200 -> d' = d) /\
  (status answer = 200 ->
   exists i u,
     users !! i = Some u /\
     strict_eq (email u) mail = true /\ strict_eq (password u) pass = true /\
     (forall j v, (j < i)%nat -> users !! j = Some v ->
                  strict_eq (email v) mail && strict_eq (password v) pass = false) /\
     reply answer = Authenticated true "Login successful"
                      (without_password (logged_in u now)) (mock_token (user_id u)) /\
     readDB (users_json d') = <[i := logged_in u now]> users /\
     content_json d' = content_json d).
Proof.
  intros Hids Hwu users mail pass answer d'. subst answer d'.
  rewrite (login_run d body now Hids). fold users mail pass.
  destruct (truthy mail) eqn:Hm; simpl;
    [| split; [split; [discriminate | intros (H & _); discriminate H]
              | split; [reflexivity | discriminate]]].
  destruct (truthy pass) eqn:Hp; simpl;
    [| split; [split; [discriminate | intros (_ & H & _); discriminate H]
              | split; [reflexivity | discriminate]]].
  destruct (findIndex (fun u => strict_eq (email u) mail && strict_eq (password u) pass) users)
    as [i |] eqn:Hi.
  - destruct (findIndex_Some _ _ _ Hi) as (u & Hu & Hmatch & _ & Hfirst).
    rewrite Hu, Hwu. simpl. apply andb_true_iff in Hmatch. destruct Hmatch as [He Hpw].
    split; [split; [intros _ | reflexivity] | split; [congruence | intros _]].
    + split; [reflexivity |]. split; [reflexivity |]. exists u.
      split; [apply list_elem_of_In, list_elem_of_lookup; eauto | split; assumption].
    + exists i, u. repeat split; assumption.
  - destruct (findIndex_None _ _ Hi) as [_ Hall]. simpl.
    split; [split; [discriminate |] | split; [reflexivity | discriminate]].
    intros (_ & _ & u & Hin & He & Hpw). specialize (Hall u Hin). simpl in Hall.
    rewrite He, Hpw in Hall. discriminate Hall.
Qed.

(** A witness for X9: a wrong password on a table that holds alice. *)
Lemma login_changes_only_last_login_witness :
  let alice := mkUser 1 (JStr "alice") (JStr "a@example.com") (JStr "secret")
                      "2024-01-01T09:00:00.000Z" None in
  let d := with_users fresh (Rows [alice]) in
  let body := credentials JUndefined (JStr "a@example.com") (JStr "Secret") in
  status (fst (login d body "2024-01-02T09:00:00.000Z")) = 401 /\
  snd (login d body "2024-01-02T09:00:00.000Z") = d.
Proof.
  intros alice d body.
  assert (Hids : ids_by_position user_id (readDB (users_json d))).
  { intros [| i] row H; simpl in H; [injection H as <-; reflexivity | discriminate H]. }
  assert (Hwu : users_write_fault d = None) by reflexivity.
  destruct (login_changes_only_last_login d body "2024-01-02T09:00:00.000Z" Hids Hwu)
    as (_ & Hno & _).
  split; [reflexivity |]. apply Hno. discriminate.
Defined.

Lemma get_credentials (name mail pass : JsValue) :
  get (credentials name mail pass) "username" = name /\
  get (credentials name mail pass) "email" = mail /\
  get (credentials name mail pass) "password" = pass.
Proof. repeat split; reflexivity. Qed.

Lemma truthy_nonempty (s : string) : s <> EmptyString -> truthy (JStr s) = true.
Proof. intros H. simpl. apply String.eqb_neq in H. rewrite H. reflexivity. Qed.

Lemma find_snoc {A : Type} (pred : A -> bool) (l : list A) (x : A) :
  (forall y, In y l -> pred y = false) -> pred x = true ->
  List.find pred (l ++ [x]) = Some x /\ findIndex pred (l ++ [x]) = Some (length l).
Proof.
  intros Hall Hx. induction l as [| a l IH]; simpl.
  - rewrite Hx. split; reflexivity.
  - rewrite (Hall a (or_introl eq_refl)).
    destruct IH as [-> ->]; [intros y Hy; apply Hall; right; exact Hy |].
    split; reflexivity.
Qed.

Lemma register_accepts (d : Disk) (name mail pass now : string) :
  name <> EmptyString -> mail <> EmptyString -> pass <> EmptyString ->
  free (readDB (users_json d)) name mail ->
  let users := readDB (users_json d) in
  let newUser := mkUser (S (length users)) (JStr name) (JStr mail) (JStr pass) now None in
  register d (credentials (JStr name) (JStr mail) (JStr pass)) now =
    (mkAnswer 201 (Authenticated true "User registered successfully"
                     (without_password newUser) (mock_token (S (length users)))),
     with_users d (snd (writeDB (users_write_fault d) (users ++ [newUser])))).
Proof.
  intros Hn Hm Hp Hfree users newUser. unfold register.
  destruct (get_credentials (JStr name) (JStr mail) (JStr pass)) as (-> & -> & ->).
  rewrite !truthy_nonempty by assumption. simpl negb. simpl orb. cbv iota.
  fold users.
  replace (List.find _ users) with (@None User).
  - replace (length users + 1) with (S (length users)) by lia. fold newUser.
    destruct (writeDB (users_write_fault d) (users ++ [newUser])). reflexivity.
  - symmetry. destruct (List.find _ users) as [u |] eqn:Hf; [| reflexivity].
    destruct (find_some _ _ Hf) as [Hu Hmatch].
    destruct (Hfree u Hu) as [He Hname]. rewrite He, Hname in Hmatch.
    discriminate Hmatch.
Qed.

(** X10: when the write goes through, registering string credentials
    whose email and user name are free is answered 201 with the new
    account (without its password) and its token, and a login with the
    same email and password is then answered 200 with the same account
    and the same token. *)
Theorem register_then_login (d : Disk) (name mail pass now1 now2 : string) :
  users_write_fault d = None ->
  name <> EmptyString -> mail <> EmptyString -> pass <> EmptyString ->
  free (readDB (users_json d)) name mail ->
  let id := S (length (readDB (users_json d))) in
  let d1 := snd (register d (credentials (JStr name) (JStr mail) (JStr pass)) now1) in
  fst (register d (credentials (JStr name) (JStr mail) (JStr pass)) now1)
    = mkAnswer 201 (Authenticated true "User registered successfully"
                      (mkPublicUser id (JStr name) (JStr mail) now1 None) (mock_token id)) /\
  fst (login d1 (credentials JUndefined (JStr mail) (JStr pass)) now2)
    = mkAnswer 200 (Authenticated true "Login successful"
                      (mkPublicUser id (JStr name) (JStr mail) now1 (Some now2))
                      (mock_token id)).
Proof.
  intros Hwu Hn Hm Hp Hfree id d1. subst d1.
  rewrite (register_accepts d name mail pass now1 Hn Hm Hp Hfree), Hwu. simpl.
  split; [reflexivity |].
  unfold login.
  destruct (get_credentials JUndefined (JStr mail) (JStr pass)) as (_ & -> & ->).
  rewrite !truthy_nonempty by assumption. simpl negb. simpl orb. cbv iota.
  simpl readDB.
  set (users := readDB (users_json d)).
  set (newUser := mkUser (S (length users)) (JStr name) (JStr mail) (JStr pass) now1 None).
  destruct (find_snoc (fun u => strict_eq (email u) (JStr mail)
                                && strict_eq (password u) (JStr pass)) users newUser)
    as [Hf Hi].
  { intros u Hu. destruct (Hfree u Hu) as [-> _]. reflexivity. }
  { simpl. rewrite !String.eqb_refl. reflexivity. }
  rewrite Hf, Hi. simpl.
  destruct (writeDB _ _). reflexivity.
Qed.

(** A witness for X10: alice on a fresh data directory. *)
Lemma register_then_login_witness :
  fst (login (snd (register fresh (credentials (JStr "alice") (JStr "a@example.com")
                                               (JStr "secret"))
                            "2024-01-01T09:00:00.000Z"))
             (credentials JUndefined (JStr "a@example.com") (JStr "secret"))
             "2024-01-01T09:05:00.000Z")
    = mkAnswer 200 (Authenticated true "Login successful"
                      (mkPublicUser 1 (JStr "alice") (JStr "a@example.com")
                                    "2024-01-01T09:00:00.000Z"
                                    (Some "2024-01-01T09:05:00.000Z"))
                      "mock-jwt-token-1").
Proof.
  assert (Hfree : free (readDB (users_json fresh)) "alice" "a@example.com")
    by (intros u []).
  refine (proj2 (register_then_login fresh "alice" "a@example.com" "secret"
                   "2024-01-01T09:00:00.000Z" "2024-01-01T09:05:00.000Z"
                   eq_refl _ _ _ Hfree)); discriminate.
Defined.

(** X11: when the users file cannot be written, a registration is still
    answered 201 with an account and a token, but the account is not
    stored: the file is as before and a login with the same credentials
    is answered 401. *)
Theorem register_acknowledged_without_account (d : Disk) (name mail pass now1 now2 : string) :
  users_write_fault d = Some (users_json d) ->
  name <> EmptyString -> mail <> EmptyString -> pass <> EmptyString ->
  free (readDB (users_json d)) name mail ->
  let d1 := snd (register d (credentials (JStr name) (JStr mail) (JStr pass)) now1) in
  status (fst (register d (credentials (JStr name) (JStr mail) (JStr pass)) now1)) = 201 /\
  d1 = d /\
  fst (login d1 (credentials JUndefined (JStr mail) (JStr pass)) now2)
    = mkAnswer 401 (Rejected false "Invalid email or password").
Proof.
  intros Hwu Hn Hm Hp Hfree d1. subst d1.
  rewrite (register_accepts d name mail pass now1 Hn Hm Hp Hfree), Hwu. simpl.
  assert (Hd : with_users d (users_json d) = d) by (destruct d; reflexivity).
  rewrite Hd. split; [reflexivity |]. split; [reflexivity |].
  unfold login.
  destruct (get_credentials JUndefined (JStr mail) (JStr pass)) as (_ & -> & ->).
  rewrite !truthy_nonempty by assumption. simpl negb. simpl orb. cbv iota.
  replace (findIndex _ (readDB (users_json d))) with (@None nat); [reflexivity |].
  symmetry.
  destruct (findIndex _ (readDB (users_json d))) as [i |] eqn:Hi; [| reflexivity].
  destruct (findIndex_Some _ _ _ Hi) as (u & Hu & Hmatch & _).
  assert (Hin : In u (readDB (users_json d)))
    by (apply list_elem_of_In, list_elem_of_lookup; eauto).
  destruct (Hfree u Hin) as [He _]. rewrite He in Hmatch. discriminate Hmatch.
Qed.

(** A witness for X11: a read-only users file. *)
Lemma register_acknowledged_without_account_witness :
  let d := mkDisk (Rows []) (Some (Rows [])) (Rows []) None
                  (Server.mkFS (Server.Document []) None) in
  status (fst (register d (credentials (JStr "alice") (JStr "a@example.com") (JStr "secret"))
                        "2024-01-01T09:00:00.000Z")) = 201 /\
  status (fst (login d (credentials JUndefined (JStr "a@example.com") (JStr "secret"))
                     "2024-01-01T09:05:00.000Z")) = 401.
Proof.
  intros d.
  assert (Hfree : free (readDB (users_json d)) "alice" "a@example.com") by (intros u []).
  assert (Hn : "alice" <> EmptyString) by discriminate.
  assert (Hm : "a@example.com" <> EmptyString) by discriminate.
  assert (Hp : "secret" <> EmptyString) by discriminate.
  destruct (register_acknowledged_without_account d "alice" "a@example.com" "secret"
              "2024-01-01T09:00:00.000Z" "2024-01-01T09:05:00.000Z"
              eq_refl Hn Hm Hp Hfree) as (H1 & H2 & H3).
  split; [exact H1 |]. rewrite H2 in H3. rewrite H3. reflexivity.
Defined.

End AccountsFacts.
(* ===================================================================== *)
(** * Properties of the dashboards, continued *)
(* ===================================================================== *)

Module DashboardMoreFacts.
Import Dashboard DashboardMore.

(** *** Sizes of insertion-ordered sets *)




Lemma filter_nonempty {A : Type} (f : A -> bool) (l : list A) :
  List.filter f l <> [] <-> exists x, In x l /\ f x = true.
Proof.
  split.
  - destruct (List.filter f l) as [| x l'] eqn:E; [congruence |]. intros _.
    exists x. apply filter_In. rewrite E. left. reflexivity.
  - intros (x & Hx) E. apply filter_In in Hx. rewrite E in Hx. exact Hx.
Qed.

Lemma length_positive {A : Type} (l : list A) : (1 <= length l)%nat <-> l <> [].
Proof. destruct l; simpl; split; intros; try congruence; lia. Qed.

(** *** The badges pushed by [processProgressData] *)


(** *** Tables of counters *)




Section WithRuntime.
Context {rt : Runtime}.









(** *** loadLearningAnalytics *)

(** X15: [loadLearningAnalytics] awards at most five badges, so the
    proficiency level is never 'Expert' (which asks for seven); it is
    'Skilled' exactly when all five milestones are met (five distinct
    modules viewed, and a quiz started, a video played and a quiz
    completed) and 'Novice' exactly with fewer than three badges. *)
Theorem proficiency_never_Expert (userInteractions : list Event) :
  let badges := loadLearningAnalytics_earnedBadges userInteractions in
  let level := loadLearningAnalytics_proficiencyLevel userInteractions in
  (badges <= 5)%nat /\
  level <> "Expert" /\
  (level = "Skilled" <->
   (5 <= length (uniqueModules userInteractions))%nat /\
   (exists e, In e userInteractions /\ action_is "quiz_start" e = true) /\
   (exists e, In e userInteractions /\ action_is "video_play" e = true) /\
   (exists e, In e userInteractions /\ action_is "quiz_complete" e = true)) /\
  (level = "Novice" <-> (badges < 3)%nat).
Proof.
  intros badges level. subst badges level.
  unfold loadLearningAnalytics_proficiencyLevel, loadLearningAnalytics_earnedBadges.
  unfold assessmentStarts, mediaPlays, assessmentCompletes.
  rewrite <- !filter_nonempty, <- !length_positive, <- !Nat.leb_le.
  set (modules := length (uniqueModules userInteractions)).
  assert (Hm : (5 <=? modules)%nat = true -> (1 <=? modules)%nat = true)
    by (rewrite !Nat.leb_le; lia).
  destruct (1 <=? modules)%nat, (5 <=? modules)%nat;
    try (specialize (Hm eq_refl); discriminate Hm); clear Hm;
    destruct (1 <=? length (List.filter (action_is "quiz_start") userInteractions))%nat,
             (1 <=? length (List.filter (action_is "video_play") userInteractions))%nat,
             (1 <=? length (List.filter (action_is "quiz_complete") userInteractions))%nat;
    simpl; rewrite ?Nat.leb_le, ?Nat.ltb_lt;
    (split; [lia |]); (split; [discriminate |]);
    (split; split; try discriminate; try lia; try tauto; try reflexivity;
     try (intros (H1 & H2 & H3 & H4); discriminate)).
Qed.



(** *** What the home page lists as recent *)




End WithRuntime.



End DashboardMoreFacts.
(* ===================================================================== *)
(** * Properties of the authentication context *)
(* ===================================================================== *)

Module AuthFacts.
Import JsMore Auth.

Section WithRuntime.
Context {rt : Runtime}.

(** *** The steps of the provider *)

(** [apiRequest] sends one request and touches nothing else; it returns
    the parsed body of a 2xx response and throws otherwise. *)
Lemma apiRequest_run (endpoint method : string) (body : JsValue) (p : Page) :
  let request :=
    mkRequest endpoint method body
              (if truthy (token (state p))
               then Some ("Bearer " +:+ ToString (token (state p))) else None) in
  snd (apiRequest endpoint method body p) =
    mkPage (state p) (auth_token p) (auth_user p) (setItem_fails p) (setItem_calls p)
           (network p) (requests p ++ [request]) /\
  (forall response, fst (apiRequest endpoint method body p) = Returns response ->
     exists st, network p (length (requests p)) request
                  = Client.HttpResponse st (Some response) /\
                Client.ok st = true) /\
  (forall st data, network p (length (requests p)) request
                     = Client.HttpResponse st (Some (JObj data)) ->
     fst (apiRequest endpoint method body p) =
       if Client.ok st then Returns (JObj data)
       else Throws (ToString (or_else (get (JObj data) "message")
                                      (JStr ("HTTP error! status: " +:+ pretty st))))).
Proof.
  intros request. unfold apiRequest, bind, reads, try_catch, fetch. simpl. fold request.
  destruct (network p (length (requests p)) request) as [| st [data |]] eqn:Hnet; simpl.
  - split; [reflexivity |]. split; [intros r H; discriminate H | intros st d H; discriminate H].
  - unfold bind, response_json, property, ret, throw.
    destruct data; destruct (Client.ok st) eqn:Hok; simpl.
    all: split; [reflexivity |]; split.
    all: try (intros r H; discriminate H).
    all: try (intros r H; inversion H; subst; exists st; split; [reflexivity | exact Hok]).
    all: try (intros st' d H; discriminate H).
    all: intros st' d H; inversion H; subst; rewrite Hok; reflexivity.
  - split; [reflexivity |]. split; [intros r H; discriminate H | intros st' d H; discriminate H].
Qed.

(** [storeAuthData] writes the token, then the user. *)
Lemma storeAuthData_run (u t : JsValue) (p : Page) :
  storeAuthData u t p =
    if setItem_fails p (setItem_calls p) then
      (Throws "QuotaExceededError",
       mkPage (state p) (auth_token p) (auth_user p) (setItem_fails p)
              (S (setItem_calls p)) (network p) (requests p))
    else if setItem_fails p (S (setItem_calls p)) then
      (Throws "QuotaExceededError",
       mkPage (state p) (Some (ToString t)) (auth_user p) (setItem_fails p)
              (S (S (setItem_calls p))) (network p) (requests p))
    else
      (Returns tt,
       mkPage (state p) (Some (ToString t)) (Some (JSON_stringify u)) (setItem_fails p)
              (S (S (setItem_calls p))) (network p) (requests p)).
Proof.
  unfold storeAuthData, bind, setItem_auth_token, setItem_auth_user.
  destruct (setItem_fails p (setItem_calls p)); [reflexivity |]. simpl.
  destruct (setItem_fails p (S (setItem_calls p))); reflexivity.
Qed.

(** [login] resolves in one of two ways. *)
Lemma login_cases (email password : JsValue) (p : Page) :
  let r := login email password p in
  let request := login_request p email password in
  (setItem_fails (snd r) = setItem_fails p /\ network (snd r) = network p /\
   requests (snd r) = requests p ++ [request]) /\
  ((exists response st,
      network p (length (requests p)) request = Client.HttpResponse st (Some response) /\
      Client.ok st = true /\
      truthy (get response "token") = true /\
      fst r = Returns (Succeeded (JObj (delete "token" (spread response)))) /\
      state (snd r) = mkAuthState (JObj (delete "token" (spread response)))
                                  (get response "token") true false JNull /\
      auth_token (snd r) = Some (ToString (get response "token")) /\
      auth_user (snd r) = Some (JSON_stringify (JObj (delete "token" (spread response))))) \/
   (exists e,
      fst r = Returns (Failed e) /\
      state (snd r) = mkAuthState (user (state p)) (token (state p))
                                  (isAuthenticated (state p)) false (JStr e) /\
      (storage_holds p ->
       auth_token (snd r) = auth_token p /\ auth_user (snd r) = auth_user p))).
Proof.
  intros r request.
  assert (Hr : r = login email password p) by reflexivity. clearbody r.
  unfold login, bind, try_catch, dispatch, ret, throw in Hr. cbv beta in Hr.
  match type of Hr with context [apiRequest _ _ _ ?x] => set (p1 := x) in * end.
  destruct (apiRequest_run "/auth/login" "POST" (login_body email password) p1)
    as (Hsnd & Hret & _).
  change (mkRequest "/auth/login" "POST" (login_body email password) _)
    with request in Hsnd, Hret.
  destruct (apiRequest "/auth/login" "POST" (login_body email password) p1)
    as [[response | e] p2] eqn:Hapi; simpl in Hsnd, Hret; subst p2.
  - destruct (Hret response eq_refl) as (st & Hnet & Hok). clear Hret.
    destruct (truthy (get response "token")) eqn:Ht.
    + rewrite storeAuthData_run in Hr. simpl in Hr.
      destruct (setItem_fails p (setItem_calls p)) eqn:F1;
        [| destruct (setItem_fails p (S (setItem_calls p))) eqn:F2]; subst r; simpl.
      * split; [repeat split |]. right. eexists. split; [reflexivity |].
        split; [reflexivity |]. intros Hs. rewrite Hs in F1. discriminate F1.
      * split; [repeat split |]. right. eexists. split; [reflexivity |].
        split; [reflexivity |]. intros Hs. rewrite Hs in F2. discriminate F2.
      * split; [repeat split |]. left. exists response, st.
        repeat split; assumption.
    + subst r. simpl. split; [repeat split |]. right. eexists. split; [reflexivity |].
      split; [reflexivity |]. intros _. split; reflexivity.
  - subst r. simpl. split; [repeat split |]. right. eexists. split; [reflexivity |].
    split; [reflexivity |]. intros _. split; reflexivity.
Qed.

(** [register] throws on a nullish argument and otherwise resolves in one
    of two ways. *)
Lemma register_cases (userData : JsValue) (p : Page) :
  let r := register userData p in
  let request := register_request p userData in
  (setItem_fails (snd r) = setItem_fails p /\ network (snd r) = network p) /\
  ((property userData "username" p = (Throws "TypeError: Cannot read properties", p) /\
    r = (Throws "TypeError: Cannot read properties", p)) \/
   (exists response st,
      network p (length (requests p)) request = Client.HttpResponse st (Some response) /\
      Client.ok st = true /\
      truthy (get response "success") = true /\
      truthy (get response "token") = true /\
      fst r = Returns (Succeeded (get response "user")) /\
      state (snd r) = mkAuthState (get response "user") (get response "token")
                                  true false JNull /\
      auth_token (snd r) = Some (ToString (get response "token")) /\
      auth_user (snd r) = Some (JSON_stringify (get response "user"))) \/
   (exists e,
      fst r = Returns (Failed e) /\
      state (snd r) = mkAuthState (user (state p)) (token (state p))
                                  (isAuthenticated (state p)) false (JStr e) /\
      (storage_holds p ->
       auth_token (snd r) = auth_token p /\ auth_user (snd r) = auth_user p))).
Proof.
  intros r request.
  assert (Hr : r = register userData p) by reflexivity. clearbody r.
  unfold register, bind at 1 in Hr.
  destruct (property userData "username" p) as [[v | e] p0] eqn:Hprop.
  2: { unfold property, throw, ret in Hprop.
       destruct userData; inversion Hprop; subst.
       all: split; [split; reflexivity | left; split; reflexivity]. }
  assert (p0 = p) by (unfold property, throw, ret in Hprop;
                      destruct userData; inversion Hprop; reflexivity).
  subst p0. clear Hprop.
  unfold bind, try_catch, dispatch, ret, throw in Hr. cbv beta in Hr.
  match type of Hr with context [apiRequest _ _ _ ?x] => set (p1 := x) in * end.
  destruct (apiRequest_run "/auth/register" "POST" userData p1) as (Hsnd & Hret & _).
  change (mkRequest "/auth/register" "POST" userData _) with request in Hsnd, Hret.
  destruct (apiRequest "/auth/register" "POST" userData p1)
    as [[response | e] p2] eqn:Hapi; simpl in Hsnd, Hret; subst p2.
  - destruct (Hret response eq_refl) as (st & Hnet & Hok). clear Hret.
    destruct (truthy (get response "success")) eqn:Hs;
      [destruct (truthy (get response "token")) eqn:Ht |]; cbv beta iota delta [andb] in Hr.
    + rewrite storeAuthData_run in Hr. simpl in Hr.
      destruct (setItem_fails p (setItem_calls p)) eqn:F1;
        [| destruct (setItem_fails p (S (setItem_calls p))) eqn:F2]; subst r; simpl.
      * split; [repeat split |]. right. right. eexists. split; [reflexivity |].
        split; [reflexivity |]. intros H. rewrite H in F1. discriminate F1.
      * split; [repeat split |]. right. right. eexists. split; [reflexivity |].
        split; [reflexivity |]. intros H. rewrite H in F2. discriminate F2.
      * split; [repeat split |]. right. left. exists response, st.
        repeat split; assumption.
    + subst r. simpl. split; [repeat split |]. right. right. eexists.
      split; [reflexivity |]. split; [reflexivity |]. intros _. split; reflexivity.
    + subst r. simpl. split; [repeat split |]. right. right. eexists.
      split; [reflexivity |]. split; [reflexivity |]. intros _. split; reflexivity.
  - subst r. simpl. split; [repeat split |]. right. right. eexists.
    split; [reflexivity |]. split; [reflexivity |]. intros _. split; reflexivity.
Qed.

(** What a reload restores. *)
Lemma reload_cases (p : Page) :
  setItem_fails (reload p) = setItem_fails p /\
  ((exists t v,
      auth_token p = Some t /\ auth_user p = Some (Stringified v) /\
      t <> EmptyString /\ v <> JUndefined /\ length (split "." t) = 3%nat /\
      state (reload p) = mkAuthState v (JStr t) true false JNull /\
      auth_token (reload p) = Some t /\ auth_user (reload p) = Some (Stringified v)) \/
   (state (reload p) = initialAuthState /\
    ((auth_token (reload p) = None /\ auth_user (reload p) = None) \/
     (present (auth_token p) && present_user (auth_user p) = false /\
      auth_token (reload p) = auth_token p /\ auth_user (reload p) = auth_user p)))).
Proof.
  unfold reload, reloaded, initializeAuth, try_catch, bind, reads. simpl.
  destruct (auth_token p) as [t |] eqn:Ht; simpl;
    [| split; [reflexivity | right; split; [reflexivity | right; repeat split]]].
  destruct (String.eqb_spec t "") as [-> | Hne]; simpl;
    [split; [reflexivity | right; split; [reflexivity | right; repeat split]] |].
  destruct (auth_user p) as [[v | u] |] eqn:Hu; simpl.
  - destruct (length (split "." t) =? 3)%nat eqn:Hparts.
    + apply Nat.eqb_eq in Hparts.
      destruct v; simpl; rewrite ?Hparts; simpl;
        (split; [reflexivity |]);
        try (left; eexists _, _; repeat split; try eassumption; try reflexivity; discriminate).
      right. split; [reflexivity | left; split; reflexivity].
    + destruct v; simpl; rewrite ?Hparts; simpl;
        (split; [reflexivity |]); right; (split; [reflexivity | left; split; reflexivity]).
  - destruct (String.eqb u ""); simpl; (split; [reflexivity |]); right;
      (split; [reflexivity |]); [right; repeat split | left; split; reflexivity].
  - split; [reflexivity |]. right. split; [reflexivity |]. right. repeat split.
Qed.

Lemma at_rest_signed_in (u t : JsValue) :
  truthy t = true -> at_rest (mkAuthState u t true false JNull).
Proof.
  intros Ht. split; [reflexivity |]. split; [discriminate |]. intros _. exact Ht.
Qed.

Lemma at_rest_failed (s : AuthState) (e : JsValue) :
  at_rest s ->
  at_rest (mkAuthState (user s) (token s) (isAuthenticated s) false e).
Proof.
  intros (_ & Hout & Hin). split; [reflexivity |]. split; assumption.
Qed.

(** Every operation of the provider keeps the state at rest and, while
    localStorage takes the writes, in agreement with the storage. *)
Lemma run_keeps (op : Operation) (p : Page) :
  at_rest (state p) -> (storage_holds p -> stored_agrees p) ->
  setItem_fails (run op p) = setItem_fails p /\
  at_rest (state (run op p)) /\
  (storage_holds p -> stored_agrees (run op p)).
Proof.
  intros Hrest Hagree. destruct op as [email password | userData | |]; simpl.
  - destruct (login_cases email password p) as ((Hf & _ & _) & Hcase).
    split; [exact Hf |].
    destruct Hcase as [(response & st & _ & _ & Ht & _ & Hs & Htok & Hus)
                      | (e & _ & Hs & Hkeep)]; rewrite Hs.
    + split; [apply at_rest_signed_in; exact Ht |]. intros _ _.
      rewrite Hs, Htok, Hus. split; reflexivity.
    + split; [apply at_rest_failed; exact Hrest |]. intros Hh.
      destruct (Hkeep Hh) as [Htok Hus]. unfold stored_agrees.
      rewrite Hs, Htok, Hus. simpl. exact (Hagree Hh).
  - destruct (register_cases userData p) as ((Hf & _) & Hcase).
    split; [exact Hf |].
    destruct Hcase as [(_ & Hr)
                      | [(response & st & _ & _ & _ & Ht & _ & Hs & Htok & Hus)
                        | (e & _ & Hs & Hkeep)]].
    + rewrite Hr. simpl. split; assumption.
    + rewrite Hs. split; [apply at_rest_signed_in; exact Ht |]. intros _ _.
      rewrite Hs, Htok, Hus. split; reflexivity.
    + rewrite Hs. split; [apply at_rest_failed; exact Hrest |]. intros Hh.
      destruct (Hkeep Hh) as [Htok Hus]. unfold stored_agrees.
      rewrite Hs, Htok, Hus. simpl. exact (Hagree Hh).
  - split; [reflexivity |]. split.
    + split; [reflexivity |]. split; [intros _; split; reflexivity | discriminate].
    + intros _ H. discriminate H.
  - split; [reflexivity |]. split.
    + destruct Hrest as (Hl & Hout & Hin). split; [exact Hl |]. split; assumption.
    + exact Hagree.
Qed.

(** X18: from the page load on, whatever the network answers and
    whichever of login, register, logout and clearError are called, the
    state is at rest after each call (not loading; signed out with no
    user and no token, or signed in with a truthy token) and, as long as
    localStorage takes the writes, a signed-in state has its token and its
    user stored under 'auth_token' and 'auth_user'. *)
Theorem provider_keeps_state_and_storage_in_step (p0 : Page) (ops : list Operation) :
  let p := run_all ops (reload p0) in
  at_rest (state p) /\ (storage_holds p0 -> stored_agrees p).
Proof.
  intros p. subst p.
  assert (Hstart : setItem_fails (reload p0) = setItem_fails p0 /\
                   at_rest (state (reload p0)) /\
                   (storage_holds (reload p0) -> stored_agrees (reload p0))).
  { destruct (reload_cases p0) as [Hf Hcase]. split; [exact Hf |].
    destruct Hcase as [(t & v & _ & _ & Hne & Hv & _ & Hs & Htok & Hus) | [Hs _]].
    - rewrite Hs. split.
      + apply at_rest_signed_in. simpl. destruct t; [congruence | reflexivity].
      + intros _ _. rewrite Hs, Htok, Hus. simpl. split; [reflexivity |].
        destruct v; try reflexivity. congruence.
    - rewrite Hs. split.
      + split; [reflexivity |]. split; [intros _; split; reflexivity | discriminate].
      + intros _ H. rewrite Hs in H. discriminate H. }
  revert Hstart. generalize (reload p0) as p. unfold run_all.
  induction ops as [| op ops IH]; intros p (Hf & Hrest & Hagree); simpl.
  - split; [exact Hrest |]. intros Hh. apply Hagree. intros n. rewrite Hf. apply Hh.
  - destruct (run_keeps op p Hrest Hagree) as (Hf' & Hrest' & Hagree').
    apply IH. split; [rewrite Hf'; exact Hf |]. split; [exact Hrest' |].
    intros Hh. apply Hagree'. intros n. rewrite <- Hf'. apply Hh.
Qed.

(** *** A session against server-local.js *)

(** A 2xx response with an object that holds a truthy token signs the
    user in, when localStorage takes the two writes. *)
Lemma login_succeeds (email password : JsValue) (p : Page) (st : nat)
    (data : gmap string JsValue) :
  answered p (login_request p email password) (Client.HttpResponse st (Some (JObj data))) ->
  Client.ok st = true ->
  truthy (get (JObj data) "token") = true ->
  storage_holds p ->
  let u := JObj (delete "token" data) in
  let t := get (JObj data) "token" in
  login email password p =
    (Returns (Succeeded u),
     mkPage (mkAuthState u t true false JNull) (Some (ToString t)) (Some (Stringified u))
            (setItem_fails p) (S (S (setItem_calls p))) (network p)
            (requests p ++ [login_request p email password])).
Proof.
  intros Hnet Hok Ht Hs u t.
  unfold login, bind, try_catch, dispatch, ret, throw. cbv beta.
  match goal with |- context [apiRequest _ _ _ ?x] => set (p1 := x) end.
  destruct (apiRequest_run "/auth/login" "POST" (login_body email password) p1)
    as (Hsnd & _ & Hobj).
  specialize (Hobj st data Hnet). rewrite Hok in Hobj.
  destruct (apiRequest "/auth/login" "POST" (login_body email password) p1) as [o p2].
  simpl in Hsnd, Hobj. subst o p2. rewrite Ht, storeAuthData_run. simpl.
  rewrite !Hs. reflexivity.
Qed.

Lemma register_succeeds (userData : gmap string JsValue) (p : Page) (st : nat)
    (data : gmap string JsValue) :
  answered p (register_request p (JObj userData))
           (Client.HttpResponse st (Some (JObj data))) ->
  Client.ok st = true ->
  truthy (get (JObj data) "success") = true ->
  truthy (get (JObj data) "token") = true ->
  storage_holds p ->
  let u := get (JObj data) "user" in
  let t := get (JObj data) "token" in
  register (JObj userData) p =
    (Returns (Succeeded u),
     mkPage (mkAuthState u t true false JNull) (Some (ToString t)) (Some (JSON_stringify u))
            (setItem_fails p) (S (S (setItem_calls p))) (network p)
            (requests p ++ [register_request p (JObj userData)])).
Proof.
  intros Hnet Hok Hsucc Ht Hs u t.
  unfold register, property, bind, try_catch, dispatch, ret, throw. cbv beta iota.
  match goal with |- context [apiRequest _ _ _ ?x] => set (p1 := x) end.
  destruct (apiRequest_run "/auth/register" "POST" (JObj userData) p1)
    as (Hsnd & _ & Hobj).
  specialize (Hobj st data Hnet). rewrite Hok in Hobj.
  destruct (apiRequest "/auth/register" "POST" (JObj userData) p1) as [o p2].
  simpl in Hsnd, Hobj. subst o p2. rewrite Hsucc, Ht. cbv beta iota delta [andb].
  rewrite storeAuthData_run. simpl.
  rewrite !Hs. reflexivity.
Qed.

(** What the two routes answer when they accept. *)
Lemma login_accepted (d : Accounts.Disk) (body : JsValue) (now : string) :
  Accounts.status (fst (Accounts.login d body now)) = 200%nat ->
  exists account,
    In account (Accounts.readDB (Accounts.users_json d)) /\
    fst (Accounts.login d body now) =
      Accounts.mkAnswer 200
        (Accounts.Authenticated true "Login successful"
           (Accounts.without_password (Accounts.logged_in account now))
           (Accounts.mock_token (Accounts.user_id account))).
Proof.
  unfold Accounts.login.
  destruct (negb (truthy (get body "email")) || negb (truthy (get body "password")));
    [discriminate |].
  destruct (Accounts.findIndex _ _) as [found |]; [| discriminate].
  destruct (List.find _ _) as [account |] eqn:Hfind; [| discriminate].
  destruct (Accounts.writeDB _ _). simpl. intros _.
  exists account. split; [| reflexivity].
  apply find_some in Hfind. apply Hfind.
Qed.

Lemma register_accepted (d : Accounts.Disk) (body : JsValue) (now : string) :
  Accounts.status (fst (Accounts.register d body now)) = 201%nat ->
  truthy (get body "username") = true /\
  fst (Accounts.register d body now) =
    Accounts.mkAnswer 201
      (Accounts.Authenticated true "User registered successfully"
         (Accounts.mkPublicUser (length (Accounts.readDB (Accounts.users_json d)) + 1)
                                (get body "username") (get body "email") now None)
         (Accounts.mock_token (length (Accounts.readDB (Accounts.users_json d)) + 1))).
Proof.
  unfold Accounts.register.
  destruct (truthy (get body "username")); [| discriminate].
  destruct (negb true || negb (truthy (get body "email"))
            || negb (truthy (get body "password"))); [discriminate |].
  destruct (List.find _ _); [discriminate |].
  destruct (Accounts.writeDB _ _). simpl. intros _. split; reflexivity.
Qed.

(** The tokens of server-local.js hold no dot. *)
Lemma occurrences_app (c : ascii) (a b : string) :
  occurrences c (a +:+ b) = (occurrences c a + occurrences c b)%nat.
Proof.
  induction a as [| x a IH]; simpl; [reflexivity |]. rewrite IH. lia.
Qed.

Lemma mock_token_parts (id : nat) :
  length (split "." (Accounts.mock_token id)) = 1%nat /\
  Accounts.mock_token id <> EmptyString.
Proof.
  split; [| discriminate].
  rewrite ClientMoreFacts.split_length. unfold Accounts.mock_token.
  rewrite occurrences_app. simpl.
  rewrite ClientMoreFacts.occurrences_digits; [reflexivity | reflexivity |].
  apply (ClientMoreFacts.pretty_numeral (N.of_nat id)).
Qed.

(** A stored token that is not made of three dot-separated parts is
    dropped by the next page load, with the stored user. *)
Lemma reload_drops (p : Page) (t : string) (item : Stored) :
  auth_token p = Some t -> auth_user p = Some item ->
  t <> EmptyString -> present_user (Some item) = true ->
  length (split "." t) <> 3%nat ->
  state (reload p) = initialAuthState /\
  auth_token (reload p) = None /\ auth_user (reload p) = None.
Proof.
  intros Ht Hu Hne Hitem Hparts.
  destruct (reload_cases p) as [_ [(t' & v & Ht' & _ & _ & _ & Hlen & _) | [Hs Hcase]]].
  - rewrite Ht in Ht'. inversion Ht'; subst. contradiction.
  - split; [exact Hs |]. destruct Hcase as [Hc | (Hp & _)]; [exact Hc |].
    rewrite Ht, Hu, Hitem in Hp. simpl in Hp.
    destruct (String.eqb_spec t ""); [contradiction | discriminate Hp].
Qed.

(** X19: a session opened against server-local.js does not survive a
    reload.  A login the server answers with 200 signs the user in and
    stores the server's token 'mock-jwt-token-<id>'; the next page load
    finds a token that is not made of three dot-separated parts, clears
    both stored items and starts signed out. *)
Theorem server_session_lost_on_reload (p : Page) (d : Accounts.Disk)
    (email password : JsValue) (now : string) :
  let answer := fst (Accounts.login d (login_body email password) now) in
  Accounts.status answer = 200%nat ->
  answered p (login_request p email password) (served answer) ->
  storage_holds p ->
  let p1 := snd (login email password p) in
  (exists id,
     isAuthenticated (state p1) = true /\
     token (state p1) = JStr (Accounts.mock_token id) /\
     auth_token p1 = Some (Accounts.mock_token id)) /\
  state (reload p1) = initialAuthState /\
  auth_token (reload p1) = None /\ auth_user (reload p1) = None.
Proof.
  intros answer Hst Hnet Hs p1.
  destruct (login_accepted d (login_body email password) now Hst) as (account & _ & Hans).
  fold answer in Hans. unfold served in Hnet. rewrite Hans in Hnet. simpl in Hnet.
  pose proof (login_succeeds email password p _ _ Hnet eq_refl eq_refl Hs) as Hrun.
  subst p1. rewrite Hrun. simpl snd.
  destruct (mock_token_parts (Accounts.user_id account)) as [Hparts Hne].
  split.
  - exists (Accounts.user_id account). repeat split.
  - eapply reload_drops; [reflexivity | reflexivity | exact Hne | reflexivity |].
    change (length (split "." (Accounts.mock_token (Accounts.user_id account))) <> 3%nat).
    rewrite Hparts. discriminate.
Qed.

(** X20: after a login that server-local.js answers with 200, the user
    of the context is the response without its token, an object that
    holds the account under [user] and has no [username] and no [id] of
    its own.  So the clickstream service, initialised with it, tracks the
    learner as 'anonymous', and the home page asks the per-user route for
    the user 'undefined', whose answer holds none of the events tracked
    as 'anonymous'. *)
Theorem login_signs_in_without_name (p : Page) (d : Accounts.Disk)
    (email password : JsValue) (now : string) :
  let answer := fst (Accounts.login d (login_body email password) now) in
  Accounts.status answer = 200%nat ->
  answered p (login_request p email password) (served answer) ->
  storage_holds p ->
  let u := user (state (snd (login email password p))) in
  fst (login email password p) = Returns (Succeeded u) /\
  (exists account,
     In account (Accounts.readDB (Accounts.users_json d)) /\
     get u "user" = json_of_user (Accounts.without_password (Accounts.logged_in account now))) /\
  get u "username" = JUndefined /\ get u "id" = JUndefined /\
  (forall w, tracked_as u w = JStr "anonymous") /\
  ToString (or_else (get u "username") (get u "id")) = "undefined" /\
  (forall fs e, In e (Server.data_of (Server.get_user_clickstream fs "undefined")) ->
                userId e <> JStr "anonymous").
Proof.
  intros answer Hst Hnet Hs u.
  destruct (login_accepted d (login_body email password) now Hst) as (account & Hin & Hans).
  fold answer in Hans. unfold served in Hnet. rewrite Hans in Hnet. simpl in Hnet.
  pose proof (login_succeeds email password p _ _ Hnet eq_refl eq_refl Hs) as Hrun.
  subst u. rewrite Hrun. simpl fst. simpl snd. simpl state. simpl user.
  remember (JObj (delete "token" _)) as U eqn:HU.
  assert (Hname : get U "username" = JUndefined) by (rewrite HU; reflexivity).
  assert (Hid : get U "id" = JUndefined) by (rewrite HU; reflexivity).
  assert (Huser : get U "user" = json_of_user (Accounts.without_password
                                                 (Accounts.logged_in account now)))
    by (rewrite HU; reflexivity).
  clear HU.
  split; [reflexivity |].
  split; [exists account; split; [exact Hin | exact Huser] |].
  split; [exact Hname |]. split; [exact Hid |].
  split; [| split].
  - intros w. unfold tracked_as. rewrite ClientFacts.initialize_binds_user.
    simpl Client.this_userId. rewrite Hname, Hid. reflexivity.
  - rewrite Hname, Hid. reflexivity.
  - intros fs e He Hu.
    apply ServerFacts.get_user_clickstream_data in He. destruct He as [_ He].
    rewrite Hu in He. discriminate He.
Qed.

(** The JSON of an account holds its user name. *)
Lemma json_of_user_named (account : Accounts.PublicUser) :
  truthy (Accounts.public_username account) = true ->
  get (json_of_user account) "username" = Accounts.public_username account /\
  JSON_stringify (json_of_user account) = Stringified (json_of_user account).
Proof.
  destruct account as [i name mail created last]. unfold json_of_user. simpl.
  intros Hname.
  destruct name; try discriminate Hname; destruct mail, last; split; reflexivity.
Qed.

(** X21: after a registration that server-local.js answers with 201, the
    user of the context is the new account, so the clickstream service
    tracks the learner under the user name registered (the same learner
    is 'anonymous' after a login); the token stored has the server's
    format and the session is lost on the next page load. *)
Theorem register_signs_in_with_name (p : Page) (d : Accounts.Disk)
    (userData : JsValue) (now : string) :
  let answer := fst (Accounts.register d userData now) in
  Accounts.status answer = 201%nat ->
  answered p (register_request p userData) (served answer) ->
  storage_holds p ->
  let p1 := snd (register userData p) in
  let u := user (state p1) in
  fst (register userData p) = Returns (Succeeded u) /\
  get u "username" = get userData "username" /\
  (forall w, tracked_as u w = get userData "username") /\
  state (reload p1) = initialAuthState.
Proof.
  intros answer Hst Hnet Hs p1 u.
  destruct (register_accepted d userData now Hst) as (Hname & Hans).
  fold answer in Hans. unfold served in Hnet. rewrite Hans in Hnet. simpl in Hnet.
  destruct userData as [| | | | | body]; try discriminate Hname.
  pose proof (register_succeeds body p _ _ Hnet eq_refl eq_refl eq_refl Hs) as Hrun.
  cbv zeta in Hrun.
  set (name := get (JObj body) "username") in *.
  set (id := (length (Accounts.readDB (Accounts.users_json d)) + 1)%nat) in *.
  remember (get (JObj _) "user") as U eqn:HU in Hrun.
  subst u p1. rewrite Hrun. simpl fst. simpl snd. simpl state. simpl user.
  assert (HU' : U = json_of_user (Accounts.mkPublicUser id name (get (JObj body) "email")
                                                        now None))
    by (rewrite HU; reflexivity).
  clear HU.
  assert (Hshape : get U "username" = name /\ JSON_stringify U = Stringified U)
    by (rewrite HU'; apply (json_of_user_named (Accounts.mkPublicUser _ _ _ _ _)), Hname).
  destruct Hshape as [Hu Hjson].
  split; [reflexivity |]. split; [exact Hu |]. split.
  - intros w. unfold tracked_as. rewrite ClientFacts.initialize_binds_user.
    simpl Client.this_userId. rewrite Hu. unfold or_else at 2. rewrite Hname.
    unfold or_else. rewrite Hname. reflexivity.
  - destruct (mock_token_parts id) as [Hparts Hne].
    eapply reload_drops; [reflexivity | reflexivity | exact Hne | |].
    + rewrite Hjson. reflexivity.
    + change (length (split "." (Accounts.mock_token id)) <> 3%nat).
      rewrite Hparts. discriminate.
Qed.

(** What the login route answers when it refuses. *)
Lemma login_refused (d : Accounts.Disk) (email password : JsValue) (now : string) :
  Accounts.status (fst (Accounts.login d (login_body email password) now)) <> 200%nat ->
  fst (Accounts.login d (login_body email password) now) =
    if truthy email && truthy password
    then Accounts.mkAnswer 401 (Accounts.Rejected false "Invalid email or password")
    else Accounts.mkAnswer 400 (Accounts.Rejected false "Email and password are required").
Proof.
  unfold Accounts.login.
  assert (He : get (login_body email password) "email" = email) by reflexivity.
  assert (Hp : get (login_body email password) "password" = password) by reflexivity.
  rewrite He, Hp.
  destruct (truthy email), (truthy password); simpl; try reflexivity.
  destruct (Accounts.findIndex _ _); [| reflexivity].
  destruct (List.find _ _); [| reflexivity].
  destruct (Accounts.writeDB _ _). simpl. congruence.
Qed.

(** X22: a login that server-local.js refuses resolves to a failure that
    carries the server's message: 'Email and password are required' when
    one of them is falsy, 'Invalid email or password' otherwise.  The
    message becomes the error of the state, loading ends, and whoever was
    signed in stays signed in: user, token and the stored items are
    untouched. *)
Theorem refused_login_shows_server_message (p : Page) (d : Accounts.Disk)
    (email password : JsValue) (now : string) :
  let answer := fst (Accounts.login d (login_body email password) now) in
  Accounts.status answer <> 200%nat ->
  answered p (login_request p email password) (served answer) ->
  let message :=
    if truthy email && truthy password then "Invalid email or password"
    else "Email and password are required" in
  login email password p =
    (Returns (Failed message),
     mkPage (mkAuthState (user (state p)) (token (state p)) (isAuthenticated (state p))
                         false (JStr message))
            (auth_token p) (auth_user p) (setItem_fails p) (setItem_calls p) (network p)
            (requests p ++ [login_request p email password])).
Proof.
  intros answer Hst Hnet message.
  pose proof (login_refused d email password now Hst) as Hans. fold answer in Hans.
  unfold served in Hnet. rewrite Hans in Hnet.
  unfold login, bind, try_catch, dispatch, ret, throw. cbv beta.
  match goal with |- context [apiRequest _ _ _ ?x] => set (p1 := x) end.
  destruct (apiRequest_run "/auth/login" "POST" (login_body email password) p1)
    as (Hsnd & _ & Hobj).
  subst message.
  destruct (truthy email && truthy password); simpl in Hnet;
    specialize (Hobj _ _ Hnet); simpl in Hobj;
    destruct (apiRequest "/auth/login" "POST" (login_body email password) p1) as [o p2];
    simpl in Hsnd, Hobj; subst o p2; reflexivity.
Qed.

(** X25: against server-mock.js a registration cannot succeed: the
    route answers 200 with [success: true] but without a token, so
    [register] resolves to a failure whose message, shown as the error of
    the state, is the server's 'User registered successfully (mock)';
    nobody is signed in by it and nothing is stored. *)
Theorem mock_registration_fails_with_success_message (p : Page)
    (userData : gmap string JsValue) :
  answered p (register_request p (JObj userData))
           (Mock.served (Mock.register (JObj userData))) ->
  register (JObj userData) p =
    (Returns (Failed "User registered successfully (mock)"),
     mkPage (mkAuthState (user (state p)) (token (state p)) (isAuthenticated (state p))
                         false (JStr "User registered successfully (mock)"))
            (auth_token p) (auth_user p) (setItem_fails p) (setItem_calls p) (network p)
            (requests p ++ [register_request p (JObj userData)])).
Proof.
  intros Hnet. unfold Mock.served, Mock.register in Hnet.
  unfold register, property, bind, try_catch, dispatch, ret, throw. cbv beta iota.
  match goal with |- context [apiRequest _ _ _ ?x] => set (p1 := x) end.
  destruct (apiRequest_run "/auth/register" "POST" (JObj userData) p1)
    as (Hsnd & _ & Hobj).
  specialize (Hobj _ _ Hnet). simpl in Hobj.
  destruct (apiRequest "/auth/register" "POST" (JObj userData) p1) as [o p2].
  simpl in Hsnd, Hobj. subst o p2. reflexivity.
Qed.

End WithRuntime.

(** A witness for X25: alice registers from a page just opened. *)
Lemma mock_registration_fails_with_success_message_witness :
  let userData := <["username" := JStr "alice"]> (<["email" := JStr "a@example.com"]>
                    (<["password" := JStr "secret"]> ∅)) in
  let p := opened (Mock.served (Mock.register (JObj userData))) in
  fst (register (rt := Sample.runtime) (JObj userData) p)
    = Returns (Failed "User registered successfully (mock)") /\
  isAuthenticated (state (snd (register (rt := Sample.runtime) (JObj userData) p))) = false.
Proof.
  intros userData p.
  assert (Hnet : answered p (register_request (rt := Sample.runtime) p (JObj userData))
                   (Mock.served (Mock.register (JObj userData)))) by reflexivity.
  rewrite (mock_registration_fails_with_success_message (rt := Sample.runtime)
             p userData Hnet).
  split; reflexivity.
Defined.

(** A witness for X19: alice, registered on a fresh data directory, logs
    in from a page just opened; after the reload she is signed out. *)
Lemma server_session_lost_on_reload_witness :
  let d := snd (Accounts.register Accounts.fresh
                  (Accounts.credentials (JStr "alice") (JStr "a@example.com") (JStr "secret"))
                  "2024-01-01T09:00:00.000Z") in
  let answer := fst (Accounts.login d (login_body (JStr "a@example.com") (JStr "secret"))
                                    "2024-01-01T09:05:00.000Z") in
  let p1 := snd (login (rt := Sample.runtime) (JStr "a@example.com") (JStr "secret")
                       (opened (served answer))) in
  auth_token p1 = Some "mock-jwt-token-1" /\
  isAuthenticated (state (reload p1)) = false.
Proof.
  intros d answer p1.
  assert (Hst : Accounts.status answer = 200%nat) by reflexivity.
  assert (Hnet : answered (opened (served answer))
                   (login_request (rt := Sample.runtime) (opened (served answer))
                                  (JStr "a@example.com") (JStr "secret"))
                   (served answer)) by reflexivity.
  assert (Hs : storage_holds (opened (served answer))) by (intros n; reflexivity).
  destruct (server_session_lost_on_reload (rt := Sample.runtime) (opened (served answer)) d
              (JStr "a@example.com") (JStr "secret") "2024-01-01T09:05:00.000Z"
              Hst Hnet Hs) as (_ & Hstate & _).
  split; [reflexivity |]. fold answer p1 in Hstate. rewrite Hstate. reflexivity.
Defined.

(** A witness for X20: the same login; the clickstream service then
    tracks alice as 'anonymous'. *)
Lemma login_signs_in_without_name_witness :
  let d := snd (Accounts.register Accounts.fresh
                  (Accounts.credentials (JStr "alice") (JStr "a@example.com") (JStr "secret"))
                  "2024-01-01T09:00:00.000Z") in
  let answer := fst (Accounts.login d (login_body (JStr "a@example.com") (JStr "secret"))
                                    "2024-01-01T09:05:00.000Z") in
  let p1 := snd (login (rt := Sample.runtime) (JStr "a@example.com") (JStr "secret")
                       (opened (served answer))) in
  tracked_as (user (state p1)) (Examples.page_of false None false Examples.online)
    = JStr "anonymous".
Proof.
  intros d answer p1.
  assert (Hst : Accounts.status answer = 200%nat) by reflexivity.
  assert (Hnet : answered (opened (served answer))
                   (login_request (rt := Sample.runtime) (opened (served answer))
                                  (JStr "a@example.com") (JStr "secret"))
                   (served answer)) by reflexivity.
  assert (Hs : storage_holds (opened (served answer))) by (intros n; reflexivity).
  destruct (login_signs_in_without_name (rt := Sample.runtime) (opened (served answer)) d
              (JStr "a@example.com") (JStr "secret") "2024-01-01T09:05:00.000Z"
              Hst Hnet Hs) as (_ & _ & _ & _ & Htrack & _).
  apply Htrack.
Defined.

(** A witness for X21: alice registers from a page just opened and is
    tracked as 'alice'. *)
Lemma register_signs_in_with_name_witness :
  let userData := Accounts.credentials (JStr "alice") (JStr "a@example.com") (JStr "secret") in
  let answer := fst (Accounts.register Accounts.fresh userData "2024-01-01T09:00:00.000Z") in
  let p1 := snd (register (rt := Sample.runtime) userData (opened (served answer))) in
  tracked_as (user (state p1)) (Examples.page_of false None false Examples.online)
    = JStr "alice".
Proof.
  intros userData answer p1.
  assert (Hst : Accounts.status answer = 201%nat) by reflexivity.
  assert (Hnet : answered (opened (served answer))
                   (register_request (rt := Sample.runtime) (opened (served answer)) userData)
                   (served answer)) by reflexivity.
  assert (Hs : storage_holds (opened (served answer))) by (intros n; reflexivity).
  destruct (register_signs_in_with_name (rt := Sample.runtime) (opened (served answer))
              Accounts.fresh userData "2024-01-01T09:00:00.000Z" Hst Hnet Hs)
    as (_ & _ & Htrack & _).
  apply Htrack.
Defined.

(** A witness for X22: a login with a wrong password on the directory
    that holds alice. *)
Lemma refused_login_shows_server_message_witness :
  let d := snd (Accounts.register Accounts.fresh
                  (Accounts.credentials (JStr "alice") (JStr "a@example.com") (JStr "secret"))
                  "2024-01-01T09:00:00.000Z") in
  let answer := fst (Accounts.login d (login_body (JStr "a@example.com") (JStr "guess"))
                                    "2024-01-01T09:05:00.000Z") in
  fst (login (rt := Sample.runtime) (JStr "a@example.com") (JStr "guess")
             (opened (served answer)))
    = Returns (Failed "Invalid email or password").
Proof.
  intros d answer.
  assert (Hst : Accounts.status answer <> 200%nat) by discriminate.
  assert (Hnet : answered (opened (served answer))
                   (login_request (rt := Sample.runtime) (opened (served answer))
                                  (JStr "a@example.com") (JStr "guess"))
                   (served answer)) by reflexivity.
  rewrite (refused_login_shows_server_message (rt := Sample.runtime)
             (opened (served answer)) d (JStr "a@example.com") (JStr "guess")
             "2024-01-01T09:05:00.000Z" Hst Hnet).
  reflexivity.
Defined.

End AuthFacts.
(* ===================================================================== *)
(** * Properties of the quiz *)
(* ===================================================================== *)

Module QuizFacts.
Import Client ClientMore JsMore Quiz.

Lemma count_hits_bounds (hits : list bool) (acc : nat) :
  (acc <= fold_left (fun correct hit => if hit : bool then S correct else correct) hits acc
       <= acc + length hits)%nat.
Proof.
  revert acc. induction hits as [| hit hits IH]; intros acc; simpl; [lia |].
  destruct hit; [specialize (IH (S acc)) | specialize (IH acc)]; lia.
Qed.

(** The score never exceeds the number of answers. *)
Lemma calculateScore_le (questions : list Accounts.Question) (answersArray : list (option nat)) :
  (calculateScore questions answersArray <= length answersArray)%nat.
Proof.
  unfold calculateScore.
  pose proof (count_hits_bounds
                (imap (fun index answer =>
                         strict_eq (answer_value answer) (correct_at questions index))
                      answersArray) 0) as H.
  rewrite length_imap in H. lia.
Qed.

(** Selecting an option posts one 'quiz_answer' event. *)
Lemma handleAnswerSelect_posts (course : Course) (answerIndex : nat)
    (q : QuizState) (w : World) :
  this_isInitialized (this w) = true ->
  let w1 := snd (handleAnswerSelect course answerIndex q w) in
  this w1 = this w /\
  exists e, posted w1 = posted w ++ [e] /\ is_answer e.
Proof.
  intros Hinit w1. subst w1. unfold handleAnswerSelect, fire, trackQuizAnswer.
  simpl snd. unfold bind at 1, reads at 1.
  split; [apply ClientFacts.trackEvent_keeps_this |].
  eexists. split; [apply ClientFacts.trackEvent_posts_one_event; exact Hinit |].
  reflexivity.
Qed.

(** Finishing the quiz posts one 'quiz_complete' event with the score of
    the answers, the number of questions and the age of the session. *)
Lemma finish_posts (course : Course) (Date_now : N) (score : nat) (w : World)
    (t0 : N) (random : string) :
  this_isInitialized (this w) = true ->
  this_sessionId (this w) = generateSessionId t0 random ->
  let total := length (course_questions course) in
  let w1 := fire (trackQuizComplete (course_id course) (float_of_Z (Z.of_nat score))
                    (float_of_Z (Z.of_nat total))
                    (timeSpent_of Date_now (this_sessionId (this w)))) w in
  this w1 = this w /\
  exists e, posted w1 = posted w ++ [e] /\
    eventType e = JStr "quiz_complete" /\
    get (eventData e) "totalQuestions" = number total /\
    get (eventData e) "score" = number score /\
    get (eventData e) "timeSpent" = JNum (float_of_Z (Z.of_N Date_now - Z.of_N t0)).
Proof.
  intros Hinit Hsid total w1. subst w1. unfold fire, trackQuizComplete.
  unfold bind at 1, reads at 1.
  split; [apply ClientFacts.trackEvent_keeps_this |].
  eexists. split; [apply ClientFacts.trackEvent_posts_one_event; exact Hinit |].
  split; [reflexivity |]. split; [reflexivity |]. split; [reflexivity |].
  rewrite Hsid. unfold timeSpent_of, elapsed.
  rewrite ClientMoreFacts.session_start_of_generated. reflexivity.
Qed.

(** One click. *)
Lemma click_step (course : Course) (c : Click) (q : QuizState) (w : World)
    (t0 : N) (random : string) :
  this_isInitialized (this w) = true ->
  this_sessionId (this w) = generateSessionId t0 random ->
  let total := length (course_questions course) in
  in_progress total q ->
  let q1 := fst (click course c q w) in
  let w1 := snd (click course c q w) in
  this w1 = this w /\
  exists new,
    posted w1 = posted w ++ new /\
    Forall (fun e => is_answer e \/ is_completion total t0 e) new /\
    in_progress total q1 /\
    forall sofar, reported course q sofar -> reported course q1 (sofar ++ new).
Proof.
  intros Hinit Hsid total Hq q1 w1. subst q1 w1. unfold click. fold total.
  assert (Hidle : this w = this w /\
            exists new, posted w = posted w ++ new /\
              Forall (fun e => is_answer e \/ is_completion total t0 e) new /\
              in_progress total q /\
              forall sofar, reported course q sofar -> reported course q (sofar ++ new)).
  { split; [reflexivity |]. exists []. rewrite app_nil_r.
    split; [reflexivity |]. split; [constructor |]. split; [exact Hq |].
    intros sofar H. rewrite app_nil_r. exact H. }
  destruct (total =? 0)%nat eqn:Htotal; [exact Hidle |].
  apply Nat.eqb_neq in Htotal.
  destruct (showResults q) eqn:Hshow.
  - destruct c; try exact Hidle. simpl. split; [reflexivity |].
    exists []. rewrite app_nil_r. split; [reflexivity |]. split; [constructor |].
    split; [| intros sofar _ H; discriminate H].
    split; [constructor |]. simpl. split; [reflexivity |]. split; lia.
  - destruct Hq as [Hall Hpos]. rewrite Hshow in Hpos. destruct Hpos as (Hcur & Hle & Hlt).
    destruct c as [answerIndex | Date_now |]; [| | exact Hidle].
    + destruct (answerIndex <? options_shown course q)%nat; [| exact Hidle].
      destruct (handleAnswerSelect_posts course answerIndex q w Hinit) as (Hthis & e & Hp & He).
      split; [exact Hthis |]. exists [e]. split; [exact Hp |].
      split; [constructor; [left; exact He | constructor] |].
      split.
      * simpl. split; [exact Hall |]. rewrite Hshow. simpl. split; [exact Hcur |]. split; assumption.
      * intros sofar _ H. simpl in H. rewrite Hshow in H. discriminate H.
    + destruct (selectedAnswer q) as [selected |] eqn:Hsel; [| exact Hidle].
      unfold handleNextQuestion. fold total. rewrite Hsel.
      assert (Hall' : Forall (fun answer => answer <> None) (answers q ++ [Some selected])).
      { apply Forall_app. split; [exact Hall |]. constructor; [discriminate | constructor]. }
      destruct (currentQuestion q + 1 <? total)%nat eqn:Hmore.
      * apply Nat.ltb_lt in Hmore. simpl. split; [reflexivity |].
        exists []. rewrite app_nil_r. split; [reflexivity |]. split; [constructor |].
        split.
        -- split; [exact Hall' |]. simpl. rewrite Hshow, length_app. simpl.
           split; [lia |]. split; lia.
        -- intros sofar _ H. simpl in H. rewrite Hshow in H. discriminate H.
      * apply Nat.ltb_ge in Hmore. simpl fst. simpl snd.
        destruct (finish_posts course Date_now
                    (calculateScore (course_questions course) (answers q ++ [Some selected]))
                    w t0 random Hinit Hsid)
          as (Hthis & e & Hp & Htype & Htot & Hscore & Htime).
        fold total in Hthis, Hp, Htot.
        assert (Hlen : length (answers q ++ [Some selected]) = total)
          by (rewrite length_app; simpl; lia).
        split; [exact Hthis |]. exists [e]. split; [exact Hp |].
        split.
        -- constructor; [| constructor].
           right. split; [exact Htype |]. split; [exact Htot |].
           split; [| exists Date_now; exact Htime].
           eexists. split; [| exact Hscore]. rewrite <- Hlen. apply calculateScore_le.
        -- split.
           ++ split; [exact Hall' |]. simpl. exact Hlen.
           ++ intros sofar _ _. exists e. rewrite last_snoc. simpl.
              split; [reflexivity |]. split; [exact Htype | exact Hscore].
Qed.

Lemma clicks_keep (course : Course) (cs : list Click) (t0 : N) (random : string) :
  let total := length (course_questions course) in
  forall (q : QuizState) (w : World) (sofar : list Event),
  this_isInitialized (this w) = true ->
  this_sessionId (this w) = generateSessionId t0 random ->
  in_progress total q -> reported course q sofar ->
  exists new,
    posted (snd (clicks course cs q w)) = posted w ++ new /\
    Forall (fun e => is_answer e \/ is_completion total t0 e) new /\
    in_progress total (fst (clicks course cs q w)) /\
    reported course (fst (clicks course cs q w)) (sofar ++ new).
Proof.
  intros total. unfold clicks.
  induction cs as [| c cs IH]; intros q w sofar Hinit Hsid Hq Hrep; simpl.
  - exists []. rewrite !app_nil_r. repeat split; [constructor | apply Hq | apply Hq | exact Hrep].
  - destruct (click_step course c q w t0 random Hinit Hsid Hq)
      as (Hthis & ev & Hp & Hev & Hq1 & Hrep1).
    destruct (click course c q w) as [q1 w1]. simpl in Hthis, Hp, Hq1, Hrep1.
    destruct (IH q1 w1 (sofar ++ ev)) as (new & Hp' & Hnew & Hq' & Hrep');
      [rewrite Hthis; exact Hinit | rewrite Hthis; exact Hsid | exact Hq1
      | apply Hrep1; exact Hrep |].
    exists (ev ++ new). rewrite Hp', Hp, <- !app_assoc. split; [reflexivity |].
    split; [apply Forall_app; split; assumption |].
    split; [exact Hq' |]. rewrite app_assoc. exact Hrep'.
Qed.

(** X23: whatever the learner clicks on a quiz shown on an initialised
    page, the events posted are 'quiz_answer' events and 'quiz_complete'
    events; each 'quiz_complete' event carries the number of questions, a
    score between 0 and that number, and as [timeSpent] the time since
    the clickstream service was constructed (the age of the session, not
    the time spent on the quiz).  Only selected answers are recorded, and
    on the results page the last event posted reports the score of the
    answers recorded, one per question. *)
Theorem quiz_reports_score_of_answers (course : Course) (cs : list Click) (w : World)
    (t0 : N) (random : string) :
  this_isInitialized (this w) = true ->
  this_sessionId (this w) = generateSessionId t0 random ->
  let total := length (course_questions course) in
  let q := fst (clicks course cs initial w) in
  exists new,
    posted (snd (clicks course cs initial w)) = posted w ++ new /\
    Forall (fun e => is_answer e \/ is_completion total t0 e) new /\
    in_progress total q /\
    reported course q new.
Proof.
  intros Hinit Hsid total q.
  apply (clicks_keep course cs t0 random initial w [] Hinit Hsid).
  - split; [constructor |]. simpl. split; [reflexivity |]. split; lia.
  - intros H. discriminate H.
Qed.

(** A witness for X23: the one-question quiz of the seed data, answered
    correctly 90 seconds after the page was opened. *)
Lemma quiz_reports_score_of_answers_witness :
  let course :=
    mkCourse (JNum 3) (JStr "HTML Basics Quiz")
             [Accounts.mkQuestion (JStr "What does HTML stand for?")
                                  [JStr "Hyper Text Markup Language";
                                   JStr "High Tech Modern Language";
                                   JStr "Home Tool Markup Language"]
                                  (JNum 0)] in
  let w := Examples.page_of true None false Examples.online in
  exists e,
    last (posted (snd (clicks course [Pick 0; Next 1704067290000] initial w))) = Some e /\
    get (eventData e) "score" = number 1.
Proof.
  intros course w.
  destruct (quiz_reports_score_of_answers course [Pick 0; Next 1704067290000] w
              1704067200000 "k3x9q2m1z" eq_refl eq_refl)
    as (new & Hp & _ & _ & Hrep).
  destruct (Hrep eq_refl) as (e & Hlast & _ & Hscore).
  exists e. split; [rewrite Hp; exact Hlast | exact Hscore].
Defined.

End QuizFacts.
(* ===================================================================== *)
(** * From a tracked event to the routes that read it back *)
(* ===================================================================== *)

Module PipelineFacts.
Import Client JsMore ClientMore.


Section WithRuntime.
Context {rt : Runtime}.


End WithRuntime.


End PipelineFacts.
(* ===================================================================== *)
(** * Properties of the registration form *)
(* ===================================================================== *)

Module RegisterFormFacts.
Import RegisterForm.

Lemma test_first_line (class : N -> bool) (s : CodeUnits) :
  test class (first_line s) = true -> test class s = true.
Proof.
  unfold test. induction s as [| c s IH]; simpl; [discriminate |].
  destruct (line_terminator c); simpl; [discriminate |].
  destruct (class c); simpl; [reflexivity | exact IH].
Qed.

(** Every code unit is in one of the four classes. *)
Lemma classes_cover (c : N) (s : CodeUnits) :
  test lower (c :: s) || test upper (c :: s) || test digit (c :: s) || test other (c :: s)
    = true.
Proof.
  unfold test, other. simpl.
  destruct (lower c), (upper c), (digit c); simpl; rewrite ?orb_true_r; reflexivity.
Qed.

(** X26: a non-empty password is rated with a strength between 1 and 5
    and the label of that strength, 'Strong' exactly when it has six or
    more code units and a lower-case letter, an upper-case letter, a
    digit and another character; the fallback 'Very Weak' of a strength
    of 0 is never used.  Every password the form's schema accepts has a
    strength of at least 4, so it is shown as 'Good' or 'Strong'. *)
Theorem password_rating (password : CodeUnits) :
  password <> [] ->
  let rating := getPasswordStrength password in
  (1 <= strength rating <= 5)%nat /\
  labels !! (strength rating - 1)%nat = Some (label rating) /\
  (label rating = "Strong" <->
   (6 <= length password)%nat /\ test lower password = true /\
   test upper password = true /\ test digit password = true /\
   test other password = true) /\
  (password_accepted password = true ->
   (4 <= strength rating)%nat /\ (label rating = "Good" \/ label rating = "Strong")).
Proof.
  intros Hne rating. subst rating.
  destruct password as [| c s]; [congruence |].
  pose proof (classes_cover c s) as Hcover.
  assert (Hacc : password_accepted (c :: s) = true ->
                 (6 <=? length (c :: s))%nat = true /\ test lower (c :: s) = true /\
                 test upper (c :: s) = true /\ test digit (c :: s) = true).
  { unfold password_accepted. rewrite !andb_true_iff.
    intros (((_ & H6) & _) & (Hl & Hu) & Hd).
    repeat split; [exact H6 | | |]; apply test_first_line; assumption. }
  unfold getPasswordStrength. rewrite <- (Nat.leb_le 6 (length (c :: s))).
  destruct (6 <=? length (c :: s))%nat, (test lower (c :: s)), (test upper (c :: s)),
           (test digit (c :: s)), (test other (c :: s));
    try discriminate Hcover; simpl strength; simpl label.
  all: split; [lia |]; split; [reflexivity |]; split.
  all: try (split;
            [ intros H; first [discriminate H | repeat split; reflexivity]
            | intros (H1 & H2 & H3 & H4 & H5);
              first [reflexivity | discriminate H1 | discriminate H2 | discriminate H3
                    | discriminate H4 | discriminate H5] ]).
  all: intros H; destruct (Hacc H) as (A1 & A2 & A3 & A4);
    first [ discriminate A1 | discriminate A2 | discriminate A3 | discriminate A4
          | split; [lia | first [left; reflexivity | right; reflexivity]] ].
Qed.

(** A witness for X26: 'Passw0rd' is accepted and rated 'Good'. *)
Lemma password_rating_witness :
  let password := [80; 97; 115; 115; 119; 48; 114; 100]%N in
  password_accepted password = true /\
  label (getPasswordStrength password) = "Good".
Proof.
  intros password.
  assert (Hne : password <> []) by discriminate.
  destruct (password_rating password Hne) as (_ & Hlabel & _ & _).
  split; [reflexivity |].
  inversion Hlabel. reflexivity.
Defined.

End RegisterFormFacts.
